(** * occ-tools: the API-schema grabber ([core/local-server/grab/api-schema.js])

    A shallow embedding of [ApiSchema.makeRequest], [ApiSchema.grab] and of the
    module's exported dispatcher, with the properties of the schema-synthesis
    pipeline stated over it.

    Layout of the development:
    - [Str]: the JavaScript string primitives the pipeline uses
      ([String.prototype.replace] with a string pattern, [RegExp.prototype.test]
      for the two literal patterns [/ui/] and [/\{\}/], [toLowerCase]);
    - [Js]: JSON values as [JSON.parse] returns them, property reads and writes,
      truthiness and [ToString];
    - [Posix]: [path.join] and [path.relative] on absolute paths;
    - [Pipeline]: the environment (configuration, network, file system), the
      effect monad and the stages of [grab] in source order;
    - the properties, stage by stage. *)

From Stdlib Require Import String Ascii List ZArith Bool Lia.
From Stdlib Require Import DecimalString Permutation.
Import ListNotations.

Set Warnings "-register-all".

Local Open Scope list_scope.
Local Open Scope string_scope.

(* ------------------------------------------------------------------------- *)
(** ** JavaScript strings *)

Module Str.

(** [s.substring(n)]. *)
Fixpoint drop (n : nat) (s : string) : string :=
  match n, s with
  | O, _ => s
  | S _, EmptyString => EmptyString
  | S n', String _ s' => drop n' s'
  end.

(** [s.startsWith(pat)]. *)
Fixpoint startsWith (pat s : string) : bool :=
  match pat, s with
  | EmptyString, _ => true
  | String _ _, EmptyString => false
  | String a pat', String b s' => andb (Ascii.eqb a b) (startsWith pat' s')
  end.

(** [new RegExp(pat).test(s)] for a pattern without metacharacters: [pat]
    occurs somewhere in [s]. *)
Fixpoint contains (pat s : string) : bool :=
  if startsWith pat s then true
  else match s with
       | EmptyString => false
       | String _ s' => contains pat s'
       end.

(** [s.replace(pat, rep)] with a string pattern: only the first occurrence is
    replaced.  The source's replacement texts hold no [$], so no replacement
    pattern is expanded. *)
Fixpoint replace (pat rep s : string) : string :=
  if startsWith pat s then rep ++ drop (String.length pat) s
  else match s with
       | EmptyString => EmptyString
       | String c s' => String c (replace pat rep s')
       end.

(** [toLowerCase] on one code unit; only the Latin capitals A-Z change (strings
    are sequences of bytes here, so the capitals outside ASCII are not
    modelled). *)
Definition lower (c : ascii) : ascii :=
  let n := nat_of_ascii c in
  if andb (Nat.leb 65 n) (Nat.leb n 90) then ascii_of_nat (n + 32) else c.

Fixpoint toLowerCase (s : string) : string :=
  match s with
  | EmptyString => EmptyString
  | String c s' => String (lower c) (toLowerCase s')
  end.

(** [xs.join(sep)]. *)
Fixpoint join (sep : string) (xs : list string) : string :=
  match xs with
  | [] => EmptyString
  | [x] => x
  | x :: rest => x ++ sep ++ join sep rest
  end.

(** [xs.includes(x)] on an array of strings. *)
Definition includes (xs : list string) (x : string) : bool :=
  existsb (String.eqb x) xs.

(** [s.split(c)]: the pieces of [s] between the occurrences of [c]. *)
Fixpoint split (c : ascii) (s : string) : list string :=
  match s with
  | EmptyString => [EmptyString]
  | String d s' =>
      if Ascii.eqb d c then EmptyString :: split c s'
      else match split c s' with
           | [] => [String d EmptyString]
           | piece :: rest => String d piece :: rest
           end
  end.

End Str.

(* ------------------------------------------------------------------------- *)
(** ** JavaScript values read from JSON *)

Module Js.

(** A value as [JSON.parse] returns it.  An object is its list of own
    properties in enumeration order ([Object.keys] order: the array-index keys
    in ascending order, then the other keys in insertion order).  A number is
    carried as an integer: the pipeline only tests numbers for truthiness and
    prints them. *)
Inductive json : Type :=
| JNull
| JBool (b : bool)
| JNum (n : Z)
| JStr (s : string)
| JArr (items : list json)
| JObj (props : list (string * json)).

(** The result of reading a property: [None] is [undefined]. *)
Definition value : Type := option json.

(** What a rejected promise or a [throw] carries. *)
Inductive error : Type :=
| TransportError (reason : string)   (* [request] called back with an error *)
| SyntaxError                        (* [JSON.parse] on text that is not JSON *)
| TypeError                          (* property access on null/undefined, call of a non-function *)
| Rejected (body : json)             (* [reject(parsedBody)]: the 404 marker *)
| FileSystemError (target : list string).

Inductive outcome (A : Type) : Type :=
| Ok (a : A)
| Throw (e : error).
Arguments Ok {A} a.
Arguments Throw {A} e.

(** Own-property lookup, [props[k]]. *)
Fixpoint lookup (k : string) (props : list (string * json)) : value :=
  match props with
  | [] => None
  | (k', v) :: rest => if String.eqb k k' then Some v else lookup k rest
  end.

(** [v.k] for one of the names the pipeline reads ([status], [paths],
    [operationId], ...; none of them is [length], an index or a method of a
    prototype): a [TypeError] on [null], the own property of an object,
    [undefined] on every other JSON value. *)
Definition get (v : json) (k : string) : outcome value :=
  match v with
  | JNull => Throw TypeError
  | JObj props => Ok (lookup k props)
  | _ => Ok None
  end.

(** [Object.keys(v)] followed by [v[key]] for each key, where the pipeline
    expects a mapping: [TypeError] on [undefined] and [null], the properties of
    an object.  Every other JSON value in the place of a mapping is outside the
    model, which stops there with the same error. *)
Definition entries (v : value) : outcome (list (string * json)) :=
  match v with
  | Some (JObj props) => Ok props
  | _ => Throw TypeError
  end.

(** The receiver of a string method ([toLowerCase], [replace]): anything but a
    string has no such method, and the call throws. *)
Definition as_string (v : value) : outcome string :=
  match v with
  | Some (JStr s) => Ok s
  | _ => Throw TypeError
  end.

(** [v === lit] for a string literal. *)
Definition is_string (v : value) (lit : string) : bool :=
  match v with
  | Some (JStr s) => String.eqb s lit
  | _ => false
  end.

(** Truthiness, as [if (v)] and [!v] see it. *)
Definition truthy (v : value) : bool :=
  match v with
  | None | Some JNull => false
  | Some (JBool b) => b
  | Some (JNum n) => negb (Z.eqb n 0)
  | Some (JStr s) => negb (String.eqb s EmptyString)
  | Some (JArr _) | Some (JObj _) => true
  end.

(** [String(v)], the conversion behind template literals and [RegExp.test]. *)
Fixpoint to_string (v : json) : string :=
  match v with
  | JNull => "null"
  | JBool true => "true"
  | JBool false => "false"
  | JNum n => NilZero.string_of_int (Z.to_int n)
  | JStr s => s
  | JArr items =>
      Str.join ","
        ((fix each (l : list json) : list string :=
            match l with
            | [] => []
            | JNull :: rest => EmptyString :: each rest
            | x :: rest => to_string x :: each rest
            end) items)
  | JObj _ => "[object Object]"
  end.

Definition to_string_of (v : value) : string :=
  match v with
  | None => "undefined"
  | Some j => to_string j
  end.

(** Array-index keys: the canonical decimal numerals below 2^32 - 1.  They
    are enumerated first and in ascending order. *)
Definition digit (c : ascii) : option N :=
  let n := N_of_ascii c in
  if andb (N.leb 48 n) (N.leb n 57) then Some (n - 48)%N else None.

Fixpoint numeral (acc : N) (s : string) : option N :=
  match s with
  | EmptyString => Some acc
  | String c s' =>
      match digit c with
      | Some d => numeral (acc * 10 + d)%N s'
      | None => None
      end
  end.

Definition array_index (k : string) : option N :=
  match k with
  | EmptyString => None
  | String c rest =>
      if andb (Ascii.eqb c "0") (negb (String.eqb rest EmptyString)) then None
      else match numeral 0 k with
           | Some n => if N.ltb n 4294967295 then Some n else None
           | None => None
           end
  end.

(** Does a new key [k] enumerate before the existing key [k']? *)
Definition enumerates_before (k k' : string) : bool :=
  match array_index k, array_index k' with
  | Some a, Some b => N.ltb a b
  | Some _, None => true
  | None, _ => false
  end.

Definition has_key (k : string) (props : list (string * json)) : bool :=
  existsb (fun kv => String.eqb k (fst kv)) props.

Fixpoint overwrite (k : string) (v : json) (props : list (string * json))
  : list (string * json) :=
  match props with
  | [] => []
  | (k', v') :: rest =>
      if String.eqb k k' then (k, v) :: rest else (k', v') :: overwrite k v rest
  end.

Fixpoint create (k : string) (v : json) (props : list (string * json))
  : list (string * json) :=
  match props with
  | [] => [(k, v)]
  | (k', v') :: rest =>
      if enumerates_before k k' then (k, v) :: props
      else (k', v') :: create k v rest
  end.

(** [obj[k] = v] on an object: an existing property keeps its place, a new
    one is created at its place in the enumeration order.  The name
    [__proto__] is apart: an object that has no property of its own under
    that name inherits an accessor for it, and the assignment goes to the
    accessor, which sets the prototype of the object (or does nothing, for a
    value that is no object) and creates no property.  The prototype is not
    part of a value here: the pipeline reads its documents through
    [Object.keys] and [JSON.stringify], which see own properties only. *)
Definition assign (k : string) (v : json) (props : list (string * json))
  : list (string * json) :=
  if has_key k props then overwrite k v props
  else if String.eqb k "__proto__" then props
  else create k v props.

(** [delete obj[k]]. *)
Definition delete (k : string) (props : list (string * json))
  : list (string * json) :=
  filter (fun kv => negb (String.eqb k (fst kv))) props.

(** A property that is written only when its value is not [undefined]:
    [JSON.stringify] leaves such properties out, and reading them back gives
    [undefined] either way. *)
Definition field (k : string) (v : value) : list (string * json) :=
  match v with
  | None => []
  | Some j => [(k, j)]
  end.

End Js.

Import Js.

(* ------------------------------------------------------------------------- *)
(** ** POSIX paths *)

Module Posix.

(** An absolute, normalized path, as the list of its components below the
    root.  A trailing separator, which [path.join] keeps and [path.relative]
    and the file system ignore, is not represented. *)
Definition path : Type := list string.

(** One step of [path.normalize] on an absolute path. *)
Definition push (p : path) (segment : string) : path :=
  if orb (String.eqb segment EmptyString) (String.eqb segment ".") then p
  else if String.eqb segment ".." then removelast p
  else (p ++ [segment])%list.

(** [path.join(p, s)] for an absolute [p]. *)
Definition join (p : path) (s : string) : path :=
  fold_left push (Str.split "/" s) p.

(** The two paths without their common leading components. *)
Fixpoint diverge (from to : path) : path * path :=
  match from, to with
  | a :: from', b :: to' =>
      if String.eqb a b then diverge from' to' else (from, to)
  | _, _ => (from, to)
  end.

(** [path.relative(from, to)]. *)
Definition relative (from to : path) : string :=
  let (up, down) := diverge from to in
  Str.join "/" (map (fun _ => "..") up ++ down).

(** A name that is one ordinary component: not empty, not [.] or [..], and
    without a separator. *)
Definition plain (name : string) : bool :=
  negb (String.eqb name EmptyString) && negb (String.eqb name ".")
  && negb (String.eqb name "..") && negb (Str.contains "/" name).

Fixpoint eqb (p q : path) : bool :=
  match p, q with
  | [], [] => true
  | a :: p', b :: q' => andb (String.eqb a b) (eqb p' q')
  | _, _ => false
  end.

(** [p] is [q] or one of its ancestors. *)
Fixpoint within (p q : path) : bool :=
  match p, q with
  | [], _ => true
  | a :: p', b :: q' => andb (String.eqb a b) (within p' q')
  | _ :: _, [] => false
  end.

End Posix.

Import Posix.

(* ------------------------------------------------------------------------- *)
(** ** The pipeline *)

Module Pipeline.

(** *** The world around [grab] *)

(** What [request] hands to its callback: an error, or the transport's
    response object together with the body text.  The pipeline reads nothing
    of the response object; its status code stands for it. *)
Inductive reply : Type :=
| Failed (reason : string)
| Answered (statusCode : Z) (body : string).

(** Everything [api-schema.js] takes from outside the file.
    - [dns] is [config.endpoints.dns], [apiPath] is
      [config.dir.instanceDefinitions.oracleApi] (an absolute directory) and
      [webMIMETypes] the array read from [static/webMIMETypes.json];
    - [request] is the network, one reply per URL for the length of a run;
    - [JSON_parse] is [JSON.parse], [None] when it throws;
    - [localize data] is
      [JSON.parse(JSON.stringify(data, null, 2).replace(/https?:\/\/localhost:[0-9]+?\//g, config.endpoints.local))],
      [None] when the rewritten text is no longer JSON;
    - [writable p] tells whether the file system lets the process create or
      write [p]. *)
Record Env : Type := {
  dns : string;
  apiPath : path;
  webMIMETypes : list string;
  request : string -> reply;
  JSON_parse : string -> option json;
  localize : json -> option json;
  writable : path -> bool
}.

(** The file system below the root: the JSON documents written by
    [fs.outputJSON] and the directories made by [fs.ensureDir]. *)
Record fsys : Type := {
  files : path -> option json;
  dirs : path -> bool
}.

(** The state a run threads: the disk, and the URLs handed to [request] so
    far, oldest first. *)
Record state : Type := {
  disk : fsys;
  requested : list string
}.

(** *** Effects: state and exceptions

    A computation returns a value or throws, and leaves a state behind either
    way: what was written before a failure stays written. *)
Definition M (A : Type) : Type := state -> outcome A * state.

Definition ret {A : Type} (a : A) : M A := fun st => (Ok a, st).

Definition bind {A B : Type} (m : M A) (k : A -> M B) : M B :=
  fun st =>
    match m st with
    | (Ok a, st') => k a st'
    | (Throw e, st') => (Throw e, st')
    end.

(** A step that reads or computes without touching the state. *)
Definition lift {A : Type} (o : outcome A) : M A := fun st => (o, st).

(** [try { m } catch (error) { handler }]. *)
Definition try_catch {A : Type} (m : M A) (handler : error -> M A) : M A :=
  fun st =>
    match m st with
    | (Ok a, st') => (Ok a, st')
    | (Throw e, st') => handler e st'
    end.

Notation "x <- m ;; k" := (bind m (fun x => k))
  (at level 61, m at next level, right associativity).
Notation "x <~ o ;; k" := (bind (lift o) (fun x => k))
  (at level 61, o at next level, right associativity).

(** [for (const x of xs) { acc = body(x, acc) }]. *)
Fixpoint for_each {X S : Type} (body : X -> S -> M S) (xs : list X) (acc : S)
  : M S :=
  match xs with
  | [] => ret acc
  | x :: rest => acc' <- body x acc ;; for_each body rest acc'
  end.

(** The same loop when each round rewrites its own element in place. *)
Fixpoint for_each_in_place {X : Type} (body : X -> M X) (xs : list X)
  : M (list X) :=
  match xs with
  | [] => ret []
  | x :: rest =>
      x' <- body x ;;
      rest' <- for_each_in_place body rest ;;
      ret (x' :: rest')
  end.

(** The loops that throw but have no other effect. *)
Fixpoint fold_outcome {X S : Type} (body : S -> X -> outcome S) (xs : list X)
  (acc : S) : outcome S :=
  match xs with
  | [] => Ok acc
  | x :: rest =>
      match body acc x with
      | Ok acc' => fold_outcome body rest acc'
      | Throw e => Throw e
      end
  end.

(** *** The file system calls *)

Definition mkdir (p : path) (d : fsys) : fsys :=
  {| files := files d;
     dirs := fun q => orb (Posix.within q p) (dirs d q) |}.

Definition write (p : path) (content : json) (d : fsys) : fsys :=
  {| files := fun q => if Posix.eqb q p then Some content else files d q;
     dirs := fun q => orb (Posix.within q (removelast p)) (dirs d q) |}.

(** [fs.ensureDir(p)] and [fs.ensureDirSync(p)]: [p] and its missing
    ancestors are created. *)
Definition ensureDir (env : Env) (p : path) : M unit :=
  fun st =>
    if writable env p
    then (Ok tt, {| disk := mkdir p (disk st); requested := requested st |})
    else (Throw (FileSystemError p), st).

(** [fs.outputJSON(p, content, { spaces: 2 })]: the parent directory is
    created when missing and the file is written, replacing what was there. *)
Definition outputJSON (env : Env) (p : path) (content : json) : M unit :=
  fun st =>
    if writable env p
    then (Ok tt, {| disk := write p content (disk st); requested := requested st |})
    else (Throw (FileSystemError p), st).

(** [JSON.parse(text)]. *)
Definition parse (env : Env) (text : string) : outcome json :=
  match JSON_parse env text with
  | Some v => Ok v
  | None => Throw SyntaxError
  end.

(** *** Module constants (lines 7-12, 19-20) *)

Definition responsesPath (env : Env) : path := Posix.join (apiPath env) "responses".
Definition definitionsPath (env : Env) : path := Posix.join (apiPath env) "definitions".
Definition schemaPath (env : Env) : path := Posix.join (apiPath env) "schema.json".
Definition schemaURL (env : Env) : string := dns env ++ "/ccstore/v1/metadata-catalog".
Definition registryEndpoint (env : Env) : string := dns env ++ "/ccstoreui/v1/registry".

(** *** [makeRequest(url)] (lines 23-48)

    The promise settles once: rejected with the transport error, with the
    error thrown inside the [try] block ([JSON.parse] on a body that is not
    JSON, or the read of [status] on a parsed [null]) or with the parsed body
    that carries the 404 marker; resolved with the response and the raw body
    otherwise. *)
Definition makeRequest (env : Env) (url : string) : M (Z * string) :=
  fun st =>
    let st' := {| disk := disk st; requested := requested st ++ [url] |} in
    match request env url with
    | Failed reason => (Throw (TransportError reason), st')
    | Answered response body =>
        match parse env body with
        | Throw e => (Throw e, st')
        | Ok parsedBody =>
            match get parsedBody "status" with
            | Throw e => (Throw e, st')
            | Ok status =>
                if is_string status "404"
                then (Throw (Rejected parsedBody), st')
                else (Ok (response, body), st')
            end
        end
    end.

(** *** [grab()], stage by stage (lines 50-202) *)

(** Lines 65-67: the base path is rewritten unless [/ui/] matches it.  The
    receiver of [replace] must be a string; the assignment goes to the
    document, which is an object whenever it has a [basePath] to read. *)
Definition rewriteBasePath (basePath : string) : string :=
  Str.replace "ccstore" "ccstoreui" (Str.replace "ccadmin" "ccadminui" basePath).

Definition normalizeBasePath (schemaJSON : json) : outcome json :=
  match get schemaJSON "basePath" with
  | Throw e => Throw e
  | Ok basePath =>
      if Str.contains "ui" (to_string_of basePath) then Ok schemaJSON
      else
        match as_string basePath, schemaJSON with
        | Ok s, JObj props =>
            Ok (JObj (assign "basePath" (JStr (rewriteBasePath s)) props))
        | Ok _, _ => Throw TypeError
        | Throw e, _ => Throw e
        end
  end.

(** Lines 69-75: the [operationId] of every method of every path, in order.
    An operation without one contributes [undefined]. *)
Definition collectMethod (operationsIds : list value) (entry : string * json)
  : outcome (list value) :=
  match get (snd entry) "operationId" with
  | Ok operationId => Ok (operationsIds ++ [operationId])%list
  | Throw e => Throw e
  end.

Definition collectPath (operationsIds : list value) (entry : string * json)
  : outcome (list value) :=
  match entries (Some (snd entry)) with
  | Ok methods => fold_outcome collectMethod methods operationsIds
  | Throw e => Throw e
  end.

Definition collectOperationIds (schemaPaths : list (string * json))
  : outcome (list value) :=
  fold_outcome collectPath schemaPaths [].

(** The documents on which this scan returns: every path holds an object,
    and no method of it is [null]. *)
Definition scannable (schemaPaths : list (string * json)) : Prop :=
  Forall (fun requestPath =>
            exists methods,
              snd requestPath = JObj methods
              /\ Forall (fun operation => snd operation <> JNull) methods)
         schemaPaths.

(** [operationsIds.includes(endpointMapKey)]: only a string is equal to the
    key. *)
Definition includes (operationsIds : list value) (endpointMapKey : string) : bool :=
  existsb (fun operationId => is_string operationId endpointMapKey) operationsIds.

(** Lines 86-90, the body of the [try] block: the sample is fetched when the
    lower-cased method is [get] and [/\{\}/] does not match the URL, that is,
    when the URL does not contain the two characters [{}]. *)
Definition fetchSample (env : Env) (method : string) (endpointMapData : json)
  : M json :=
  url <~ get endpointMapData "url" ;;
  if andb (String.eqb method "get") (negb (Str.contains "{}" (to_string_of url)))
  then
    endpointMapResponse <- makeRequest env (dns env ++ to_string_of url) ;;
    lift (parse env (snd endpointMapResponse))
  else ret (JObj []).

(** Lines 94-105: the path entry written for a registry entry.  It has one
    method.  [summary] and [operationId] are both [endpointMapData.id]. *)
Definition synthesized (method : string) (id : value) (sampleResponse : json)
  : json :=
  JObj
    [(method,
      JObj
        (field "summary" id ++ field "operationId" id ++
         [("produces", JArr [JStr "application/json"]);
          ("responses",
           JObj [("200",
                  JObj [("examples",
                         JObj [("application/json", sampleResponse)])])])]))].

(** Line 93: the path key of a registry entry, its URL without the first
    occurrence of the prefix. *)
Definition pathKey (url : string) : string :=
  Str.replace "/ccstoreui/v1" EmptyString url.

(** Lines 79-107: one round of the loop over [Object.keys(endpointMap)]. *)
Definition mergeEntry (env : Env) (operationsIds : list value)
  (entry : string * json) (schemaPaths : list (string * json))
  : M (list (string * json)) :=
  let endpointMapKey := fst entry in
  let endpointMapData := snd entry in
  if includes operationsIds endpointMapKey then ret schemaPaths
  else
    declared <~ get endpointMapData "method" ;;
    upper <~ as_string declared ;;
    let method := Str.toLowerCase upper in
    sampleResponse <-
      try_catch (fetchSample env method endpointMapData)
                (fun _ => ret (JObj [])) ;;
    url <~ get endpointMapData "url" ;;
    target <~ as_string url ;;
    id <~ get endpointMapData "id" ;;
    ret (assign (pathKey target)
                (synthesized method id sampleResponse) schemaPaths).

(** Lines 78-108. *)
Definition merge (env : Env) (operationsIds : list value)
  (endpointMap : list (string * json)) (schemaPaths : list (string * json))
  : M (list (string * json)) :=
  for_each (mergeEntry env operationsIds) endpointMap schemaPaths.

(** The path keys the merge writes to, one for each round that reaches line
    93, in the order of the rounds.  Two rounds collide when they write to
    the same key. *)
Definition writtenKeys (operationsIds : list value)
  (endpointMap : list (string * json)) : list string :=
  flat_map
    (fun entry =>
       if includes operationsIds (fst entry) then []
       else match get (snd entry) "url" with
            | Ok (Some (JStr url)) => [pathKey url]
            | _ => []
            end)
    endpointMap.

(** Lines 155-163: the content type of a response.  [contentTypeList[0]] on
    an empty array would be [undefined]; the list is never empty there. *)
Definition selectContentType (webMIMETypes : list string)
  (examples : list (string * json)) : string :=
  let contentTypeList := map fst examples in
  let foundValidMIMEType :=
    existsb (fun mimeType => Str.includes webMIMETypes mimeType) contentTypeList in
  let contentTypeList :=
    if foundValidMIMEType then contentTypeList else ["application/json"] in
  nth 0 contentTypeList "undefined".

(** Lines 149-153: the examples of a response, with the placeholder put in
    when the response declares none.  The placeholder is assigned to the
    response, which must be an object to take it. *)
Definition examplesOf (response : json) : outcome (list (string * json)) :=
  match get response "examples" with
  | Throw e => Throw e
  | Ok declared =>
      if truthy declared then entries declared
      else match response with
           | JObj _ => Ok [("application/json", JObj [("sample", JBool true)])]
           | _ => Throw TypeError
           end
  end.

(** Line 164: [responses[statusCode].examples[contentType]]. *)
Definition responseDataOf (webMIMETypes : list string) (response : json)
  : outcome value :=
  match examplesOf response with
  | Ok examples => Ok (lookup (selectContentType webMIMETypes examples) examples)
  | Throw e => Throw e
  end.

(** Lines 132-145, with the [content-type] header of line 171. *)
Definition descriptorOf (allowedParameters : value) (method statusCode : string)
  (dataPath : string) (headers : list (string * json)) : json :=
  JObj
    (field "allowedParameters" allowedParameters ++
     [("request",
       JObj [("queryParameters", JObj []);
             ("method", JStr method);
             ("headers", JObj []);
             ("body", JObj [])]);
      ("response",
       JObj [("dataPath", JStr dataPath);
             ("statusCode", JStr statusCode);
             ("headers", JObj headers)])]).

(** Lines 122-182: one round of the loop over [Object.keys(responses)]. *)
Definition materializeStatus (env : Env) (registryJSON : json) (method : string)
  (requestData : json) (requestId : value) (responseMethodPath : path)
  (status : string * json) (_ : unit) : M unit :=
  let statusCode := fst status in
  let response := snd status in
  if String.eqb statusCode "default" then ret tt
  else
    let responsePath := Posix.join responseMethodPath "default" in
    let dataDescriptorPath := Posix.join responsePath "descriptor.json" in
    let dataPath := Posix.join responsePath "data.json" in
    allowedParameters <~ get requestData "parameters" ;;
    _ <- ensureDir env responsePath ;;
    examples <~ examplesOf response ;;
    let contentType := selectContentType (webMIMETypes env) examples in
    let responseData := lookup contentType examples in
    headers <-
      match responseData with
      | Some sample =>
          if truthy responseData then
            let data := if is_string requestId "getRegistry" then registryJSON else sample in
            match localize env data with
            | Some rewritten =>
                _ <- outputJSON env dataPath rewritten ;;
                ret [("content-type", JStr contentType)]
            | None => lift (Throw SyntaxError)
            end
          else ret []
      | None => ret []
      end ;;
    outputJSON env dataDescriptorPath
      (descriptorOf allowedParameters method statusCode
         (Posix.relative responsePath dataPath) headers).

(** Lines 115-184: one round of the loop over [Object.keys(requestPath)].
    The operation ends with its [responses] attribute replaced (line 184). *)
Definition materializeOperation (env : Env) (registryJSON : json)
  (entry : string * json) : M (string * json) :=
  let method := fst entry in
  let requestData := snd entry in
  responses <~ get requestData "responses" ;;
  requestId <~ get requestData "operationId" ;;
  let responseMethodPath := Posix.join (responsesPath env) (to_string_of requestId) in
  _ <- ensureDir env responseMethodPath ;;
  statuses <~ entries responses ;;
  _ <- for_each
         (materializeStatus env registryJSON method requestData requestId
            responseMethodPath) statuses tt ;;
  match requestData with
  | JObj props =>
      ret (method,
           JObj (assign "responses"
                   (JStr (Posix.relative (apiPath env) responseMethodPath)) props))
  | _ => lift (Throw TypeError)
  end.

(** Lines 111-186: one round of the loop over [Object.keys(schemaPaths)]. *)
Definition materializePath (env : Env) (registryJSON : json)
  (entry : string * json) : M (string * json) :=
  methods <~ entries (Some (snd entry)) ;;
  methods' <- for_each_in_place (materializeOperation env registryJSON) methods ;;
  ret (fst entry, JObj methods').

Definition materialize (env : Env) (registryJSON : json)
  (schemaPaths : list (string * json)) : M (list (string * json)) :=
  for_each_in_place (materializePath env registryJSON) schemaPaths.

(** Lines 55-186: the two fetches, the merge and the fixtures.  The result is
    the schema document as it stands in memory when line 188 is reached:
    [schemaPaths] is the object that [schemaJSON.paths] refers to, so what the
    merge and the materializer did to it shows in the document. *)
Definition synthesize (env : Env) : M json :=
  schemaRequestResponse <- makeRequest env (schemaURL env) ;;
  registryRequestResponse <- makeRequest env (registryEndpoint env) ;;
  schemaJSON <~ parse env (snd schemaRequestResponse) ;;
  registryJSON <~ parse env (snd registryRequestResponse) ;;
  endpointMap <~ get registryJSON "endpointMap" ;;
  schemaPaths <~ get schemaJSON "paths" ;;
  schemaJSON <~ normalizeBasePath schemaJSON ;;
  paths <~ entries schemaPaths ;;
  operationsIds <~ collectOperationIds paths ;;
  endpoints <~ entries endpointMap ;;
  paths <- merge env operationsIds endpoints paths ;;
  paths <- materialize env registryJSON paths ;;
  match schemaJSON with
  | JObj props => ret (JObj (assign "paths" (JObj paths) props))
  | _ => lift (Throw TypeError)
  end.

(** Lines 189-195: each definition goes to a file of its own, the attribute
    is deleted and the document is written. *)
Definition writeDefinition (env : Env) (definition : string * json) (_ : unit)
  : M unit :=
  outputJSON env (Posix.join (definitionsPath env) (fst definition ++ ".json"))
    (snd definition).

Definition extractDefinitions (env : Env) (schemaJSON : json) : M unit :=
  declared <~ get schemaJSON "definitions" ;;
  definitions <~ entries declared ;;
  _ <- for_each (writeDefinition env) definitions tt ;;
  match schemaJSON with
  | JObj props => outputJSON env (schemaPath env) (JObj (delete "definitions" props))
  | _ => lift (Throw TypeError)
  end.

(** The promise [grab()] returns: resolved with no value, or rejected with
    the first error thrown inside the [try] block. *)
Definition grab (env : Env) : M unit :=
  schemaJSON <- synthesize env ;;
  extractDefinitions env schemaJSON.

(** *** The exported dispatcher (lines 205-220) *)

(** The arguments the callback is called with. *)
Inductive called : Type :=
| WithResult                 (* [callback(null, undefined)] *)
| WithNothing                (* [callback()] *)
| WithError (e : error).     (* [callback(errorResponse)] *)

Definition dispatch (env : Env) (action : string) (st : state) : called * state :=
  if String.eqb action "grab" then
    match grab env st with
    | (Ok _, st') => (WithResult, st')
    | (Throw errorResponse, st') => (WithError errorResponse, st')
    end
  else (WithNothing, st).

End Pipeline.

Import Pipeline.

(* ------------------------------------------------------------------------- *)
(** ** A small instance: one schema of two operations, one registry of five *)

Module Demo.

Definition quote : string := String (ascii_of_nat 34) EmptyString.

(** The JSON text of a value whose strings need no escaping. *)
Fixpoint text (v : json) : string :=
  match v with
  | JNull => "null"
  | JBool true => "true"
  | JBool false => "false"
  | JNum n => NilZero.string_of_int (Z.to_int n)
  | JStr s => quote ++ s ++ quote
  | JArr items =>
      "[" ++ Str.join ","
               ((fix each (l : list json) : list string :=
                   match l with
                   | [] => []
                   | x :: rest => text x :: each rest
                   end) items) ++ "]"
  | JObj props =>
      "{" ++ Str.join ","
               ((fix each (l : list (string * json)) : list string :=
                   match l with
                   | [] => []
                   | (k, x) :: rest =>
                       (quote ++ k ++ quote ++ ":" ++ text x) :: each rest
                   end) props) ++ "}"
  end.

(** [JSON.parse] on the documents of this instance: the document whose text
    is the body, no document for any other body. *)
Definition parse_among (documents : list json) (body : string) : option json :=
  find (fun v => String.eqb (text v) body) documents.

Definition item : json := JObj [("id", JStr "sku1"); ("stock", JNum 3)].

(** The metadata catalog: [/items] with [get] (two documented status codes,
    the second without samples) and [/items/{id}] with [get]. *)
Definition listItems : json :=
  JObj [("operationId", JStr "listItems");
        ("responses",
         JObj [("200", JObj [("examples", JObj [("application/json", JArr [item])])]);
               ("404", JObj [("examples", JObj [])]);
               ("default", JObj [])])].

Definition getItem : json :=
  JObj [("operationId", JStr "getItem");
        ("parameters", JArr [JObj [("name", JStr "id"); ("in", JStr "path")]]);
        ("responses", JObj [("200", JObj [])])].

Definition schemaPaths : list (string * json) :=
  [("/items", JObj [("get", listItems)]);
   ("/items/{id}", JObj [("get", getItem)])].

Definition schema : json :=
  JObj [("basePath", JStr "/ccstore/v1");
        ("paths", JObj schemaPaths);
        ("definitions", JObj [("Item", JObj [("type", JStr "object")])])].

Definition schema_without_definitions : json :=
  JObj [("basePath", JStr "/ccstore/v1"); ("paths", JObj schemaPaths)].

Definition endpoint (id method url : string) : string * json :=
  (id, JObj [("id", JStr id); ("method", JStr method); ("url", JStr url)]).

(** The registry: one operation the catalog has, and four it lacks, two of
    them on one URL. *)
Definition endpointMap : list (string * json) :=
  [endpoint "listItems" "GET" "/ccstoreui/v1/items";
   endpoint "getPing" "GET" "/ccstoreui/v1/ping";
   endpoint "getOrder" "GET" "/ccstoreui/v1/orders/{}";
   endpoint "updateOrder" "PUT" "/ccstoreui/v1/orders/{}";
   endpoint "getStatus" "GET" "/ccstoreui/v1/status"].

Definition registry : json := JObj [("endpointMap", JObj endpointMap)].

Definition pong : json := JObj [("ok", JBool true)].

(** What the server answers, with a transport status of 200, for a resource
    it does not have. *)
Definition notFound : json :=
  JObj [("status", JStr "404"); ("message", JStr "Not Found")].

Definition host : string := "https://occ.example.com".

(** The network: the two documents, a sample for [/ping], no answer for
    [/status], the literal [null] for [/void], the 404 marker for [/gone], a
    page for everything else. *)
Definition network (catalog : json) (url : string) : reply :=
  if String.eqb url (host ++ "/ccstore/v1/metadata-catalog") then Answered 200 (text catalog)
  else if String.eqb url (host ++ "/ccstoreui/v1/registry") then Answered 200 (text registry)
  else if String.eqb url (host ++ "/ccstoreui/v1/ping") then Answered 200 (text pong)
  else if String.eqb url (host ++ "/ccstoreui/v1/status") then Failed "ECONNRESET"
  else if String.eqb url (host ++ "/ccstoreui/v1/void") then Answered 200 "null"
  else if String.eqb url (host ++ "/ccstoreui/v1/gone") then Answered 200 (text notFound)
  else Answered 200 "<html></html>".

Definition world (catalog : json) : Env :=
  {| dns := host;
     apiPath := ["project"; "oracle-api"];
     webMIMETypes := ["application/json"; "text/html"; "text/plain"];
     request := network catalog;
     JSON_parse := parse_among [catalog; registry; pong; notFound; JNull];
     localize := fun data => Some data;
     writable := fun _ => true |}.

Definition blank : state :=
  {| disk := {| files := fun _ => None; dirs := fun _ => false |};
     requested := [] |}.

End Demo.

(* ------------------------------------------------------------------------- *)
(** ** The claims as the specification words them

    The notions below are read off the specification, not the code; they are
    used only to compare the specification with [grab]. *)

Module AsStated.

(** A path-parameter placeholder, a token enclosed in braces such as [{id}]:
    an opening brace with a closing brace somewhere after it. *)
Fixpoint placeholder (url : string) : bool :=
  match url with
  | EmptyString => false
  | String c rest =>
      if Ascii.eqb c "{" then Str.contains "}" rest || placeholder rest
      else placeholder rest
  end.

(** The first declared media type that belongs to the list of web MIME
    types. *)
Definition firstWebType (webMIMETypes : list string)
  (examples : list (string * json)) : option string :=
  find (fun mimeType => Str.includes webMIMETypes mimeType) (map fst examples).

(** An operation id appears among the path/method entries of the schema:
    some method of some path has it for its [operationId]. *)
Definition registered (schemaPaths : list (string * json)) (operationId : string)
  : Prop :=
  exists (requestPathKey method : string) (methods : list (string * json))
         (operation : json),
    In (requestPathKey, JObj methods) schemaPaths
    /\ In (method, operation) methods
    /\ get operation "operationId" = Ok (Some (JStr operationId)).

End AsStated.

(* ------------------------------------------------------------------------- *)
(** ** What a stage leaves alone *)

Module Frame.

(** A computation preserves a component of the state (the disk, the list of
    requests) when the state it leaves has the component it found, whether it
    returns or throws. *)
Definition preserves {A T : Type} (component : state -> T) (m : M A) : Prop :=
  forall st : state, component (snd (m st)) = component st.

(** The sample requests of a merge, in the order of its rounds: the absolute
    URL of every entry that the schema lacks, whose lower-cased method is
    [get] and whose URL is free of [{}]. *)
Definition sampleURLs (env : Env) (operationsIds : list value)
  (endpointMap : list (string * json)) : list string :=
  flat_map
    (fun entry =>
       if includes operationsIds (fst entry) then []
       else match get (snd entry) "method", get (snd entry) "url" with
            | Ok (Some (JStr method)), Ok (Some (JStr url)) =>
                if andb (String.eqb (Str.toLowerCase method) "get")
                        (negb (Str.contains "{}" url))
                then [dns env ++ url] else []
            | _, _ => []
            end)
    endpointMap.

End Frame.

Import Frame.

(* ------------------------------------------------------------------------- *)
(** ** The token storage ([core/auth/TokenStorage.js]) *)

Module Tokens.

(** The files of tokens: the text each path holds. *)
Definition store : Type := path -> option string.

(** What the file system allows: [fs.outputFile], [fs.readFile] and
    [fs.remove] call back with an error where it does not. *)
Record Io : Type := {
  can_write : path -> bool;
  can_read : path -> bool;
  can_remove : path -> bool
}.

(** How a method ends: with an exception thrown before the file system call
    is under way (the callback is never called), or with a call of the
    callback. *)
Inductive ended (A : Type) : Type :=
| Threw
| Called (arguments : A).
Arguments Threw {A}.
Arguments Called {A} arguments.

Fixpoint assoc {V : Type} (k : string) (entries : list (string * V)) : option V :=
  match entries with
  | [] => None
  | (k', v) :: rest => if String.eqb k k' then Some v else assoc k rest
  end.

(** Line 7: [config.tokens[environment]], the file of each type of token;
    [undefined] for an environment that the configuration does not have. *)
Definition TokenStorage (tokens : list (string * list (string * path)))
  (environment : string) : option (list (string * path)) :=
  assoc environment tokens.

(** [this.tokenDir[type]], when there is such a path to hand to the file
    system: reading a property of [undefined] throws, and so does each of
    the three file system calls on a path that is [undefined]. *)
Definition tokenFile (tokenDir : option (list (string * path))) (type : string)
  : option path :=
  match tokenDir with
  | None => None
  | Some files => assoc type files
  end.

(** [fs.remove(p)]: [p] and everything below it. *)
Definition erase (p : path) (d : store) : store :=
  fun q => if Posix.within p q then None else d q.

Definition put (p : path) (text : string) (d : store) : store :=
  fun q => if Posix.eqb q p then Some text else d q.

(** Lines 16-18: [save(type, token, callback)]; the callback gets the error
    of [fs.outputFile], if any. *)
Definition save (io : Io) (tokenDir : option (list (string * path)))
  (type token : string) (d : store) : ended (option error) * store :=
  match tokenFile tokenDir type with
  | None => (Threw, d)
  | Some p =>
      if can_write io p then (Called None, put p token d)
      else (Called (Some (FileSystemError p)), d)
  end.

(** Lines 25-29: [get(type, callback)]; the callback gets [null] and the
    text of the file, or the empty string when the file cannot be read. *)
Definition get (io : Io) (tokenDir : option (list (string * path)))
  (type : string) (d : store) : ended string * store :=
  match tokenFile tokenDir type with
  | None => (Threw, d)
  | Some p =>
      match d p with
      | Some data => if can_read io p then (Called data, d) else (Called EmptyString, d)
      | None => (Called EmptyString, d)
      end
  end.

(** Lines 36-40: [remove(type, callback)]; the callback gets [null] and the
    empty string when the removal failed, [null] and [undefined] when it did
    not ([fs.remove] hands its callback nothing but the error). *)
Definition remove (io : Io) (tokenDir : option (list (string * path)))
  (type : string) (d : store) : ended (option string) * store :=
  match tokenFile tokenDir type with
  | None => (Threw, d)
  | Some p =>
      if can_remove io p then (Called None, erase p d)
      else (Called (Some EmptyString), d)
  end.

(** An instance: one environment with two types of token, a file system
    that refuses nothing, and no file yet. *)
Definition configured : list (string * list (string * path)) :=
  [("production",
    [("access", ["home"; "tokens"; "production"; "access"]);
     ("file", ["home"; "tokens"; "production"; "file"])])].

Definition permissive : Io :=
  {| can_write := fun _ => true; can_read := fun _ => true;
     can_remove := fun _ => true |}.

Definition nothing : store := fun _ => None.

End Tokens.

(* ------------------------------------------------------------------------- *)
(** ** The index file of an app level bundle: [core/app-level/bundle.js] *)

Module Bundle.

(** An entry of [filesList]: the name a dependency is imported under and the
    file it is imported from. *)
Record fileObject : Type := {
  fileName : string;
  path : string
}.

Definition newline : string := String (ascii_of_nat 10) EmptyString.

(** [c] is one of the characters of [s]. *)
Fixpoint occurs (c : ascii) (s : string) : bool :=
  match s with
  | EmptyString => false
  | String d s' => orb (Ascii.eqb d c) (occurs c s')
  end.

(** What a replacement text stands for at one match, for a pattern without
    groups: [$$] is a dollar, [$&] the matched text, [$`] the text before the
    match, [$'] the text after it; a dollar followed by anything else (a
    digit too, as there is no group to refer to) stands for itself. *)
Fixpoint expand (matched before after replacement : string) : string :=
  match replacement with
  | EmptyString => EmptyString
  | String c tail =>
      if Ascii.eqb c "$"%char then
        match tail with
        | EmptyString => String c EmptyString
        | String d rest =>
            if Ascii.eqb d "$"%char then
              String "$"%char (expand matched before after rest)
            else if Ascii.eqb d "&"%char then
              matched ++ expand matched before after rest
            else if Ascii.eqb d "`"%char then
              before ++ expand matched before after rest
            else if Ascii.eqb d "'"%char then
              after ++ expand matched before after rest
            else String c (expand matched before after tail)
        end
      else String c (expand matched before after tail)
  end.

(** [s.replace(/pattern/g, replacement)] for a pattern that is a text
    without metacharacters, and not empty: the occurrences are taken from the
    left and do not overlap.  [before] is what was read of the subject so
    far, [skip] what is left to pass of the occurrence being replaced. *)
Fixpoint scan (pattern replacement before : string) (skip : nat) (s : string)
  : string :=
  match s with
  | EmptyString => EmptyString
  | String c rest =>
      match skip with
      | S n =>
          scan pattern replacement (before ++ String c EmptyString) n rest
      | O =>
          if Str.startsWith pattern s then
            expand pattern before (Str.drop (String.length pattern) s) replacement
            ++ scan pattern replacement (before ++ String c EmptyString)
                 (String.length pattern - 1) rest
          else
            String c
              (scan pattern replacement (before ++ String c EmptyString) 0 rest)
      end
  end.

Definition replaceAll (pattern replacement s : string) : string :=
  scan pattern replacement EmptyString 0 s.

(** Line 28. *)
Definition importLine (fileObject : fileObject) : string :=
  "import " ++ fileName fileObject ++ " from '" ++ path fileObject ++ "';".

(** Line 30. *)
Definition appLine (fileObject : fileObject) : string :=
  "app['" ++ fileName fileObject ++ "'] = " ++ fileName fileObject ++ ";".

(** Lines 18-42.  The template is read from a file of the extension
    templates; it is an argument here. *)
Definition createJsBundleIndexFile (appLevelIndexTemplate : string)
  (filesList : list fileObject) : string :=
  let dependenciesImports := Str.join newline (map importLine filesList) in
  let allDependencies := Str.join "," (map fileName filesList) in
  let dependenciesApp := Str.join newline (map appLine filesList) in
  let appLevelIndexTemplate :=
    replaceAll "#dependenciesImports" dependenciesImports appLevelIndexTemplate in
  let appLevelIndexTemplate :=
    replaceAll "#allDependencies" allDependencies appLevelIndexTemplate in
  replaceAll "#dependenciesApp" dependenciesApp appLevelIndexTemplate.

(** *** Templates, to state what the function does

    A template as a sequence of pieces: texts, and the three markers. *)
Inductive marker : Type := Imports | Names | Apps.

Inductive piece : Type :=
| Text (t : string)
| Marker (m : marker).

Definition written (m : marker) : string :=
  match m with
  | Imports => "#dependenciesImports"
  | Names => "#allDependencies"
  | Apps => "#dependenciesApp"
  end.

(** The text a marker stands for. *)
Definition meant (filesList : list fileObject) (m : marker) : string :=
  match m with
  | Imports => Str.join newline (map importLine filesList)
  | Names => Str.join "," (map fileName filesList)
  | Apps => Str.join newline (map appLine filesList)
  end.

Definition render (show : marker -> string) (pieces : list piece) : string :=
  fold_right
    (fun p rest => match p with Text t => t | Marker m => show m end ++ rest)
    EmptyString pieces.

Definition marker_eqb (m n : marker) : bool :=
  match m, n with
  | Imports, Imports | Names, Names | Apps, Apps => true
  | _, _ => false
  end.

(** One marker given its text, the others left as they are. *)
Definition resolve (m : marker) (r : string) (p : piece) : piece :=
  match p with
  | Marker n => if marker_eqb n m then Text r else p
  | Text _ => p
  end.

(** *** Removing what a bundle has generated (lines 124-143)

    The files that exist, each known by one path. *)
Definition present : Type := string -> bool.

(** [fs.unlinkSync(file)]: the file is gone afterwards; an exception where
    there is no such file, or where the file system refuses. *)
Definition unlinkSync (refused : string -> bool) (file : string) (fs : present)
  : option present :=
  if andb (fs file) (negb (refused file))
  then Some (fun other => if String.eqb other file then false else fs other)
  else None.

(** How [clearJsBundleFiles] goes on after the two files: with a call of
    [done], whose error is the one thrown for the file named, or with the
    walk over the [vendors] directory of an [oeLibs] bundle, which is left
    to the library and not followed here.  The callback is taken to return:
    one that throws inside the [try] block would be called a second time. *)
Inductive finished : Type :=
| Done (error : option string) (result : option string)
| Walks.

Definition clearJsBundleFiles (refused : string -> bool)
  (outputFilePath entryFilePath : string) (fs : present) : finished * present :=
  match unlinkSync refused outputFilePath fs with
  | None => (Done (Some outputFilePath) None, fs)
  | Some fs =>
      match unlinkSync refused entryFilePath fs with
      | None => (Done (Some entryFilePath) None, fs)
      | Some fs =>
          if Str.contains "oeLibs" entryFilePath then (Walks, fs)
          else (Done None (Some "success"), fs)
      end
  end.

(** An instance: the two files a bundle has generated, next to a source. *)
Definition generated : present :=
  fun file =>
    orb (String.eqb file "/project/app-level/shop/shop.js")
      (orb (String.eqb file "/project/app-level/shop/index.js")
         (String.eqb file "/project/app-level/shop/cart.js")).

(** An instance: a template, and two dependencies. *)
Definition template : list piece :=
  [Marker Imports;
   Text (newline ++ "var app = {};" ++ newline);
   Marker Apps;
   Text (newline ++ "export { ");
   Marker Names;
   Text " };"].

Definition dependencies : list fileObject :=
  [{| fileName := "cart"; path := "/project/app-level/shop/cart.js" |};
   {| fileName := "price"; path := "/project/app-level/shop/price.js" |}].

End Bundle.

(* ------------------------------------------------------------------------- *)
(** ** Facts about objects, paths and effects *)

Section Objects.

Variables (k : string) (v : json).

Lemma has_key_lookup (props : list (string * json)) :
  has_key k props = true <-> exists x, lookup k props = Some x.
Proof.
  induction props as [|[k' x] rest IH]; simpl.
  - split; [discriminate | intros [x H]; discriminate].
  - destruct (String.eqb k k'); simpl.
    + split; [eauto | reflexivity].
    + exact IH.
Qed.

Lemma lookup_overwrite (props : list (string * json)) :
  has_key k props = true -> lookup k (overwrite k v props) = Some v.
Proof.
  induction props as [|[k' x] rest IH]; simpl; [discriminate|].
  destruct (String.eqb k k') eqn:E; simpl.
  - now rewrite String.eqb_refl.
  - now rewrite E.
Qed.

Lemma lookup_create (props : list (string * json)) :
  has_key k props = false -> lookup k (create k v props) = Some v.
Proof.
  induction props as [|[k' x] rest IH]; simpl.
  - now rewrite String.eqb_refl.
  - destruct (String.eqb k k') eqn:E; simpl; [discriminate|].
    intros H. destruct (enumerates_before k k'); simpl.
    + now rewrite String.eqb_refl.
    + rewrite E. auto.
Qed.

Lemma lookup_assign (props : list (string * json)) :
  k <> "__proto__" -> lookup k (assign k v props) = Some v.
Proof.
  intros N. unfold assign. destruct (has_key k props) eqn:E.
  - now apply lookup_overwrite.
  - destruct (String.eqb_spec k "__proto__"); [contradiction|].
    now apply lookup_create.
Qed.

Lemma lookup_assign_present (props : list (string * json)) :
  has_key k props = true -> lookup k (assign k v props) = Some v.
Proof.
  intros E. unfold assign. rewrite E. now apply lookup_overwrite.
Qed.

(** The assignment that creates no property. *)
Lemma assign_proto (props : list (string * json)) :
  k = "__proto__" -> has_key k props = false -> assign k v props = props.
Proof. intros -> E. unfold assign. now rewrite E. Qed.

Lemma lookup_overwrite_other (k' : string) (props : list (string * json)) :
  k' <> k -> lookup k' (overwrite k v props) = lookup k' props.
Proof.
  intros N. induction props as [|[k0 x] rest IH]; simpl; [reflexivity|].
  destruct (String.eqb_spec k k0) as [->|]; simpl.
  - destruct (String.eqb_spec k' k0); [contradiction | reflexivity].
  - now rewrite IH.
Qed.

Lemma lookup_create_other (k' : string) (props : list (string * json)) :
  k' <> k -> lookup k' (create k v props) = lookup k' props.
Proof.
  intros N. induction props as [|[k0 x] rest IH]; simpl.
  - destruct (String.eqb_spec k' k); [contradiction | reflexivity].
  - destruct (enumerates_before k k0); simpl.
    + destruct (String.eqb_spec k' k); [contradiction | reflexivity].
    + now rewrite IH.
Qed.

Lemma lookup_assign_other (k' : string) (props : list (string * json)) :
  k' <> k -> lookup k' (assign k v props) = lookup k' props.
Proof.
  intros N. unfold assign. destruct (has_key k props).
  - now apply lookup_overwrite_other.
  - destruct (String.eqb k "__proto__"); [reflexivity|].
    now apply lookup_create_other.
Qed.

(** Writing to an existing property leaves the order of the keys alone. *)
Lemma keys_overwrite (props : list (string * json)) :
  map fst (overwrite k v props) = map fst props.
Proof.
  induction props as [|[k0 x] rest IH]; simpl; [reflexivity|].
  destruct (String.eqb_spec k k0) as [->|]; simpl; [reflexivity|].
  now rewrite IH.
Qed.

End Objects.

Section Paths.

Lemma path_eqb_refl (p : path) : Posix.eqb p p = true.
Proof. induction p; simpl; [reflexivity|]. now rewrite String.eqb_refl. Qed.

Lemma path_eqb_eq (p q : path) : Posix.eqb p q = true <-> p = q.
Proof.
  revert q. induction p as [|a p IH]; intros [|b q]; simpl;
    try (split; [discriminate | intros H; discriminate]); [tauto|].
  rewrite andb_true_iff, String.eqb_eq, IH.
  split; [intros [-> ->]; reflexivity | intros H; injection H; auto].
Qed.

(** Two files of one directory are distinct when their names are. *)
Lemma eqb_siblings (p : path) (a b : string) :
  Posix.eqb (p ++ [a])%list (p ++ [b])%list = String.eqb a b.
Proof.
  induction p as [|c p IH]; simpl.
  - now rewrite andb_true_r.
  - now rewrite String.eqb_refl.
Qed.

Lemma diverge_below (p rest : path) : diverge p (p ++ rest)%list = ([], rest).
Proof.
  induction p as [|a p IH]; simpl.
  - now destruct rest.
  - now rewrite String.eqb_refl.
Qed.

(** Joining the name of a file of a directory to the directory. *)
Lemma join_file (p : path) :
  Posix.join p "default" = (p ++ ["default"])%list /\
  Posix.join p "data.json" = (p ++ ["data.json"])%list /\
  Posix.join p "descriptor.json" = (p ++ ["descriptor.json"])%list /\
  Posix.join p "responses" = (p ++ ["responses"])%list.
Proof. repeat split. Qed.

(** [path.relative(dir, path.join(dir, 'data.json'))] is the name alone, and
    joining it back to the directory gives the file. *)
Lemma relative_data (p : path) :
  Posix.relative p (Posix.join p "data.json") = "data.json" /\
  Posix.join p (Posix.relative p (Posix.join p "data.json")) = Posix.join p "data.json".
Proof.
  assert (R : Posix.relative p (Posix.join p "data.json") = "data.json").
  { unfold Posix.relative. destruct (join_file p) as (_ & -> & _).
    now rewrite diverge_below. }
  split; [exact R | now rewrite R].
Qed.

End Paths.

(* ------------------------------------------------------------------------- *)
(** ** The path normalizer (lines 65-67) *)

Example rewrite_admin : rewriteBasePath "/ccadmin/v1" = "/ccadminui/v1".
Proof. reflexivity. Qed.

Example rewrite_store : rewriteBasePath "/ccstore/v1" = "/ccstoreui/v1".
Proof. reflexivity. Qed.

(** Only the first occurrence of each service name is rewritten. *)
Example rewrite_first_occurrence :
  rewriteBasePath "/ccadmin/ccadmin" = "/ccadminui/ccadmin".
Proof. reflexivity. Qed.

(** C8. The normalizer maps the base path [/ccadmin/v1] to [/ccadminui/v1],
    and leaves the document as it is when its base path already contains the
    marker [ui]. *)
Theorem basePath_normalization :
  (forall props : list (string * json),
      lookup "basePath" props = Some (JStr "/ccadmin/v1") ->
      normalizeBasePath (JObj props)
      = Ok (JObj (assign "basePath" (JStr "/ccadminui/v1") props)))
  /\ (forall (schemaJSON : json) (basePath : string),
         get schemaJSON "basePath" = Ok (Some (JStr basePath)) ->
         Str.contains "ui" basePath = true ->
         normalizeBasePath schemaJSON = Ok schemaJSON).
Proof.
  split.
  - intros props H. unfold normalizeBasePath. simpl get. rewrite H. reflexivity.
  - intros schemaJSON basePath H U. unfold normalizeBasePath.
    rewrite H. simpl to_string_of. now rewrite U.
Qed.

Lemma basePath_normalization_witness :
  normalizeBasePath (JObj [("basePath", JStr "/ccadmin/v1"); ("paths", JObj [])])
  = Ok (JObj [("basePath", JStr "/ccadminui/v1"); ("paths", JObj [])])
  /\ normalizeBasePath (JObj [("basePath", JStr "/ccstoreui/v1")])
     = Ok (JObj [("basePath", JStr "/ccstoreui/v1")]).
Proof.
  split.
  - exact (proj1 basePath_normalization
             [("basePath", JStr "/ccadmin/v1"); ("paths", JObj [])] eq_refl).
  - exact (proj2 basePath_normalization
             (JObj [("basePath", JStr "/ccstoreui/v1")]) "/ccstoreui/v1"
             eq_refl eq_refl).
Defined.

(** The rewritten base path is what the document then holds, and nothing
    else of the document changes. *)
Lemma normalizeBasePath_rewrites (props : list (string * json)) (basePath : string) :
  lookup "basePath" props = Some (JStr basePath) ->
  Str.contains "ui" basePath = false ->
  exists props',
    normalizeBasePath (JObj props) = Ok (JObj props')
    /\ lookup "basePath" props' = Some (JStr (rewriteBasePath basePath))
    /\ forall k, k <> "basePath" -> lookup k props' = lookup k props.
Proof.
  intros H U. unfold normalizeBasePath. simpl get. rewrite H.
  simpl to_string_of. rewrite U. simpl.
  eexists. split; [reflexivity|]. split.
  - now apply lookup_assign.
  - intros k N. now apply lookup_assign_other.
Qed.

(** A document without a string for a base path stops the run, unless the
    printed form of what it has contains [ui]. *)
Example normalizeBasePath_missing :
  normalizeBasePath (JObj [("paths", JObj [])]) = Throw TypeError.
Proof. reflexivity. Qed.

(* ------------------------------------------------------------------------- *)
(** ** The content type of a response (lines 155-163) *)

Lemma no_web_type (webMIMETypes : list string) (names : list string) :
  find (fun mimeType => Str.includes webMIMETypes mimeType) names = None ->
  existsb (fun mimeType => Str.includes webMIMETypes mimeType) names = false.
Proof.
  induction names as [|n names IH]; simpl; [reflexivity|].
  destruct (Str.includes webMIMETypes n); [discriminate | exact IH].
Qed.

Lemma some_web_type (webMIMETypes : list string) (names : list string) :
  existsb (fun mimeType => Str.includes webMIMETypes mimeType) names = false ->
  find (fun mimeType => Str.includes webMIMETypes mimeType) names = None.
Proof.
  induction names as [|n names IH]; simpl; [reflexivity|].
  destruct (Str.includes webMIMETypes n); [discriminate | exact IH].
Qed.

(** What the code selects when some declared media type is a web MIME type:
    the first declared media type, be it a web MIME type or not. *)
Lemma selectContentType_first_declared (webMIMETypes : list string)
  (first : string * json) (rest : list (string * json)) :
  AsStated.firstWebType webMIMETypes (first :: rest) <> None ->
  selectContentType webMIMETypes (first :: rest) = fst first.
Proof.
  unfold AsStated.firstWebType, selectContentType. intros H.
  destruct (existsb _ (map fst (first :: rest))) eqn:E; [reflexivity|].
  exfalso. apply H. now apply some_web_type.
Qed.

(** Where the code selects as the claim says: with no declared media type
    among the web MIME types it falls back on [application/json], and a first
    declared media type that is a web MIME type is the one selected. *)
Lemma selectContentType_fallback (webMIMETypes : list string)
  (examples : list (string * json)) :
  AsStated.firstWebType webMIMETypes examples = None ->
  selectContentType webMIMETypes examples = "application/json".
Proof.
  intros H. unfold selectContentType. now rewrite (no_web_type _ _ H).
Qed.

Lemma selectContentType_first_web (webMIMETypes : list string)
  (first : string * json) (rest : list (string * json)) :
  Str.includes webMIMETypes (fst first) = true ->
  selectContentType webMIMETypes (first :: rest) = fst first
  /\ AsStated.firstWebType webMIMETypes (first :: rest) = Some (fst first).
Proof.
  intros H. unfold selectContentType, AsStated.firstWebType. simpl. now rewrite H.
Qed.

(** Where it does not: the test of line 156 finds that some declared media
    type is a web MIME type, and line 163 takes the first declared one all the
    same.  So whenever the first declared media type is no web MIME type and a
    later one is, the selected type is outside the list, and is not the first
    declared web MIME type. *)
Lemma selectContentType_outside_the_list (webMIMETypes : list string)
  (first : string * json) (rest : list (string * json)) (preferred : string) :
  Str.includes webMIMETypes (fst first) = false ->
  AsStated.firstWebType webMIMETypes rest = Some preferred ->
  selectContentType webMIMETypes (first :: rest) = fst first
  /\ Str.includes webMIMETypes (selectContentType webMIMETypes (first :: rest)) = false
  /\ AsStated.firstWebType webMIMETypes (first :: rest) = Some preferred
  /\ preferred <> selectContentType webMIMETypes (first :: rest).
Proof.
  intros F P.
  assert (W : AsStated.firstWebType webMIMETypes (first :: rest) = Some preferred).
  { unfold AsStated.firstWebType in *. cbn [map find]. now rewrite F. }
  assert (S : selectContentType webMIMETypes (first :: rest) = fst first).
  { apply selectContentType_first_declared. rewrite W. discriminate. }
  rewrite S. repeat split; [exact F | exact W |].
  intros E. unfold AsStated.firstWebType in P. apply find_some in P.
  destruct P as [_ P]. congruence.
Qed.

(** C2. The selection misses a declared web MIME type that is not declared
    first. With the web MIME types of the instance and a response that
    declares [application/xml] before [text/plain], the selected type is
    [application/xml], which is not in the list, and not [text/plain], the
    first declared media type of the list. With [text/plain] for the only
    web MIME type and a response that declares [application/json] before it,
    the selected type is [application/json], although a declared media type
    belongs to the list and [application/json] does not. *)
Theorem contentType_selection_misses_web_type :
  selectContentType (webMIMETypes (Demo.world Demo.schema))
    [("application/xml", JStr "<ok/>"); ("text/plain", JStr "ok")]
  = "application/xml"
  /\ Str.includes (webMIMETypes (Demo.world Demo.schema)) "application/xml" = false
  /\ AsStated.firstWebType (webMIMETypes (Demo.world Demo.schema))
       [("application/xml", JStr "<ok/>"); ("text/plain", JStr "ok")]
     = Some "text/plain"
  /\ selectContentType ["text/plain"]
       [("application/json", JObj [("ok", JBool true)]); ("text/plain", JStr "ok")]
     = "application/json"
  /\ Str.includes ["text/plain"] "application/json" = false
  /\ AsStated.firstWebType ["text/plain"]
       [("application/json", JObj [("ok", JBool true)]); ("text/plain", JStr "ok")]
     = Some "text/plain".
Proof. repeat split. Qed.

(* ------------------------------------------------------------------------- *)
(** ** Effects *)

Section Effects.

Context {A B : Type}.

Lemma bind_ok (m : M A) (k : A -> M B) (st st' : state) (b : B) :
  bind m k st = (Ok b, st') ->
  exists a s, m st = (Ok a, s) /\ k a s = (Ok b, st').
Proof.
  unfold bind. destruct (m st) as [[a|e] s]; [eauto | discriminate].
Qed.

Lemma bind_run (m : M A) (k : A -> M B) (st s : state) (a : A) :
  m st = (Ok a, s) -> bind m k st = k a s.
Proof. unfold bind. now intros ->. Qed.

Lemma bind_throw (m : M A) (k : A -> M B) (st s : state) (e : error) :
  m st = (Throw e, s) -> bind m k st = (Throw e, s).
Proof. unfold bind. now intros ->. Qed.

Lemma lift_ok (o : outcome A) (st st' : state) (a : A) :
  lift o st = (Ok a, st') -> o = Ok a /\ st' = st.
Proof. unfold lift. intros H. injection H. auto. Qed.

End Effects.

(** Inversion of a run that returned, one [bind] at a time: [H] says that
    [bind m k] returned; [m] returned [a] in state [s] (that is [Hm]), and [H]
    is left to say that [k a] returned from [s]. *)
Tactic Notation "returned" hyp(H) "as" ident(a) ident(s) ident(Hm) :=
  apply bind_ok in H; destruct H as (a & s & Hm & H).

(** The same for a step that does not touch the state. *)
Tactic Notation "computed" hyp(H) "as" ident(a) ident(Hm) :=
  let s := fresh "s" in
  let E := fresh "E" in
  apply bind_ok in H; destruct H as (a & s & Hm & H);
  apply lift_ok in Hm; destruct Hm as [Hm E]; subst s.

(* ------------------------------------------------------------------------- *)
(** ** The remote fetcher (lines 23-48) *)

Section Fetcher.

Variable env : Env.

(** Every call is one request, and no call writes to the disk. *)
Lemma makeRequest_state (url : string) (st : state) :
  requested (snd (makeRequest env url st)) = (requested st ++ [url])%list
  /\ disk (snd (makeRequest env url st)) = disk st.
Proof.
  unfold makeRequest. destruct (request env url) as [reason|response body]; simpl; [auto|].
  destruct (parse env body) as [parsedBody|e]; simpl; [|auto].
  destruct (get parsedBody "status") as [status|e]; simpl; [|auto].
  destruct (is_string status "404"); simpl; auto.
Qed.

Lemma makeRequest_transport_error (url reason : string) (st : state) :
  request env url = Failed reason ->
  fst (makeRequest env url st) = Throw (TransportError reason).
Proof. unfold makeRequest. now intros ->. Qed.

(** A body that carries the marker is rejected with the parsed body. *)
Lemma makeRequest_marker (url body : string) (response : Z)
  (props : list (string * json)) (st : state) :
  request env url = Answered response body ->
  JSON_parse env body = Some (JObj props) ->
  lookup "status" props = Some (JStr "404") ->
  fst (makeRequest env url st) = Throw (Rejected (JObj props)).
Proof.
  unfold makeRequest, parse. intros -> -> H. simpl. now rewrite H.
Qed.

(** A body that is not JSON is rejected with the parser's error. *)
Lemma makeRequest_not_json (url body : string) (response : Z) (st : state) :
  request env url = Answered response body ->
  JSON_parse env body = None ->
  fst (makeRequest env url st) = Throw SyntaxError.
Proof. unfold makeRequest, parse. now intros -> ->. Qed.

(** A body that parses to anything but [null] and carries no marker resolves
    the promise with the response and the raw body. *)
Lemma makeRequest_resolves (url body : string) (response : Z)
  (parsedBody : json) (st : state) :
  request env url = Answered response body ->
  JSON_parse env body = Some parsedBody ->
  parsedBody <> JNull ->
  (forall status, get parsedBody "status" = Ok status -> is_string status "404" = false) ->
  fst (makeRequest env url st) = Ok (response, body).
Proof.
  unfold makeRequest, parse. intros -> -> N H.
  destruct parsedBody; try contradiction; simpl in *;
    try reflexivity.
  now rewrite (H _ eq_refl).
Qed.

(** A body that is the JSON text [null] is rejected: reading [status] of the
    parsed [null] throws inside the [try] block, and the handler rejects. *)
Lemma makeRequest_null (url body : string) (response : Z) (st : state) :
  request env url = Answered response body ->
  JSON_parse env body = Some JNull ->
  fst (makeRequest env url st) = Throw TypeError.
Proof. unfold makeRequest, parse. now intros -> ->. Qed.

(** What a resolved call says about the world. *)
Lemma makeRequest_ok (url body : string) (response : Z) (st st' : state) :
  makeRequest env url st = (Ok (response, body), st') ->
  request env url = Answered response body
  /\ exists parsedBody, JSON_parse env body = Some parsedBody.
Proof.
  unfold makeRequest, parse.
  destruct (request env url) as [reason|response' body']; [discriminate|].
  destruct (JSON_parse env body') as [parsedBody|] eqn:P; [|discriminate].
  destruct (get parsedBody "status") as [status|e]; [|discriminate].
  destruct (is_string status "404"); [discriminate|].
  intros H. injection H as -> -> _. split; [reflexivity | eauto].
Qed.

End Fetcher.

(** C6, as the code has it. When the transport succeeds: a body that parses
    to an object whose [status] is the string 404 rejects the promise with
    the parsed body; a body that is not JSON rejects it with the parser's
    error; a body that parses to a value other than [null] and carries no
    marker resolves it with the response and the raw body. *)
Theorem makeRequest_settles (env : Env) (url body : string) (response : Z)
  (st : state) :
  request env url = Answered response body ->
  (forall props : list (string * json),
      JSON_parse env body = Some (JObj props) ->
      lookup "status" props = Some (JStr "404") ->
      fst (makeRequest env url st) = Throw (Rejected (JObj props)))
  /\ (JSON_parse env body = None ->
      fst (makeRequest env url st) = Throw SyntaxError)
  /\ (forall parsedBody : json,
         JSON_parse env body = Some parsedBody ->
         parsedBody <> JNull ->
         (forall status, get parsedBody "status" = Ok status ->
                         is_string status "404" = false) ->
         fst (makeRequest env url st) = Ok (response, body)).
Proof.
  intros R. repeat split.
  - intros props P S. now apply (makeRequest_marker env url body response).
  - intros P. now apply (makeRequest_not_json env url body response).
  - intros parsedBody P N S. now apply (makeRequest_resolves env url body response parsedBody).
Qed.

Lemma makeRequest_settles_witness :
  fst (makeRequest (Demo.world Demo.schema) (Demo.host ++ "/ccstoreui/v1/ping")
         Demo.blank)
  = Ok (200%Z, Demo.text Demo.pong)
  /\ fst (makeRequest (Demo.world Demo.schema) (Demo.host ++ "/ccstoreui/v1/other")
            Demo.blank)
     = Throw SyntaxError
  /\ fst (makeRequest (Demo.world Demo.schema) (Demo.host ++ "/ccstoreui/v1/gone")
            Demo.blank)
     = Throw (Rejected Demo.notFound).
Proof.
  split; [|split].
  - refine (proj2 (proj2 (makeRequest_settles (Demo.world Demo.schema)
                            (Demo.host ++ "/ccstoreui/v1/ping")
                            (Demo.text Demo.pong) 200 Demo.blank eq_refl))
              Demo.pong eq_refl _ _).
    + discriminate.
    + intros status H. injection H as <-. reflexivity.
  - exact (proj1 (proj2 (makeRequest_settles (Demo.world Demo.schema)
                           (Demo.host ++ "/ccstoreui/v1/other")
                           "<html></html>" 200 Demo.blank eq_refl))
             eq_refl).
  - exact (proj1 (makeRequest_settles (Demo.world Demo.schema)
                    (Demo.host ++ "/ccstoreui/v1/gone")
                    (Demo.text Demo.notFound) 200 Demo.blank eq_refl)
             [("status", JStr "404"); ("message", JStr "Not Found")]
             eq_refl eq_refl).
Defined.

(** C6 as stated fails at the body [null]. The transport succeeds, the body
    is valid JSON and carries no [status] of 404, and yet the call does not
    resolve with the raw body: it is rejected with the [TypeError] of reading
    [status] on [null]. *)
Lemma makeRequest_rejects_null_body :
  request (Demo.world Demo.schema) (Demo.host ++ "/ccstoreui/v1/void")
  = Answered 200 "null"
  /\ JSON_parse (Demo.world Demo.schema) "null" = Some JNull
  /\ fst (makeRequest (Demo.world Demo.schema) (Demo.host ++ "/ccstoreui/v1/void")
            Demo.blank)
     = Throw TypeError.
Proof.
  split; [reflexivity|]. split; [reflexivity|].
  now apply (makeRequest_null _ _ "null" 200).
Qed.

(* ------------------------------------------------------------------------- *)
(** ** The schema merger (lines 69-108) *)

Section Merger.

Variable env : Env.
Variable operationsIds : list value.

Lemma fetchSample_run (method url : string) (props : list (string * json))
  (st : state) :
  lookup "url" props = Some (JStr url) ->
  fetchSample env method (JObj props) st
  = if andb (String.eqb method "get") (negb (Str.contains "{}" url))
    then bind (makeRequest env (dns env ++ url))
              (fun endpointMapResponse => lift (parse env (snd endpointMapResponse))) st
    else (Ok (JObj []), st).
Proof.
  intros U. unfold fetchSample. unfold bind at 1. unfold lift at 1.
  simpl get. rewrite U. simpl to_string_of.
  now destruct (andb _ _).
Qed.

(** The sample fetch makes at most one request, to the entry's absolute URL,
    and writes nothing. *)
Lemma fetchSample_state (method url : string) (props : list (string * json))
  (st : state) :
  lookup "url" props = Some (JStr url) ->
  requested (snd (fetchSample env method (JObj props) st))
  = (if andb (String.eqb method "get") (negb (Str.contains "{}" url))
     then (requested st ++ [(dns env ++ url)%string])%list else requested st)
  /\ disk (snd (fetchSample env method (JObj props) st)) = disk st.
Proof.
  intros U. rewrite (fetchSample_run _ _ _ _ U).
  destruct (andb _ _); [|split; reflexivity].
  unfold bind, lift.
  destruct (makeRequest_state env (dns env ++ url) st) as [L D].
  destruct (makeRequest env (dns env ++ url) st) as [[r|e] s]; simpl in *; auto.
Qed.

(** One round of the merge on an entry the schema lacks: whatever the sample
    fetch does, the round returns, with the assignment of line 93 made. *)
Lemma mergeEntry_missing (key method url : string) (props paths : list (string * json))
  (st : state) :
  includes operationsIds key = false ->
  lookup "method" props = Some (JStr method) ->
  lookup "url" props = Some (JStr url) ->
  mergeEntry env operationsIds (key, JObj props) paths st
  = (Ok (assign (pathKey url)
           (synthesized (Str.toLowerCase method) (lookup "id" props)
              match fst (fetchSample env (Str.toLowerCase method) (JObj props) st) with
              | Ok sampleResponse => sampleResponse
              | Throw _ => JObj []
              end)
           paths),
     snd (fetchSample env (Str.toLowerCase method) (JObj props) st)).
Proof.
  intros I Hm Hu. unfold mergeEntry. cbn [fst snd]. rewrite I.
  unfold bind, lift, try_catch, ret. simpl get. rewrite Hm, Hu. simpl as_string.
  cbv beta iota.
  now destruct (fetchSample env (Str.toLowerCase method) (JObj props) st) as [[sample|e] s].
Qed.

(** An entry whose key is among the schema's operation ids is skipped. *)
Lemma mergeEntry_present (entry : string * json) (paths : list (string * json))
  (st : state) :
  includes operationsIds (fst entry) = true ->
  mergeEntry env operationsIds entry paths st = (Ok paths, st).
Proof. intros I. unfold mergeEntry. now rewrite I. Qed.

End Merger.

(** C3, as the code has it. For a registry entry that the schema lacks, the
    round of the merge makes one request, to the entry's absolute URL, when
    the lower-cased method is [get] and the URL does not contain the empty
    pair of braces [{}]; it makes no request otherwise. *)
Theorem sample_fetch_condition (env : Env) (operationsIds : list value)
  (key method url : string) (props paths : list (string * json)) (st : state) :
  includes operationsIds key = false ->
  lookup "method" props = Some (JStr method) ->
  lookup "url" props = Some (JStr url) ->
  requested (snd (mergeEntry env operationsIds (key, JObj props) paths st))
  = if andb (String.eqb (Str.toLowerCase method) "get")
            (negb (Str.contains "{}" url))
    then (requested st ++ [(dns env ++ url)%string])%list
    else requested st.
Proof.
  intros I Hm Hu. rewrite (mergeEntry_missing env _ _ _ _ _ _ _ I Hm Hu).
  cbn [snd]. now apply fetchSample_state.
Qed.

Lemma sample_fetch_condition_witness :
  requested (snd (mergeEntry (Demo.world Demo.schema) []
                    (Demo.endpoint "getPing" "GET" "/ccstoreui/v1/ping") []
                    Demo.blank))
  = [Demo.host ++ "/ccstoreui/v1/ping"]
  /\ requested (snd (mergeEntry (Demo.world Demo.schema) []
                       (Demo.endpoint "getOrder" "GET" "/ccstoreui/v1/orders/{}") []
                       Demo.blank))
     = [].
Proof.
  split.
  - exact (sample_fetch_condition (Demo.world Demo.schema) [] "getPing" "GET"
             "/ccstoreui/v1/ping"
             [("id", JStr "getPing"); ("method", JStr "GET");
              ("url", JStr "/ccstoreui/v1/ping")]
             [] Demo.blank eq_refl eq_refl eq_refl).
  - exact (sample_fetch_condition (Demo.world Demo.schema) [] "getOrder" "GET"
             "/ccstoreui/v1/orders/{}"
             [("id", JStr "getOrder"); ("method", JStr "GET");
              ("url", JStr "/ccstoreui/v1/orders/{}")]
             [] Demo.blank eq_refl eq_refl eq_refl).
Defined.

(** C3 as stated fails for a URL whose placeholder has a name: the entry is a
    GET, its URL contains the token [{id}], and the sample is requested all
    the same. *)
Lemma sample_fetch_with_named_placeholder :
  AsStated.placeholder "/ccstoreui/v1/products/{id}" = true
  /\ requested (snd (mergeEntry (Demo.world Demo.schema) []
                       (Demo.endpoint "getProduct" "GET" "/ccstoreui/v1/products/{id}")
                       [] Demo.blank))
     = [Demo.host ++ "/ccstoreui/v1/products/{id}"].
Proof. split; reflexivity. Qed.

Lemma synthesized_operationId (method : string) (id : value) (sample : json) :
  exists operation,
    synthesized method id sample = JObj [(method, operation)]
    /\ get operation "operationId" = Ok id
    /\ get operation "summary" = Ok id
    /\ get operation "responses"
       = Ok (Some (JObj [("200",
                          JObj [("examples",
                                 JObj [("application/json", sample)])])])).
Proof.
  unfold synthesized. eexists. split; [reflexivity|].
  destruct id as [j|]; repeat split.
Qed.

(** The merge returns whatever the network does, as long as every entry has
    strings for its method and its URL. *)
Lemma merge_returns (env : Env) (operationsIds : list value)
  (endpointMap : list (string * json)) :
  Forall (fun entry =>
            exists props method url,
              snd entry = JObj props
              /\ lookup "method" props = Some (JStr method)
              /\ lookup "url" props = Some (JStr url)) endpointMap ->
  forall (paths : list (string * json)) (st : state),
  exists paths', fst (merge env operationsIds endpointMap paths st) = Ok paths'.
Proof.
  unfold merge. induction 1 as [|[key data] rest (props & method & url & D & Hm & Hu) _ IH];
    intros paths st; simpl.
  - eauto.
  - simpl in D. subst data. unfold bind.
    destruct (includes operationsIds key) eqn:I.
    + rewrite mergeEntry_present by exact I. apply IH.
    + rewrite (mergeEntry_missing env _ _ _ _ _ _ _ I Hm Hu). apply IH.
Qed.

(** A round whose sample fetch throws, be it the request or the parsing of
    its body: the error is caught, and the assignment of line 93 is made with
    the empty object for a sample. *)
Lemma mergeEntry_failed_sample (env : Env) (operationsIds : list value)
  (key method url : string) (props paths : list (string * json))
  (st : state) (e : error) :
  includes operationsIds key = false ->
  lookup "method" props = Some (JStr method) ->
  lookup "url" props = Some (JStr url) ->
  fst (fetchSample env (Str.toLowerCase method) (JObj props) st) = Throw e ->
  mergeEntry env operationsIds (key, JObj props) paths st
  = (Ok (assign (pathKey url)
           (synthesized (Str.toLowerCase method) (lookup "id" props) (JObj []))
           paths),
     snd (fetchSample env (Str.toLowerCase method) (JObj props) st)).
Proof.
  intros I Hm Hu F.
  rewrite (mergeEntry_missing env _ _ _ _ _ _ _ I Hm Hu). now rewrite F.
Qed.


(** A sample that comes back with the 404 marker degrades in the same way. *)
Example getGone_degrades :
  fst (fetchSample (Demo.world Demo.schema) "get"
         (snd (Demo.endpoint "getGone" "GET" "/ccstoreui/v1/gone")) Demo.blank)
  = Throw (Rejected Demo.notFound)
  /\ exists paths',
       fst (mergeEntry (Demo.world Demo.schema) []
              (Demo.endpoint "getGone" "GET" "/ccstoreui/v1/gone") [] Demo.blank)
       = Ok paths'
       /\ lookup "/gone" paths'
          = Some (synthesized "get" (Some (JStr "getGone")) (JObj [])).
Proof. split; [reflexivity|]. eexists. split; reflexivity. Qed.

(** The failed request of the witness, spelled out: the entry is in the
    document, with [{}] for its sample. *)
Example getStatus_degrades :
  fst (mergeEntry (Demo.world Demo.schema) []
         (Demo.endpoint "getStatus" "GET" "/ccstoreui/v1/status") [] Demo.blank)
  = Ok [("/status",
         JObj [("get",
                JObj [("summary", JStr "getStatus");
                      ("operationId", JStr "getStatus");
                      ("produces", JArr [JStr "application/json"]);
                      ("responses",
                       JObj [("200",
                              JObj [("examples",
                                     JObj [("application/json", JObj [])])])])])])].
Proof. reflexivity. Qed.

(** C9. When the path key of an entry that the schema lacks is already a key
    of [schemaPaths], the round of the merge replaces what the key held by an
    object with one method, the entry's own: the key keeps its place, and no
    other method can be read under it any more. *)
Theorem merge_replaces_path_entry (env : Env) (operationsIds : list value)
  (key method url : string) (props paths : list (string * json)) (st : state)
  (previous : json) :
  includes operationsIds key = false ->
  lookup "method" props = Some (JStr method) ->
  lookup "url" props = Some (JStr url) ->
  lookup (pathKey url) paths = Some previous ->
  exists (operation : json) (paths' : list (string * json)),
    fst (mergeEntry env operationsIds (key, JObj props) paths st) = Ok paths'
    /\ lookup (pathKey url) paths' = Some (JObj [(Str.toLowerCase method, operation)])
    /\ get operation "operationId" = Ok (lookup "id" props)
    /\ map fst paths' = map fst paths
    /\ (forall k, k <> pathKey url -> lookup k paths' = lookup k paths)
    /\ (forall other, other <> Str.toLowerCase method ->
          get (JObj [(Str.toLowerCase method, operation)]) other = Ok None).
Proof.
  intros I Hm Hu P.
  rewrite (mergeEntry_missing env _ _ _ _ _ _ _ I Hm Hu). cbn [fst].
  destruct (synthesized_operationId (Str.toLowerCase method) (lookup "id" props)
              match fst (fetchSample env (Str.toLowerCase method) (JObj props) st) with
              | Ok sampleResponse => sampleResponse
              | Throw _ => JObj []
              end) as (operation & S & O & _).
  rewrite S. exists operation. eexists. split; [reflexivity|].
  assert (K : has_key (pathKey url) paths = true)
    by (apply has_key_lookup; eauto).
  split; [now apply lookup_assign_present|]. split; [exact O|]. split.
  - unfold assign. rewrite K. apply keys_overwrite.
  - split.
    + intros k N. now apply lookup_assign_other.
    + intros other N. simpl.
      destruct (String.eqb_spec other (Str.toLowerCase method)); [contradiction | reflexivity].
Qed.

Lemma merge_replaces_path_entry_witness :
  exists (operation : json) (paths' : list (string * json)),
    fst (mergeEntry (Demo.world Demo.schema) []
           ("updateOrder",
            JObj [("id", JStr "updateOrder"); ("method", JStr "PUT");
                  ("url", JStr "/ccstoreui/v1/orders/{}")])
           [("/orders/{}",
             JObj [("get", JObj [("operationId", JStr "getOrder")]);
                   ("delete", JObj [("operationId", JStr "deleteOrder")])])]
           Demo.blank)
    = Ok paths'
    /\ lookup (pathKey "/ccstoreui/v1/orders/{}") paths'
       = Some (JObj [(Str.toLowerCase "PUT", operation)])
    /\ get operation "operationId"
       = Ok (lookup "id" [("id", JStr "updateOrder"); ("method", JStr "PUT");
                          ("url", JStr "/ccstoreui/v1/orders/{}")])
    /\ map fst paths'
       = map fst [("/orders/{}",
                   JObj [("get", JObj [("operationId", JStr "getOrder")]);
                         ("delete", JObj [("operationId", JStr "deleteOrder")])])]
    /\ (forall k, k <> pathKey "/ccstoreui/v1/orders/{}" ->
          lookup k paths'
          = lookup k [("/orders/{}",
                       JObj [("get", JObj [("operationId", JStr "getOrder")]);
                             ("delete", JObj [("operationId", JStr "deleteOrder")])])])
    /\ (forall other, other <> Str.toLowerCase "PUT" ->
          get (JObj [(Str.toLowerCase "PUT", operation)]) other = Ok None).
Proof.
  exact (merge_replaces_path_entry (Demo.world Demo.schema) []
           "updateOrder" "PUT" "/ccstoreui/v1/orders/{}"
           [("id", JStr "updateOrder"); ("method", JStr "PUT");
            ("url", JStr "/ccstoreui/v1/orders/{}")]
           [("/orders/{}",
             JObj [("get", JObj [("operationId", JStr "getOrder")]);
                   ("delete", JObj [("operationId", JStr "deleteOrder")])])]
           Demo.blank
           (JObj [("get", JObj [("operationId", JStr "getOrder")]);
                  ("delete", JObj [("operationId", JStr "deleteOrder")])])
           eq_refl eq_refl eq_refl eq_refl).
Defined.

(** The same round, evaluated: [get] and [delete] are gone. *)
Example updateOrder_replaces :
  fst (mergeEntry (Demo.world Demo.schema) []
         (Demo.endpoint "updateOrder" "PUT" "/ccstoreui/v1/orders/{}")
         [("/orders/{}",
           JObj [("get", JObj [("operationId", JStr "getOrder")]);
                 ("delete", JObj [("operationId", JStr "deleteOrder")])])]
         Demo.blank)
  = Ok [("/orders/{}",
         JObj [("put",
                JObj [("summary", JStr "updateOrder");
                      ("operationId", JStr "updateOrder");
                      ("produces", JArr [JStr "application/json"]);
                      ("responses",
                       JObj [("200",
                              JObj [("examples",
                                     JObj [("application/json", JObj [])])])])])])].
Proof. reflexivity. Qed.

(** C1 on the instance. The registry lists [getOrder] (GET) and [updateOrder]
    (PUT) on one URL, and the schema has neither. After the merge the path
    [/orders/{}] holds the [put] operation alone: [getOrder] is an operation id
    of the registry that is the [operationId] of no path and method of the
    schema. *)
Theorem merge_loses_operation :
  collectOperationIds Demo.schemaPaths
  = Ok [Some (JStr "listItems"); Some (JStr "getItem")]
  /\ has_key "getOrder" Demo.endpointMap = true
  /\ exists paths' : list (string * json),
       fst (merge (Demo.world Demo.schema)
              [Some (JStr "listItems"); Some (JStr "getItem")]
              Demo.endpointMap Demo.schemaPaths Demo.blank)
       = Ok paths'
       /\ collectOperationIds paths'
          = Ok [Some (JStr "listItems"); Some (JStr "getItem");
                Some (JStr "getPing"); Some (JStr "updateOrder");
                Some (JStr "getStatus")]
       /\ includes [Some (JStr "listItems"); Some (JStr "getItem");
                    Some (JStr "getPing"); Some (JStr "updateOrder");
                    Some (JStr "getStatus")] "getOrder" = false
       /\ lookup "/orders/{}" paths'
          = Some (synthesized "put" (Some (JStr "updateOrder")) (JObj [])).
Proof.
  split; [reflexivity|]. split; [reflexivity|].
  eexists. split; [vm_compute; reflexivity|].
  repeat split.
Qed.

(* ------------------------------------------------------------------------- *)
(** ** Existence coverage without collisions *)

Section Scan.

Lemma includes_In (operationsIds : list value) (key : string) :
  includes operationsIds key = true <-> In (Some (JStr key)) operationsIds.
Proof.
  unfold includes. rewrite existsb_exists. split.
  - intros (v & I & E). destruct v as [[| | |s| |]|]; simpl in E; try discriminate.
    apply String.eqb_eq in E. now subst.
  - intros I. exists (Some (JStr key)). split; [exact I|].
    simpl. apply String.eqb_refl.
Qed.

Lemma collectMethod_fold (methods : list (string * json)) :
  forall (acc ids : list value),
    fold_outcome collectMethod methods acc = Ok ids ->
    exists found,
      ids = (acc ++ found)%list
      /\ forall v, In v found <->
                   exists method operation,
                     In (method, operation) methods
                     /\ get operation "operationId" = Ok v.
Proof.
  induction methods as [|[method operation] methods IH]; simpl; intros acc ids H.
  - injection H as <-. exists []. rewrite app_nil_r. split; [reflexivity|].
    intros v. split; [contradiction | intros (? & ? & [] & _)].
  - unfold collectMethod in H at 1. cbn [snd] in H.
    destruct (get operation "operationId") as [v0|e] eqn:G; [|discriminate].
    apply IH in H. destruct H as (found & -> & F).
    exists (v0 :: found). rewrite <- app_assoc. split; [reflexivity|].
    intros v. simpl. rewrite F. split.
    + intros [<-|(m & op & I & G')]; [exists method, operation | exists m, op]; auto.
    + intros (m & op & [E|I] & G').
      * injection E as <- <-. left. congruence.
      * right. eauto.
Qed.

Lemma collectPath_fold (schemaPaths : list (string * json)) :
  forall (acc ids : list value),
    fold_outcome collectPath schemaPaths acc = Ok ids ->
    exists found,
      ids = (acc ++ found)%list
      /\ forall v, In v found <->
                   exists requestPathKey method methods operation,
                     In (requestPathKey, JObj methods) schemaPaths
                     /\ In (method, operation) methods
                     /\ get operation "operationId" = Ok v.
Proof.
  induction schemaPaths as [|[requestPathKey requestPath] schemaPaths IH];
    simpl; intros acc ids H.
  - injection H as <-. exists []. rewrite app_nil_r. split; [reflexivity|].
    intros v. split; [contradiction | intros (? & ? & ? & ? & [] & _)].
  - unfold collectPath in H at 1. cbn [snd] in H.
    destruct requestPath as [| | | | |methods]; try discriminate. simpl entries in H.
    destruct (fold_outcome collectMethod methods acc) as [ids1|e] eqn:M; [|discriminate].
    apply collectMethod_fold in M. destruct M as (found1 & -> & F1).
    apply IH in H. destruct H as (found & -> & F).
    exists (found1 ++ found)%list. rewrite app_assoc. split; [reflexivity|].
    intros v. rewrite in_app_iff, F1, F. split.
    + intros [(m & op & I & G)|(k & m & ms & op & I & I' & G)].
      * exists requestPathKey, m, methods, op. auto.
      * exists k, m, ms, op. auto.
    + intros (k & m & ms & op & [E|I] & I' & G).
      * injection E as <- <-. left. eauto.
      * right. exists k, m, ms, op. auto.
Qed.

(** What the scan of lines 69-75 finds is what is registered. *)
Lemma collect_registered (schemaPaths : list (string * json))
  (operationsIds : list value) (key : string) :
  collectOperationIds schemaPaths = Ok operationsIds ->
  includes operationsIds key = true <-> AsStated.registered schemaPaths key.
Proof.
  intros H. apply collectPath_fold in H. destruct H as (found & -> & F).
  rewrite includes_In. simpl. rewrite F. unfold AsStated.registered. split.
  - intros (k & m & ms & op & H). exists k, m, ms, op. exact H.
  - intros (k & m & ms & op & H). exists k, m, ms, op. exact H.
Qed.

Lemma collectMethod_total (methods : list (string * json)) :
  Forall (fun operation => snd operation <> JNull) methods ->
  forall acc, exists ids, fold_outcome collectMethod methods acc = Ok ids.
Proof.
  induction 1 as [|[method operation] methods N _ IH]; simpl; intros acc; [eauto|].
  unfold collectMethod at 1. cbn [snd] in *.
  destruct operation; try contradiction; simpl; apply IH.
Qed.

Lemma collect_total (schemaPaths : list (string * json)) :
  scannable schemaPaths ->
  forall acc, exists ids, fold_outcome collectPath schemaPaths acc = Ok ids.
Proof.
  induction 1 as [|[k requestPath] schemaPaths (methods & E & N) _ IH];
    simpl; intros acc; [eauto|].
  unfold collectPath at 1. cbn [snd] in *. subst requestPath. simpl entries.
  destruct (collectMethod_total _ N acc) as (ids1 & ->). apply IH.
Qed.

Lemma collectMethod_readable (methods : list (string * json)) :
  forall acc ids,
    fold_outcome collectMethod methods acc = Ok ids ->
    Forall (fun operation => snd operation <> JNull) methods.
Proof.
  induction methods as [|[method operation] methods IH]; simpl; intros acc ids H;
    [constructor|].
  unfold collectMethod in H at 1. cbn [snd] in H.
  destruct (get operation "operationId") as [v0|e] eqn:G; [|discriminate].
  constructor; [|eauto]. simpl. intros ->. discriminate.
Qed.

Lemma collect_scannable (schemaPaths : list (string * json)) :
  forall acc ids,
    fold_outcome collectPath schemaPaths acc = Ok ids -> scannable schemaPaths.
Proof.
  induction schemaPaths as [|[k requestPath] schemaPaths IH]; simpl; intros acc ids H;
    [constructor|].
  unfold collectPath in H at 1. cbn [snd] in H.
  destruct requestPath as [| | | | |methods]; try discriminate. simpl entries in H.
  destruct (fold_outcome collectMethod methods acc) as [ids1|e] eqn:M; [|discriminate].
  constructor; [|eapply IH; eassumption].
  exists methods. split; [reflexivity|]. eapply collectMethod_readable; eassumption.
Qed.

End Scan.

Section Creation.

Variables (k : string) (v : json).

Lemma In_create (props : list (string * json)) (x : string * json) :
  In x (create k v props) <-> x = (k, v) \/ In x props.
Proof.
  induction props as [|[k' v'] props IH]; simpl.
  - split; [intros [<-|[]]; auto | intros [->|[]]; auto].
  - destruct (enumerates_before k k'); simpl.
    + split; [intros [<-|H]; auto | intros [->|H]; auto].
    + rewrite IH. tauto.
Qed.

Lemma keys_create (props : list (string * json)) :
  Permutation (map fst (create k v props)) (k :: map fst props).
Proof.
  induction props as [|[k' v'] props IH]; simpl; [reflexivity|].
  destruct (enumerates_before k k'); simpl; [reflexivity|].
  rewrite IH. apply perm_swap.
Qed.

Lemma has_key_In (props : list (string * json)) :
  has_key k props = true <-> In k (map fst props).
Proof.
  unfold has_key. rewrite existsb_exists, in_map_iff. split.
  - intros (x & I & E). apply String.eqb_eq in E. eauto.
  - intros (x & E & I). exists x. split; [exact I|]. now apply String.eqb_eq.
Qed.

End Creation.

Section Coverage.

Variable env : Env.
Variable operationsIds : list value.

(** The merge, when no two rounds write to the same path key, none writes
    to a path key the document already has and none to [__proto__]: the
    document stays scannable, what was registered stays registered, and every
    entry that the schema lacked gets registered. *)
Lemma merge_keeps (endpointMap : list (string * json)) :
  Forall (fun entry =>
            exists props method url,
              snd entry = JObj props
              /\ lookup "id" props = Some (JStr (fst entry))
              /\ lookup "method" props = Some (JStr method)
              /\ lookup "url" props = Some (JStr url)) endpointMap ->
  forall (paths paths' : list (string * json)) (st st' : state),
    scannable paths ->
    NoDup (map fst paths ++ writtenKeys operationsIds endpointMap)%list ->
    ~ In "__proto__" (writtenKeys operationsIds endpointMap) ->
    merge env operationsIds endpointMap paths st = (Ok paths', st') ->
    scannable paths'
    /\ (forall key, AsStated.registered paths key -> AsStated.registered paths' key)
    /\ (forall key, has_key key endpointMap = true ->
                    includes operationsIds key = false ->
                    AsStated.registered paths' key).
Proof.
  unfold merge.
  induction 1 as [|[key data] rest (props & method & url & D & Hi & Hm & Hu) _ IH];
    intros paths paths' st st' S N P H.
  - simpl in H. unfold ret in H. injection H as <- _.
    split; [exact S|]. split; [auto | discriminate].
  - cbn [fst snd] in *. subst data. simpl for_each in H.
    returned H as paths1 s1 H1.
    destruct (includes operationsIds key) eqn:I.
    + rewrite mergeEntry_present in H1 by exact I. injection H1 as <- <-.
      assert (W : writtenKeys operationsIds ((key, JObj props) :: rest)
                  = writtenKeys operationsIds rest)
        by (unfold writtenKeys; simpl; now rewrite I).
      rewrite W in N, P. destruct (IH _ _ _ _ S N P H) as (S' & K & C).
      split; [exact S'|]. split; [exact K|].
      intros key0 B I0. simpl in B.
      destruct (String.eqb_spec key0 key) as [E|E]; [subst key0; congruence|].
      now apply C.
    + rewrite (mergeEntry_missing env _ _ _ _ _ _ _ I Hm Hu) in H1.
      injection H1 as <- <-.
      assert (W : writtenKeys operationsIds ((key, JObj props) :: rest)
                  = pathKey url :: writtenKeys operationsIds rest)
        by (unfold writtenKeys; simpl; rewrite I, Hu; reflexivity).
      rewrite W in N, P.
      assert (A : has_key (pathKey url) paths = false).
      { destruct (has_key (pathKey url) paths) eqn:B; [|reflexivity].
        apply has_key_In in B. apply NoDup_remove_2 in N.
        exfalso. apply N. apply in_or_app. now left. }
      assert (Q : String.eqb (pathKey url) "__proto__" = false).
      { apply String.eqb_neq. intros Q. apply P. now left. }
      assert (P' : ~ In "__proto__" (writtenKeys operationsIds rest)).
      { intros Q'. apply P. now right. }
      unfold assign in H. rewrite A, Q in H.
      destruct (synthesized_operationId (Str.toLowerCase method) (lookup "id" props)
                  match fst (fetchSample env (Str.toLowerCase method) (JObj props) st) with
                  | Ok sampleResponse => sampleResponse
                  | Throw _ => JObj []
                  end) as (operation & E & O & _).
      rewrite E in H. rewrite Hi in O.
      set (paths1 := create (pathKey url) (JObj [(Str.toLowerCase method, operation)]) paths) in *.
      assert (S1 : scannable paths1).
      { apply Forall_forall. intros x Ix. apply In_create in Ix.
        destruct Ix as [->|Ix].
        - eexists. split; [reflexivity|]. constructor; [|constructor].
          simpl. intros ->. discriminate.
        - unfold scannable in S. rewrite Forall_forall in S. now apply S. }
      assert (N1 : NoDup (map fst paths1 ++ writtenKeys operationsIds rest)%list).
      { eapply Permutation_NoDup; [|exact N].
        apply Permutation_sym.
        transitivity ((pathKey url :: map fst paths) ++ writtenKeys operationsIds rest)%list.
        - apply Permutation_app_tail. apply keys_create.
        - simpl. apply Permutation_middle. }
      destruct (IH _ _ _ _ S1 N1 P' H) as (S' & K & C).
      split; [exact S'|]. split.
      * intros key0 (k & m & ms & op & Ik & Im & G). apply K.
        exists k, m, ms, op. split; [|auto]. apply In_create. now right.
      * intros key0 B I0. simpl in B.
        destruct (String.eqb_spec key0 key) as [E0|E0]; [subst key0 | now apply C].
        apply K. exists (pathKey url), (Str.toLowerCase method),
                   [(Str.toLowerCase method, operation)], operation.
        split; [apply In_create; now left|]. split; [now left | exact O].
Qed.

End Coverage.

(** C1 where it holds (X1). Take a registry whose entries carry
    their own key as [id] and strings for method and URL. If the rounds of
    the merge write to path keys that are pairwise distinct, that the
    fetched schema does not have and that are not [__proto__], then after
    the merge the scan of the document returns, and finds every operation id
    of the registry. *)
Theorem merge_covers_without_collision (env : Env)
  (schemaPaths endpointMap paths' : list (string * json))
  (operationsIds : list value) (st st' : state) :
  collectOperationIds schemaPaths = Ok operationsIds ->
  Forall (fun entry =>
            exists props method url,
              snd entry = JObj props
              /\ lookup "id" props = Some (JStr (fst entry))
              /\ lookup "method" props = Some (JStr method)
              /\ lookup "url" props = Some (JStr url)) endpointMap ->
  NoDup (map fst schemaPaths ++ writtenKeys operationsIds endpointMap)%list ->
  ~ In "__proto__" (writtenKeys operationsIds endpointMap) ->
  merge env operationsIds endpointMap schemaPaths st = (Ok paths', st') ->
  exists ids,
    collectOperationIds paths' = Ok ids
    /\ forall key, has_key key endpointMap = true -> includes ids key = true.
Proof.
  intros Hc Hw Hn Hp Hm.
  assert (S : scannable schemaPaths) by (eapply collect_scannable; exact Hc).
  destruct (merge_keeps env operationsIds endpointMap Hw _ _ _ _ S Hn Hp Hm)
    as (S' & K & C).
  destruct (collect_total _ S' []) as (ids & Hids).
  exists ids. split; [exact Hids|]. intros key B.
  apply (collect_registered _ _ _ Hids).
  destruct (includes operationsIds key) eqn:I.
  - apply K. now apply (collect_registered _ _ _ Hc).
  - now apply C.
Qed.

Lemma merge_covers_without_collision_witness :
  exists ids,
    collectOperationIds
      [("/items", JObj [("get", Demo.listItems)]);
       ("/ping",
        JObj [("get",
               JObj [("summary", JStr "getPing"); ("operationId", JStr "getPing");
                     ("produces", JArr [JStr "application/json"]);
                     ("responses",
                      JObj [("200",
                             JObj [("examples",
                                    JObj [("application/json", Demo.pong)])])])])]);
       ("/orders/{}",
        JObj [("put",
               JObj [("summary", JStr "updateOrder"); ("operationId", JStr "updateOrder");
                     ("produces", JArr [JStr "application/json"]);
                     ("responses",
                      JObj [("200",
                             JObj [("examples",
                                    JObj [("application/json", JObj [])])])])])])]
    = Ok ids
    /\ forall key,
         has_key key [Demo.endpoint "listItems" "GET" "/ccstoreui/v1/items";
                      Demo.endpoint "getPing" "GET" "/ccstoreui/v1/ping";
                      Demo.endpoint "updateOrder" "PUT" "/ccstoreui/v1/orders/{}"]
         = true ->
         includes ids key = true.
Proof.
  refine (merge_covers_without_collision (Demo.world Demo.schema)
            [("/items", JObj [("get", Demo.listItems)])]
            [Demo.endpoint "listItems" "GET" "/ccstoreui/v1/items";
             Demo.endpoint "getPing" "GET" "/ccstoreui/v1/ping";
             Demo.endpoint "updateOrder" "PUT" "/ccstoreui/v1/orders/{}"]
            _ [Some (JStr "listItems")] Demo.blank _ eq_refl _ _ _ eq_refl).
  - repeat constructor; eexists; eexists; eexists; repeat split.
  - simpl. repeat constructor; simpl; intuition discriminate.
  - simpl. intuition discriminate.
Defined.

(* ------------------------------------------------------------------------- *)
(** ** The fixture materializer (lines 111-186) *)

Section FileSystem.

Variable env : Env.

Lemma ensureDir_ok (p : path) (st st' : state) (u : unit) :
  ensureDir env p st = (Ok u, st') ->
  files (disk st') = files (disk st) /\ requested st' = requested st.
Proof.
  unfold ensureDir. destruct (writable env p); [|discriminate].
  intros H. injection H as _ <-. split; reflexivity.
Qed.

Lemma outputJSON_ok (p : path) (content : json) (st st' : state) (u : unit) :
  outputJSON env p content st = (Ok u, st') ->
  (forall q, files (disk st') q
             = if Posix.eqb q p then Some content else files (disk st) q)
  /\ requested st' = requested st.
Proof.
  unfold outputJSON. destruct (writable env p); [|discriminate].
  intros H. injection H as _ <-. split; reflexivity.
Qed.

End FileSystem.

Section Loops.

Context {X : Type}.

(** A loop that returned ran its body to the end on every element, in order. *)
Lemma for_each_in_place_ok (body : X -> M X) (xs : list X) :
  forall (st st' : state) (ys : list X),
    for_each_in_place body xs st = (Ok ys, st') ->
    Forall2 (fun x y => exists s s', body x s = (Ok y, s')) xs ys.
Proof.
  induction xs as [|x xs IH]; simpl; intros st st' ys H.
  - unfold ret in H. injection H as <- _. constructor.
  - returned H as x' s1 Hx. returned H as rest' s2 Hrest.
    unfold ret in H. injection H as <- _.
    constructor; eauto.
Qed.

(** What a loop returned for an element comes from an element it was given. *)
Lemma returned_from (R : X -> X -> Prop) (xs ys : list X) (y : X) :
  Forall2 R xs ys -> In y ys -> exists x, In x xs /\ R x y.
Proof.
  induction 1 as [|x y' xs ys Rxy _ IH]; simpl; [contradiction|].
  intros [<-|I]; [eauto|].
  destruct (IH I) as (x0 & I0 & R0). eauto.
Qed.

End Loops.

Section Materializer.

Variable env : Env.
Variable registryJSON : json.

(** The data file and the descriptor of a response directory are two files. *)
Lemma descriptor_is_not_data (responsePath : path) :
  Posix.eqb (Posix.join responsePath "data.json")
            (Posix.join responsePath "descriptor.json") = false.
Proof.
  destruct (join_file responsePath) as (_ & -> & -> & _).
  now rewrite eqb_siblings.
Qed.

(** One round of the loop over the status codes, when it returns: the
    descriptor is written, with the selected content type for a header when
    there is data; the data file is written when there is data, and left as
    it was when there is none. *)
Lemma materializeStatus_ok (method statusCode : string) (requestData response : json)
  (requestId : value) (responseMethodPath : path) (st st' : state) :
  String.eqb statusCode "default" = false ->
  materializeStatus env registryJSON method requestData requestId
    responseMethodPath (statusCode, response) tt st = (Ok tt, st') ->
  exists (examples : list (string * json)) (responseData allowedParameters : value),
    examplesOf response = Ok examples
    /\ responseData = lookup (selectContentType (webMIMETypes env) examples) examples
    /\ get requestData "parameters" = Ok allowedParameters
    /\ files (disk st')
         (Posix.join (Posix.join responseMethodPath "default") "descriptor.json")
       = Some (descriptorOf allowedParameters method statusCode
                 (Posix.relative (Posix.join responseMethodPath "default")
                    (Posix.join (Posix.join responseMethodPath "default") "data.json"))
                 (if truthy responseData
                  then [("content-type",
                         JStr (selectContentType (webMIMETypes env) examples))]
                  else []))
    /\ (truthy responseData = true ->
        exists sample rewritten,
          responseData = Some sample
          /\ localize env (if is_string requestId "getRegistry"
                           then registryJSON else sample) = Some rewritten
          /\ files (disk st')
               (Posix.join (Posix.join responseMethodPath "default") "data.json")
             = Some rewritten)
    /\ (truthy responseData = false ->
        files (disk st')
          (Posix.join (Posix.join responseMethodPath "default") "data.json")
        = files (disk st)
            (Posix.join (Posix.join responseMethodPath "default") "data.json")).
Proof.
  intros D H. unfold materializeStatus in H. cbn [fst snd] in H. rewrite D in H.
  set (responsePath := Posix.join responseMethodPath "default") in *.
  computed H as allowedParameters Hp.
  returned H as u s1 Hdir. apply ensureDir_ok in Hdir. destruct Hdir as [F1 _].
  computed H as examples He.
  set (contentType := selectContentType (webMIMETypes env) examples) in *.
  returned H as headers s2 Hdata.
  apply outputJSON_ok in H. destruct H as [W _].
  exists examples, (lookup contentType examples), allowedParameters.
  split; [exact He|]. split; [reflexivity|]. split; [exact Hp|].
  rewrite !W, path_eqb_refl, descriptor_is_not_data.
  destruct (lookup contentType examples) as [sample|] eqn:L.
  - destruct (truthy (Some sample)) eqn:T.
    + destruct (localize env (if is_string requestId "getRegistry"
                              then registryJSON else sample)) as [rewritten|] eqn:Z.
      * returned Hdata as u' s3 Hw. apply outputJSON_ok in Hw. destruct Hw as [W1 _].
        unfold ret in Hdata. injection Hdata as <- <-.
        split; [reflexivity|]. split; [|discriminate]. intros _.
        exists sample, rewritten. repeat split; [exact Z|].
        rewrite W1. now rewrite path_eqb_refl.
      * unfold lift in Hdata. discriminate.
    + unfold ret in Hdata. injection Hdata as <- <-.
      split; [reflexivity|]. split; [discriminate|]. intros _. now rewrite F1.
  - unfold ret in Hdata. injection Hdata as <- <-.
    split; [reflexivity|]. split; [discriminate|]. intros _. now rewrite F1.
Qed.

End Materializer.

(** C4, as the code has it. For every descriptor that a round of the status
    loop writes, the descriptor names [data.json] as its data path, which
    resolved against the descriptor's directory is the file
    [<responsesRoot>/<operationId>/default/data.json]. When the response has
    truthy sample data for the selected content type (the placeholder
    counts), that file exists after the round, holding the data after the
    URL rewrite. When it has none, the round leaves the file as it was:
    absent if it was absent, but present if anything had written it before,
    such as another status code of the same operation. *)
Theorem fixture_data_file (env : Env) (registryJSON : json)
  (method statusCode : string) (requestData response : json)
  (requestId : value) (responseMethodPath : path) (st st' : state) :
  String.eqb statusCode "default" = false ->
  materializeStatus env registryJSON method requestData requestId
    responseMethodPath (statusCode, response) tt st = (Ok tt, st') ->
  exists (responseData allowedParameters : value) (headers : list (string * json)),
    responseDataOf (webMIMETypes env) response = Ok responseData
    /\ files (disk st')
         (Posix.join (Posix.join responseMethodPath "default") "descriptor.json")
       = Some (descriptorOf allowedParameters method statusCode "data.json" headers)
    /\ (truthy responseData = true ->
        exists sample rewritten,
          responseData = Some sample
          /\ localize env (if is_string requestId "getRegistry"
                           then registryJSON else sample) = Some rewritten
          /\ files (disk st')
               (Posix.join (Posix.join responseMethodPath "default") "data.json")
             = Some rewritten)
    /\ (truthy responseData = false ->
        files (disk st')
          (Posix.join (Posix.join responseMethodPath "default") "data.json")
        = files (disk st)
            (Posix.join (Posix.join responseMethodPath "default") "data.json")).
Proof.
  intros D H.
  destruct (materializeStatus_ok env registryJSON _ _ _ _ _ _ _ _ D H)
    as (examples & responseData & allowedParameters & E & R & _ & F & T & N).
  exists responseData, allowedParameters.
  destruct (relative_data (Posix.join responseMethodPath "default")) as [Rel _].
  rewrite Rel in F. eexists. split.
  - unfold responseDataOf. rewrite E. now rewrite R.
  - split; [exact F|]. split; assumption.
Qed.

Lemma fixture_data_file_witness :
  exists (responseData allowedParameters : value) (headers : list (string * json)),
    responseDataOf (webMIMETypes (Demo.world Demo.schema))
      (JObj [("examples", JObj [("application/json", JArr [Demo.item])])])
    = Ok responseData
    /\ files (disk (snd (materializeStatus (Demo.world Demo.schema) Demo.registry
                           "get" Demo.listItems (Some (JStr "listItems"))
                           ["project"; "oracle-api"; "responses"; "listItems"]
                           ("200", JObj [("examples",
                                          JObj [("application/json", JArr [Demo.item])])])
                           tt Demo.blank)))
         (Posix.join (Posix.join ["project"; "oracle-api"; "responses"; "listItems"]
                        "default") "descriptor.json")
       = Some (descriptorOf allowedParameters "get" "200" "data.json" headers)
    /\ (truthy responseData = true ->
        exists sample rewritten,
          responseData = Some sample
          /\ localize (Demo.world Demo.schema)
               (if is_string (Some (JStr "listItems")) "getRegistry"
                then Demo.registry else sample) = Some rewritten
          /\ files (disk (snd (materializeStatus (Demo.world Demo.schema) Demo.registry
                                 "get" Demo.listItems (Some (JStr "listItems"))
                                 ["project"; "oracle-api"; "responses"; "listItems"]
                                 ("200", JObj [("examples",
                                                JObj [("application/json", JArr [Demo.item])])])
                                 tt Demo.blank)))
               (Posix.join (Posix.join ["project"; "oracle-api"; "responses"; "listItems"]
                              "default") "data.json")
             = Some rewritten)
    /\ (truthy responseData = false ->
        files (disk (snd (materializeStatus (Demo.world Demo.schema) Demo.registry
                            "get" Demo.listItems (Some (JStr "listItems"))
                            ["project"; "oracle-api"; "responses"; "listItems"]
                            ("200", JObj [("examples",
                                           JObj [("application/json", JArr [Demo.item])])])
                            tt Demo.blank)))
          (Posix.join (Posix.join ["project"; "oracle-api"; "responses"; "listItems"]
                         "default") "data.json")
        = files (disk Demo.blank)
            (Posix.join (Posix.join ["project"; "oracle-api"; "responses"; "listItems"]
                           "default") "data.json")).
Proof.
  exact (fixture_data_file (Demo.world Demo.schema) Demo.registry
           "get" "200" Demo.listItems
           (JObj [("examples", JObj [("application/json", JArr [Demo.item])])])
           (Some (JStr "listItems"))
           ["project"; "oracle-api"; "responses"; "listItems"]
           Demo.blank _ eq_refl eq_refl).
Defined.

(** C4 as stated fails for the second documented status code of [listItems].
    The response for 404 has no sample data, the descriptor left in the
    directory is the one written for 404, and the data path it names
    resolves to a file that exists: the one written for 200. *)
Lemma descriptor_without_sample_has_data_file :
  responseDataOf (webMIMETypes (Demo.world Demo.schema))
    (JObj [("examples", JObj [])]) = Ok None
  /\ files (disk (snd (materializeOperation (Demo.world Demo.schema) Demo.registry
                         ("get", Demo.listItems) Demo.blank)))
       ["project"; "oracle-api"; "responses"; "listItems"; "default"; "descriptor.json"]
     = Some (descriptorOf None "get" "404" "data.json" [])
  /\ Posix.join ["project"; "oracle-api"; "responses"; "listItems"; "default"] "data.json"
     = ["project"; "oracle-api"; "responses"; "listItems"; "default"; "data.json"]
  /\ files (disk (snd (materializeOperation (Demo.world Demo.schema) Demo.registry
                         ("get", Demo.listItems) Demo.blank)))
       ["project"; "oracle-api"; "responses"; "listItems"; "default"; "data.json"]
     = Some (JArr [Demo.item]).
Proof. repeat split. Qed.

Section Pointer.

Lemma split_plain (name : string) :
  Str.contains "/" name = false -> Str.split "/" name = [name].
Proof.
  induction name as [|c name IH]; [reflexivity|].
  cbn [Str.contains Str.startsWith Str.split].
  rewrite (Ascii.eqb_sym "/" c), andb_true_r.
  destruct (Ascii.eqb c "/"); [discriminate|].
  intros H. now rewrite (IH H).
Qed.

Lemma join_plain (p : path) (name : string) :
  Posix.plain name = true -> Posix.join p name = (p ++ [name])%list.
Proof.
  unfold Posix.plain, Posix.join. rewrite !andb_true_iff, !negb_true_iff.
  intros [[[E D] U] S]. rewrite (split_plain _ S). simpl.
  unfold Posix.push. now rewrite E, D, U.
Qed.

(** The relative path from the schema root to the directory of an operation
    with an ordinary id. *)
Lemma pointer_plain (apiPath : path) (name : string) :
  Posix.plain name = true ->
  Posix.relative apiPath (Posix.join (Posix.join apiPath "responses") name)
  = "responses/" ++ name.
Proof.
  intros P. destruct (join_file apiPath) as (_ & _ & _ & ->).
  rewrite (join_plain _ _ P), <- app_assoc. unfold Posix.relative.
  now rewrite diverge_below.
Qed.

(** The descriptor and the data of the operation are one directory below. *)
Lemma default_is_below (apiPath : path) (name : string) :
  Posix.plain name = true ->
  Posix.relative apiPath
    (Posix.join (Posix.join (Posix.join apiPath "responses") name) "default")
  = "responses/" ++ name ++ "/default".
Proof.
  intros P. destruct (join_file apiPath) as (_ & _ & _ & ->).
  rewrite (join_plain _ _ P).
  destruct (join_file ((apiPath ++ ["responses"]) ++ [name])%list) as (-> & _).
  rewrite <- !app_assoc. unfold Posix.relative.
  now rewrite diverge_below.
Qed.

End Pointer.

Section Operations.

Variable env : Env.
Variable registryJSON : json.

(** One round of the loop over the methods of a path, when it returns: the
    operation is an object, and it is returned with its [responses] replaced
    by the relative path of [<responsesRoot>/<operationId>]. *)
Lemma materializeOperation_ok (method : string) (requestData : json)
  (entry' : string * json) (st st' : state) :
  materializeOperation env registryJSON (method, requestData) st = (Ok entry', st') ->
  exists props,
    requestData = JObj props
    /\ entry'
       = (method,
          JObj (assign "responses"
                  (JStr (Posix.relative (apiPath env)
                           (Posix.join (responsesPath env)
                              (to_string_of (lookup "operationId" props)))))
                  props)).
Proof.
  unfold materializeOperation. cbn [fst snd]. intros H.
  computed H as responses Hr. computed H as requestId Hi.
  returned H as u s1 Hdir. computed H as statuses Hs.
  returned H as u' s2 Hloop.
  destruct requestData as [| | | | |props]; try (unfold lift in H; discriminate).
  simpl in Hi. injection Hi as <-.
  unfold ret in H. injection H as <- _. eauto.
Qed.

Lemma materializePath_ok (pathKey : string) (requestPath : json)
  (entry' : string * json) (st st' : state) :
  materializePath env registryJSON (pathKey, requestPath) st = (Ok entry', st') ->
  exists methods methods',
    requestPath = JObj methods
    /\ entry' = (pathKey, JObj methods')
    /\ Forall2 (fun operation operation' =>
                  exists s s',
                    materializeOperation env registryJSON operation s
                    = (Ok operation', s')) methods methods'.
Proof.
  unfold materializePath. cbn [fst snd]. intros H.
  computed H as methods Hm. returned H as methods' s1 Hloop.
  unfold ret in H. injection H as <- _.
  destruct requestPath as [| | | | |props]; try discriminate.
  simpl in Hm. injection Hm as ->.
  exists methods, methods'. repeat split.
  exact (for_each_in_place_ok _ _ _ _ _ Hloop).
Qed.

End Operations.

(** C5, as the code has it. After the materializer has returned, every path
    of the document is an object of operations, and the [responses] attribute
    of every operation is the relative path from the schema root to
    [<responsesRoot>/<operationId>], the directory of the operation and the
    parent of its [default] directory; for an operation id that is an
    ordinary file name this is [responses/<operationId>]. *)
Theorem responses_pointer (env : Env) (registryJSON : json)
  (schemaPaths paths' : list (string * json)) (st st' : state) :
  materialize env registryJSON schemaPaths st = (Ok paths', st') ->
  forall (requestPathKey : string) (requestPath : json),
    In (requestPathKey, requestPath) paths' ->
    exists methods,
      requestPath = JObj methods
      /\ forall (method : string) (requestData : json),
           In (method, requestData) methods ->
           exists requestId,
             get requestData "operationId" = Ok requestId
             /\ get requestData "responses"
                = Ok (Some (JStr (Posix.relative (apiPath env)
                                    (Posix.join (responsesPath env)
                                       (to_string_of requestId)))))
             /\ forall name,
                  requestId = Some (JStr name) ->
                  Posix.plain name = true ->
                  get requestData "responses"
                  = Ok (Some (JStr ("responses/" ++ name))).
Proof.
  intros H requestPathKey requestPath I.
  apply for_each_in_place_ok in H.
  destruct (returned_from _ _ _ _ H I) as ([key0 requestPath0] & _ & s & s' & P).
  apply materializePath_ok in P.
  destruct P as (methods & methods' & -> & E & F). injection E as -> ->.
  exists methods'. split; [reflexivity|]. intros method requestData I'.
  destruct (returned_from _ _ _ _ F I') as ([method0 requestData0] & _ & t & t' & O).
  apply materializeOperation_ok in O. destruct O as (props & -> & E).
  injection E as -> ->.
  exists (lookup "operationId" props). simpl get.
  rewrite lookup_assign, lookup_assign_other by discriminate.
  repeat split. intros name -> P. simpl to_string_of.
  unfold responsesPath. now rewrite pointer_plain.
Qed.

Lemma responses_pointer_witness :
  exists methods,
    JObj [("get", JObj [("operationId", JStr "listItems");
                        ("responses", JStr "responses/listItems")])]
    = JObj methods
    /\ forall (method : string) (requestData : json),
         In (method, requestData) methods ->
         exists requestId,
           get requestData "operationId" = Ok requestId
           /\ get requestData "responses"
              = Ok (Some (JStr (Posix.relative (apiPath (Demo.world Demo.schema))
                                  (Posix.join (responsesPath (Demo.world Demo.schema))
                                     (to_string_of requestId)))))
           /\ forall name,
                requestId = Some (JStr name) ->
                Posix.plain name = true ->
                get requestData "responses"
                = Ok (Some (JStr ("responses/" ++ name))).
Proof.
  exact (responses_pointer (Demo.world Demo.schema) Demo.registry
           [("/items", JObj [("get", Demo.listItems)])]
           [("/items",
             JObj [("get", JObj [("operationId", JStr "listItems");
                                 ("responses", JStr "responses/listItems")])])]
           Demo.blank _ eq_refl
           "/items"
           (JObj [("get", JObj [("operationId", JStr "listItems");
                                ("responses", JStr "responses/listItems")])])
           (or_introl eq_refl)).
Defined.

(** C5 as stated fails for [listItems]. Its [responses] attribute becomes
    [responses/listItems], while the directory that holds its descriptor is
    [responses/listItems/default]. *)
Lemma responses_pointer_is_not_default_directory :
  fst (materializeOperation (Demo.world Demo.schema) Demo.registry
         ("get", Demo.listItems) Demo.blank)
  = Ok ("get", JObj [("operationId", JStr "listItems");
                     ("responses", JStr "responses/listItems")])
  /\ Posix.relative (apiPath (Demo.world Demo.schema))
       (Posix.join (Posix.join (responsesPath (Demo.world Demo.schema)) "listItems")
          "default")
     = "responses/listItems/default"
  /\ files (disk (snd (materializeOperation (Demo.world Demo.schema) Demo.registry
                         ("get", Demo.listItems) Demo.blank)))
       (Posix.join (Posix.join (Posix.join (responsesPath (Demo.world Demo.schema))
                                  "listItems") "default") "descriptor.json")
     = Some (descriptorOf None "get" "404" "data.json" []).
Proof. repeat split. Qed.

(* ------------------------------------------------------------------------- *)
(** ** The definition extractor and the run as a whole (lines 188-220) *)

Section Run.

Variable env : Env.

(** The normalizer writes to [basePath] and to nothing else. *)
Lemma normalizeBasePath_keeps (schemaJSON schemaJSON' : json) (k : string) :
  normalizeBasePath schemaJSON = Ok schemaJSON' ->
  k <> "basePath" ->
  get schemaJSON' k = get schemaJSON k.
Proof.
  unfold normalizeBasePath. intros H N.
  destruct (get schemaJSON "basePath") as [basePath|e]; [|discriminate].
  destruct (Str.contains "ui" (to_string_of basePath)).
  - now injection H as <-.
  - destruct (as_string basePath) as [s|e]; [|discriminate].
    destruct schemaJSON as [| | | | |props]; try discriminate.
    injection H as <-. simpl. now rewrite lookup_assign_other.
Qed.

(** The document that reaches line 188 has the definitions of the fetched
    schema, or lacks them as the fetched schema does. *)
Lemma synthesize_definitions (st st' : state) (document : json)
  (response : Z) (body : string) (schemaJSON : json) :
  request env (schemaURL env) = Answered response body ->
  JSON_parse env body = Some schemaJSON ->
  synthesize env st = (Ok document, st') ->
  get document "definitions" = get schemaJSON "definitions".
Proof.
  intros R P H. unfold synthesize in H.
  returned H as schemaRequestResponse s1 H1.
  destruct schemaRequestResponse as [response' body'].
  apply makeRequest_ok in H1. destruct H1 as [R' _].
  rewrite R in R'. injection R' as <- <-.
  returned H as registryRequestResponse s2 H2.
  computed H as schemaJSON0 Hs. cbn [snd] in Hs. unfold parse in Hs.
  rewrite P in Hs. injection Hs as <-.
  computed H as registryJSON Hr.
  computed H as endpointMap He.
  computed H as schemaPaths Hp.
  computed H as schemaJSON1 Hn.
  computed H as paths Hk.
  computed H as operationsIds Ho.
  computed H as endpoints Hm.
  returned H as merged s3 H3.
  returned H as materialized s4 H4.
  rewrite <- (normalizeBasePath_keeps _ _ "definitions" Hn) by discriminate.
  destruct schemaJSON1 as [| | | | |props]; try (unfold lift in H; discriminate).
  unfold ret in H. injection H as <- _.
  simpl. now rewrite lookup_assign_other.
Qed.

Lemma extractDefinitions_undefined (document : json) (st : state) :
  get document "definitions" = Ok None ->
  extractDefinitions env document st = (Throw TypeError, st).
Proof.
  intros H. unfold extractDefinitions, bind, lift. now rewrite H.
Qed.

(** Without definitions the run stops at line 189, in the state the
    materializer left. *)
Lemma grab_stops_at_definitions (st st' : state) (document : json)
  (response : Z) (body : string) (schemaJSON : json) :
  request env (schemaURL env) = Answered response body ->
  JSON_parse env body = Some schemaJSON ->
  get schemaJSON "definitions" = Ok None ->
  synthesize env st = (Ok document, st') ->
  grab env st = (Throw TypeError, st').
Proof.
  intros R P D S. unfold grab. rewrite (bind_run _ _ _ _ _ S).
  apply extractDefinitions_undefined.
  now rewrite (synthesize_definitions _ _ _ _ _ _ R P S).
Qed.

Lemma dispatch_grab (st : state) :
  dispatch env "grab" st
  = match grab env st with
    | (Ok _, st') => (WithResult, st')
    | (Throw errorResponse, st') => (WithError errorResponse, st')
    end.
Proof. reflexivity. Qed.

End Run.

(** C10. When the schema is fetched and parsed and has no [definitions]
    attribute, [grab] is rejected and the callback of the dispatcher receives
    the error, whatever the registry holds. If the run got as far as the
    definitions, the error is the [TypeError] of [Object.keys(undefined)], and
    the state is the one the materializer left: the fixtures written before
    stay on disk. *)
Theorem grab_needs_definitions (env : Env) (st : state) (response : Z)
  (body : string) (schemaJSON : json) :
  request env (schemaURL env) = Answered response body ->
  JSON_parse env body = Some schemaJSON ->
  get schemaJSON "definitions" = Ok None ->
  (exists e, fst (grab env st) = Throw e
             /\ fst (dispatch env "grab" st) = WithError e)
  /\ (forall (document : json) (st' : state),
         synthesize env st = (Ok document, st') ->
         grab env st = (Throw TypeError, st')
         /\ dispatch env "grab" st = (WithError TypeError, st')).
Proof.
  intros R P D. split.
  - destruct (synthesize env st) as [[document|e] st'] eqn:S.
    + exists TypeError. rewrite dispatch_grab.
      now rewrite (grab_stops_at_definitions env _ _ _ _ _ _ R P D S).
    + exists e. rewrite dispatch_grab. unfold grab.
      now rewrite (bind_throw _ _ _ _ _ S).
  - intros document st' S. rewrite dispatch_grab.
    now rewrite (grab_stops_at_definitions env _ _ _ _ _ _ R P D S).
Qed.

Lemma grab_needs_definitions_witness :
  (exists e,
      fst (grab (Demo.world Demo.schema_without_definitions) Demo.blank) = Throw e
      /\ fst (dispatch (Demo.world Demo.schema_without_definitions) "grab" Demo.blank)
         = WithError e)
  /\ (forall (document : json) (st' : state),
         synthesize (Demo.world Demo.schema_without_definitions) Demo.blank
         = (Ok document, st') ->
         grab (Demo.world Demo.schema_without_definitions) Demo.blank
         = (Throw TypeError, st')
         /\ dispatch (Demo.world Demo.schema_without_definitions) "grab" Demo.blank
            = (WithError TypeError, st')).
Proof.
  exact (grab_needs_definitions (Demo.world Demo.schema_without_definitions)
           Demo.blank 200 (Demo.text Demo.schema_without_definitions)
           Demo.schema_without_definitions eq_refl eq_refl eq_refl).
Defined.

(** The fixtures of the witness stay on disk after the rejected run. *)
Example rejected_run_leaves_fixtures :
  fst (grab (Demo.world Demo.schema_without_definitions) Demo.blank) = Throw TypeError
  /\ files (disk (snd (grab (Demo.world Demo.schema_without_definitions) Demo.blank)))
       ["project"; "oracle-api"; "responses"; "getPing"; "default"; "data.json"]
     = Some Demo.pong
  /\ files (disk (snd (grab (Demo.world Demo.schema_without_definitions) Demo.blank)))
       ["project"; "oracle-api"; "schema.json"]
     = None.
Proof. vm_compute. repeat split. Qed.

(* ------------------------------------------------------------------------- *)
(** ** A run on the instance, end to end *)

(** The schema has [listItems] and [getItem]; the registry adds [getPing],
    whose sample is fetched, [getOrder] and [updateOrder], whose URL has a
    parameter, and [getStatus], whose sample cannot be fetched. *)
Example run_resolves :
  fst (dispatch (Demo.world Demo.schema) "grab" Demo.blank) = WithResult
  /\ requested (snd (grab (Demo.world Demo.schema) Demo.blank))
     = [Demo.host ++ "/ccstore/v1/metadata-catalog";
        Demo.host ++ "/ccstoreui/v1/registry";
        Demo.host ++ "/ccstoreui/v1/ping";
        Demo.host ++ "/ccstoreui/v1/status"].
Proof. vm_compute. split; reflexivity. Qed.

Example run_other_action :
  dispatch (Demo.world Demo.schema) "serve" Demo.blank = (WithNothing, Demo.blank).
Proof. reflexivity. Qed.

(** The merged document gains [/ping] with the fetched sample. *)
Example run_merges_ping :
  exists paths',
    fst (merge (Demo.world Demo.schema)
           [Some (JStr "listItems"); Some (JStr "getItem")]
           Demo.endpointMap Demo.schemaPaths Demo.blank) = Ok paths'
    /\ lookup "/ping" paths'
       = Some (synthesized "get" (Some (JStr "getPing")) Demo.pong).
Proof. eexists. split; [vm_compute; reflexivity | reflexivity]. Qed.

(** The fixture of [getPing]: a descriptor and the sample. *)
Example run_writes_ping :
  files (disk (snd (grab (Demo.world Demo.schema) Demo.blank)))
    ["project"; "oracle-api"; "responses"; "getPing"; "default"; "data.json"]
  = Some Demo.pong
  /\ files (disk (snd (grab (Demo.world Demo.schema) Demo.blank)))
       ["project"; "oracle-api"; "responses"; "getPing"; "default"; "descriptor.json"]
     = Some (descriptorOf None "get" "200" "data.json"
               [("content-type", JStr "application/json")])
  /\ dirs (disk (snd (grab (Demo.world Demo.schema) Demo.blank)))
       ["project"; "oracle-api"; "responses"; "getPing"; "default"]
     = true.
Proof. vm_compute. repeat split. Qed.

(** An operation whose response declares no examples gets the placeholder
    for data, and its parameters in the descriptor. *)
Example run_writes_placeholder :
  files (disk (snd (grab (Demo.world Demo.schema) Demo.blank)))
    ["project"; "oracle-api"; "responses"; "getItem"; "default"; "data.json"]
  = Some (JObj [("sample", JBool true)])
  /\ files (disk (snd (grab (Demo.world Demo.schema) Demo.blank)))
       ["project"; "oracle-api"; "responses"; "getItem"; "default"; "descriptor.json"]
     = Some (descriptorOf
               (Some (JArr [JObj [("name", JStr "id"); ("in", JStr "path")]]))
               "get" "200" "data.json"
               [("content-type", JStr "application/json")]).
Proof. vm_compute. repeat split. Qed.

(** The definitions are extracted and the document is written without them,
    with the base path rewritten and the responses replaced. *)
Example run_writes_schema :
  files (disk (snd (grab (Demo.world Demo.schema) Demo.blank)))
    ["project"; "oracle-api"; "definitions"; "Item.json"]
  = Some (JObj [("type", JStr "object")])
  /\ exists paths',
       files (disk (snd (grab (Demo.world Demo.schema) Demo.blank)))
         ["project"; "oracle-api"; "schema.json"]
       = Some (JObj [("basePath", JStr "/ccstoreui/v1"); ("paths", JObj paths')])
       /\ map fst paths' = ["/items"; "/items/{id}"; "/ping"; "/orders/{}"; "/status"]
       /\ lookup "/items" paths'
          = Some (JObj [("get", JObj [("operationId", JStr "listItems");
                                      ("responses", JStr "responses/listItems")])]).
Proof. vm_compute. split; [reflexivity|]. eexists. repeat split. Qed.

(* ------------------------------------------------------------------------- *)
(** ** The primitives on a few inputs *)

Example replace_first_only : Str.replace "ab" "X" "cabab" = "cXab".
Proof. reflexivity. Qed.

Example replace_absent : Str.replace "ccstore" "ccstoreui" "/other/v1" = "/other/v1".
Proof. reflexivity. Qed.

Example lower_mixed : Str.toLowerCase "GeT" = "get".
Proof. reflexivity. Qed.

Example pathKey_strips : pathKey "/ccstoreui/v1/orders/{}" = "/orders/{}".
Proof. reflexivity. Qed.

Example braces_empty_only :
  Str.contains "{}" "/orders/{}" = true /\ Str.contains "{}" "/orders/{id}" = false.
Proof. split; reflexivity. Qed.

Example join_normalizes : Posix.join ["a"; "b"] "../c/./d//e/" = ["a"; "c"; "d"; "e"].
Proof. reflexivity. Qed.

Example relative_climbs : Posix.relative ["a"; "b"] ["a"; "c"; "d"] = "../c/d".
Proof. reflexivity. Qed.

Example to_string_array :
  to_string (JArr [JNum (-12); JNull; JArr [JStr "x"; JBool true]; JObj []])
  = "-12,,x,true,[object Object]".
Proof. reflexivity. Qed.

(** Array-index keys enumerate first and in ascending order. *)
Example assign_orders_indices :
  map fst (assign "10" JNull (assign "9" JNull (assign "/x" JNull (assign "2" JNull []))))
  = ["2"; "9"; "10"; "/x"].
Proof. reflexivity. Qed.

Example undefined_operationId :
  to_string_of (lookup "operationId" [("summary", JStr "s")]) = "undefined".
Proof. reflexivity. Qed.

(* ------------------------------------------------------------------------- *)
(** ** Further properties: the path normalizer is idempotent *)

Section Replacement.

Variables (pat rep : string).

Lemma replace_absent_same (s : string) :
  Str.contains pat s = false -> Str.replace pat rep s = s.
Proof.
  induction s as [|c s IH]; simpl.
  - now destruct (Str.startsWith pat EmptyString).
  - destruct (Str.startsWith pat (String c s)); [discriminate|].
    intros H. now rewrite IH.
Qed.

Lemma replace_present_inserts (s : string) :
  Str.contains pat s = true ->
  exists a b, Str.replace pat rep s = a ++ rep ++ b.
Proof.
  induction s as [|c s IH]; simpl.
  - destruct (Str.startsWith pat EmptyString); [|discriminate].
    intros _. exists EmptyString. eexists. reflexivity.
  - destruct (Str.startsWith pat (String c s)).
    + intros _. exists EmptyString. eexists. reflexivity.
    + intros H. destruct (IH H) as (a & b & ->). exists (String c a), b. reflexivity.
Qed.

End Replacement.

Section Occurrence.

Variable x : string.

Lemma contains_empty_pattern (s : string) :
  Str.startsWith x EmptyString = true -> Str.contains x s = true.
Proof.
  destruct x; [|discriminate]. intros _. now destruct s.
Qed.

Lemma startsWith_append (a b : string) :
  Str.startsWith x a = true -> Str.startsWith x (a ++ b) = true.
Proof.
  revert a. induction x as [|c y IH]; intros a; [reflexivity|].
  destruct a as [|d a]; simpl; [discriminate|].
  rewrite !andb_true_iff. intros [E H]. auto.
Qed.

Lemma contains_append_left (a b : string) :
  Str.contains x a = true -> Str.contains x (a ++ b) = true.
Proof.
  induction a as [|c a IH]; simpl.
  - destruct (Str.startsWith x EmptyString) eqn:E; [|discriminate].
    intros _. now apply contains_empty_pattern.
  - destruct (Str.startsWith x (String c a)) eqn:E.
    + intros _. apply (startsWith_append _ b) in E. simpl in E. now rewrite E.
    + intros H. rewrite (IH H). now destruct (Str.startsWith x (String c (a ++ b))).
Qed.

Lemma contains_append_right (a b : string) :
  Str.contains x b = true -> Str.contains x (a ++ b) = true.
Proof.
  intros H. induction a as [|c a IH]; simpl; [exact H|].
  rewrite IH. now destruct (Str.startsWith x (String c (a ++ b))).
Qed.

End Occurrence.

(** A base path that still lacks the marker after the rewrite had neither
    service name in it, and the rewrite did not change it. *)
Lemma rewriteBasePath_without_marker (basePath : string) :
  Str.contains "ui" (rewriteBasePath basePath) = false ->
  rewriteBasePath basePath = basePath.
Proof.
  unfold rewriteBasePath. intros H.
  destruct (Str.contains "ccstore" (Str.replace "ccadmin" "ccadminui" basePath)) eqn:S.
  - destruct (replace_present_inserts "ccstore" "ccstoreui" _ S) as (a & b & E).
    rewrite E in H. rewrite contains_append_right in H; [discriminate|].
    now apply contains_append_left.
  - rewrite (replace_absent_same _ _ _ S) in *.
    destruct (Str.contains "ccadmin" basePath) eqn:A.
    + destruct (replace_present_inserts "ccadmin" "ccadminui" _ A) as (a & b & E).
      rewrite E in H. rewrite contains_append_right in H; [discriminate|].
      now apply contains_append_left.
    + now apply replace_absent_same.
Qed.

Lemma assign_unchanged (k : string) (v : json) (props : list (string * json)) :
  lookup k props = Some v -> assign k v props = props.
Proof.
  intros H. unfold assign.
  assert (K : has_key k props = true) by (apply has_key_lookup; eauto).
  rewrite K. clear K. induction props as [|[k' v'] props IH]; simpl in *; [discriminate|].
  destruct (String.eqb_spec k k') as [->|].
  - now injection H as ->.
  - now rewrite IH.
Qed.

(** X2. Normalizing the base path of a document that has been normalized
    changes nothing: the normalizer is idempotent. *)
Theorem normalizeBasePath_idempotent (schemaJSON schemaJSON' : json) :
  normalizeBasePath schemaJSON = Ok schemaJSON' ->
  normalizeBasePath schemaJSON' = Ok schemaJSON'.
Proof.
  unfold normalizeBasePath at 1.
  destruct (get schemaJSON "basePath") as [basePath|e] eqn:G; [|discriminate].
  destruct (Str.contains "ui" (to_string_of basePath)) eqn:U.
  - intros H. injection H as <-. unfold normalizeBasePath. now rewrite G, U.
  - destruct basePath as [[| | |s| |]|]; try discriminate.
    destruct schemaJSON as [| | | | |props]; try discriminate.
    simpl. intros H. injection H as <-.
    unfold normalizeBasePath. simpl get. rewrite lookup_assign by discriminate.
    simpl to_string_of.
    destruct (Str.contains "ui" (rewriteBasePath s)) eqn:U'; [reflexivity|].
    simpl. rewrite (rewriteBasePath_without_marker _ U').
    rewrite (rewriteBasePath_without_marker _ U').
    f_equal. f_equal. apply assign_unchanged. now apply lookup_assign.
Qed.

Lemma normalizeBasePath_idempotent_witness :
  normalizeBasePath
    (JObj [("basePath", JStr "/ccstoreui/v1"); ("paths", JObj [])])
  = Ok (JObj [("basePath", JStr "/ccstoreui/v1"); ("paths", JObj [])]).
Proof.
  exact (normalizeBasePath_idempotent
           (JObj [("basePath", JStr "/ccstore/v1"); ("paths", JObj [])])
           (JObj [("basePath", JStr "/ccstoreui/v1"); ("paths", JObj [])])
           eq_refl).
Defined.

(* ------------------------------------------------------------------------- *)
(** ** Further properties: what each stage leaves alone *)

Section Preservation.

Context {T : Type} (component : state -> T).

Lemma ret_preserves {A : Type} (a : A) : preserves component (ret a).
Proof. intros st. reflexivity. Qed.

Lemma lift_preserves {A : Type} (o : outcome A) : preserves component (lift o).
Proof. intros st. reflexivity. Qed.

Lemma bind_preserves {A B : Type} (m : M A) (k : A -> M B) :
  preserves component m ->
  (forall a, preserves component (k a)) ->
  preserves component (bind m k).
Proof.
  intros Hm Hk st. unfold bind. specialize (Hm st).
  destruct (m st) as [[a|e] s]; simpl in *; [|exact Hm].
  now rewrite Hk.
Qed.

Lemma try_catch_preserves {A : Type} (m : M A) (handler : error -> M A) :
  preserves component m ->
  (forall e, preserves component (handler e)) ->
  preserves component (try_catch m handler).
Proof.
  intros Hm Hh st. unfold try_catch. specialize (Hm st).
  destruct (m st) as [[a|e] s]; simpl in *; [exact Hm|].
  now rewrite Hh.
Qed.

Lemma for_each_preserves {X S : Type} (body : X -> S -> M S) (xs : list X) :
  (forall x acc, preserves component (body x acc)) ->
  forall acc, preserves component (for_each body xs acc).
Proof.
  intros Hb. induction xs as [|x xs IH]; intros acc; simpl.
  - apply ret_preserves.
  - apply bind_preserves; auto.
Qed.

Lemma for_each_in_place_preserves {X : Type} (body : X -> M X) (xs : list X) :
  (forall x, preserves component (body x)) ->
  preserves component (for_each_in_place body xs).
Proof.
  intros Hb. induction xs as [|x xs IH]; simpl.
  - apply ret_preserves.
  - apply bind_preserves; [apply Hb|]. intros x'.
    apply bind_preserves; [exact IH|]. intros rest'. apply ret_preserves.
Qed.

End Preservation.

Section Quiet.

Variable env : Env.

(** The state a request leaves: the same disk, one more URL. *)
Lemma makeRequest_leaves (url : string) (st : state) :
  snd (makeRequest env url st)
  = {| disk := disk st; requested := (requested st ++ [url])%list |}.
Proof.
  unfold makeRequest. destruct (request env url) as [reason|response body]; [reflexivity|].
  destruct (parse env body) as [parsedBody|e]; [|reflexivity].
  destruct (get parsedBody "status") as [status|e]; [|reflexivity].
  now destruct (is_string status "404").
Qed.

(** How a request settles depends on the network alone. *)
Lemma makeRequest_settles_alike (url : string) (st st' : state) :
  fst (makeRequest env url st) = fst (makeRequest env url st').
Proof.
  unfold makeRequest. destruct (request env url) as [reason|response body]; [reflexivity|].
  destruct (parse env body) as [parsedBody|e]; [|reflexivity].
  destruct (get parsedBody "status") as [status|e]; [|reflexivity].
  now destruct (is_string status "404").
Qed.

Lemma makeRequest_preserves_disk (url : string) :
  preserves disk (makeRequest env url).
Proof. intros st. now rewrite makeRequest_leaves. Qed.

Lemma fetchSample_preserves_disk (method : string) (endpointMapData : json) :
  preserves disk (fetchSample env method endpointMapData).
Proof.
  unfold fetchSample. apply bind_preserves; [apply lift_preserves|]. intros url.
  destruct (andb _ _); [|apply ret_preserves].
  apply bind_preserves; [apply makeRequest_preserves_disk|].
  intros r. apply lift_preserves.
Qed.

Lemma mergeEntry_preserves_disk (operationsIds : list value)
  (entry : string * json) (schemaPaths : list (string * json)) :
  preserves disk (mergeEntry env operationsIds entry schemaPaths).
Proof.
  unfold mergeEntry. destruct (includes operationsIds (fst entry)); [apply ret_preserves|].
  apply bind_preserves; [apply lift_preserves|]. intros declared.
  apply bind_preserves; [apply lift_preserves|]. intros upper.
  apply bind_preserves.
  - apply try_catch_preserves; [apply fetchSample_preserves_disk|].
    intros e. apply ret_preserves.
  - intros sampleResponse.
    apply bind_preserves; [apply lift_preserves|]. intros url.
    apply bind_preserves; [apply lift_preserves|]. intros target.
    apply bind_preserves; [apply lift_preserves|]. intros id.
    apply ret_preserves.
Qed.

Lemma ensureDir_preserves_requested (p : path) :
  preserves requested (ensureDir env p).
Proof. intros st. unfold ensureDir. now destruct (writable env p). Qed.

Lemma outputJSON_preserves_requested (p : path) (content : json) :
  preserves requested (outputJSON env p content).
Proof. intros st. unfold outputJSON. now destruct (writable env p). Qed.

Lemma materializeStatus_preserves_requested (registryJSON : json) (method : string)
  (requestData : json) (requestId : value) (responseMethodPath : path)
  (status : string * json) (u : unit) :
  preserves requested
    (materializeStatus env registryJSON method requestData requestId
       responseMethodPath status u).
Proof.
  unfold materializeStatus. destruct (String.eqb (fst status) "default");
    [apply ret_preserves|].
  apply bind_preserves; [apply lift_preserves|]. intros allowedParameters.
  apply bind_preserves; [apply ensureDir_preserves_requested|]. intros _.
  apply bind_preserves; [apply lift_preserves|]. intros examples.
  apply bind_preserves; [|intros headers; apply outputJSON_preserves_requested].
  destruct (lookup _ examples) as [sample|]; [|apply ret_preserves].
  destruct (truthy (Some sample)); [|apply ret_preserves].
  destruct (localize env _) as [rewritten|]; [|apply lift_preserves].
  apply bind_preserves; [apply outputJSON_preserves_requested|].
  intros _. apply ret_preserves.
Qed.

Lemma materializeOperation_preserves_requested (registryJSON : json)
  (entry : string * json) :
  preserves requested (materializeOperation env registryJSON entry).
Proof.
  unfold materializeOperation.
  apply bind_preserves; [apply lift_preserves|]. intros responses.
  apply bind_preserves; [apply lift_preserves|]. intros requestId.
  apply bind_preserves; [apply ensureDir_preserves_requested|]. intros _.
  apply bind_preserves; [apply lift_preserves|]. intros statuses.
  apply bind_preserves.
  - apply for_each_preserves. intros status u.
    apply materializeStatus_preserves_requested.
  - intros _. destruct (snd entry); apply lift_preserves.
Qed.

End Quiet.

(** X3. The merge never touches the file system: whatever the registry and
    the network, and whether it returns or throws, the disk after the merge
    is the disk before it. *)
Theorem merge_preserves_disk (env : Env) (operationsIds : list value)
  (endpointMap schemaPaths : list (string * json)) :
  preserves disk (merge env operationsIds endpointMap schemaPaths).
Proof.
  unfold merge. apply for_each_preserves. intros entry paths.
  apply mergeEntry_preserves_disk.
Qed.

Lemma materializer_quiet (env : Env) (registryJSON schemaJSON : json)
  (schemaPaths : list (string * json)) :
  preserves requested (materialize env registryJSON schemaPaths)
  /\ preserves requested (extractDefinitions env schemaJSON).
Proof.
  split.
  - unfold materialize. apply for_each_in_place_preserves. intros entry.
    unfold materializePath.
    apply bind_preserves; [apply lift_preserves|]. intros methods.
    apply bind_preserves.
    + apply for_each_in_place_preserves. intros operation.
      apply materializeOperation_preserves_requested.
    + intros methods'. apply ret_preserves.
  - unfold extractDefinitions.
    apply bind_preserves; [apply lift_preserves|]. intros declared.
    apply bind_preserves; [apply lift_preserves|]. intros definitions.
    apply bind_preserves.
    + apply for_each_preserves. intros definition u. unfold writeDefinition.
      apply outputJSON_preserves_requested.
    + intros _. destruct schemaJSON; try apply lift_preserves.
      apply outputJSON_preserves_requested.
Qed.

(** X4. The fixture materializer and the definition extractor never use the
    network: whatever they write, and whether they return or throw, the list
    of requests is the one they found. *)
Theorem materializer_makes_no_request (env : Env) (registryJSON schemaJSON : json)
  (schemaPaths : list (string * json)) :
  preserves requested (materialize env registryJSON schemaPaths)
  /\ preserves requested (extractDefinitions env schemaJSON).
Proof. apply materializer_quiet. Qed.

(* ------------------------------------------------------------------------- *)
(** ** Further properties: the two mandatory fetches *)

(** X5. When the fetch of the schema fails, [grab] is rejected with the error
    of the fetch after that one request: the registry is not requested and
    nothing is written. When the schema is fetched and the fetch of the
    registry fails, [grab] is rejected with that error after the two
    requests, and nothing is written either. *)
Theorem mandatory_fetch_failure (env : Env) (st : state) (e : error) :
  (fst (makeRequest env (schemaURL env) st) = Throw e ->
   grab env st
   = (Throw e,
      {| disk := disk st;
         requested := (requested st ++ [schemaURL env])%list |}))
  /\ (forall (response : Z) (body : string),
         fst (makeRequest env (schemaURL env) st) = Ok (response, body) ->
         fst (makeRequest env (registryEndpoint env) st) = Throw e ->
         grab env st
         = (Throw e,
            {| disk := disk st;
               requested :=
                 (requested st ++ [schemaURL env; registryEndpoint env])%list |})).
Proof.
  split.
  - intros H. unfold grab, synthesize, bind.
    rewrite (surjective_pairing (makeRequest env (schemaURL env) st)).
    rewrite H, makeRequest_leaves. reflexivity.
  - intros response body H1 H2. unfold grab, synthesize, bind.
    rewrite (surjective_pairing (makeRequest env (schemaURL env) st)).
    rewrite H1, makeRequest_leaves.
    rewrite (surjective_pairing (makeRequest env (registryEndpoint env) _)).
    rewrite (makeRequest_settles_alike env _ _ st), H2, makeRequest_leaves.
    simpl. now rewrite <- app_assoc.
Qed.

Lemma mandatory_fetch_failure_witness :
  grab {| dns := "https://down.example.com"; apiPath := ["project"];
          webMIMETypes := []; request := fun _ => Failed "ENOTFOUND";
          JSON_parse := fun _ => None; localize := fun data => Some data;
          writable := fun _ => true |} Demo.blank
  = (Throw (TransportError "ENOTFOUND"),
     {| disk := disk Demo.blank;
        requested :=
          (requested Demo.blank
           ++ [schemaURL {| dns := "https://down.example.com"; apiPath := ["project"];
                            webMIMETypes := []; request := fun _ => Failed "ENOTFOUND";
                            JSON_parse := fun _ => None;
                            localize := fun data => Some data;
                            writable := fun _ => true |}])%list |}).
Proof.
  exact (proj1 (mandatory_fetch_failure
                  {| dns := "https://down.example.com"; apiPath := ["project"];
                     webMIMETypes := []; request := fun _ => Failed "ENOTFOUND";
                     JSON_parse := fun _ => None; localize := fun data => Some data;
                     writable := fun _ => true |}
                  Demo.blank (TransportError "ENOTFOUND")) eq_refl).
Defined.

(* ------------------------------------------------------------------------- *)
(** ** Further properties: the rounds of the merge *)

Section Rounds.

Variable env : Env.
Variable operationsIds : list value.

(** What a round that returned has done. *)
Lemma mergeEntry_ok (entry : string * json) (paths paths' : list (string * json))
  (st st' : state) :
  mergeEntry env operationsIds entry paths st = (Ok paths', st') ->
  (includes operationsIds (fst entry) = true /\ paths' = paths)
  \/ (includes operationsIds (fst entry) = false
      /\ exists (url method : string) (id : value) (sampleResponse : json),
           get (snd entry) "url" = Ok (Some (JStr url))
           /\ paths' = assign (pathKey url)
                         (synthesized method id sampleResponse) paths).
Proof.
  unfold mergeEntry. destruct (includes operationsIds (fst entry)).
  - intros H. unfold ret in H. injection H as <- _. now left.
  - intros H. right. split; [reflexivity|].
    computed H as declared Hd. computed H as upper Hu.
    returned H as sampleResponse s1 Hs.
    computed H as url Hurl. computed H as target Ht. computed H as id Hid.
    unfold ret in H. injection H as <- _.
    destruct url as [[| | |u| |]|]; try discriminate.
    injection Ht as <-. eauto 8.
Qed.

End Rounds.

(** X6. When the sample request of an entry that the schema lacks resolves,
    the parsed body is the sample: after the round the path key of the
    entry, if it is not [__proto__], holds one method, [get], whose operation
    has the id of the entry for its summary and its operation id,
    [application/json] for what it produces, and one response, [200], with
    the body, as parsed, for its [application/json] example. *)
Theorem enrichment_success (env : Env) (operationsIds : list value)
  (key method url body : string) (response : Z)
  (props paths : list (string * json)) (st : state) :
  includes operationsIds key = false ->
  lookup "method" props = Some (JStr method) ->
  Str.toLowerCase method = "get" ->
  lookup "url" props = Some (JStr url) ->
  Str.contains "{}" url = false ->
  pathKey url <> "__proto__" ->
  fst (makeRequest env (dns env ++ url) st) = Ok (response, body) ->
  exists (sampleResponse : json) (paths' : list (string * json)),
    JSON_parse env body = Some sampleResponse
    /\ fst (mergeEntry env operationsIds (key, JObj props) paths st) = Ok paths'
    /\ lookup (pathKey url) paths'
       = Some
           (JObj
              [("get",
                JObj
                  (field "summary" (lookup "id" props)
                   ++ field "operationId" (lookup "id" props)
                   ++ [("produces", JArr [JStr "application/json"]);
                       ("responses",
                        JObj [("200",
                               JObj [("examples",
                                      JObj [("application/json",
                                             sampleResponse)])])])])%list)]).
Proof.
  intros I Hm Hg Hu Hb Hk Hr.
  destruct (makeRequest env (dns env ++ url) st) as [o s] eqn:R. simpl in Hr. subst o.
  destruct (makeRequest_ok env _ _ _ _ _ R) as (_ & sampleResponse & P).
  exists sampleResponse. eexists. split; [exact P|].
  rewrite (mergeEntry_missing env _ _ _ _ _ _ _ I Hm Hu). cbn [fst].
  rewrite (fetchSample_run env _ _ _ _ Hu), Hg, Hb. simpl andb. cbv iota.
  unfold bind, lift. rewrite R. cbn [snd fst]. unfold parse. rewrite P.
  split; [reflexivity|]. now apply lookup_assign.
Qed.

Lemma enrichment_success_witness :
  exists (sampleResponse : json) (paths' : list (string * json)),
    JSON_parse (Demo.world Demo.schema) (Demo.text Demo.pong) = Some sampleResponse
    /\ fst (mergeEntry (Demo.world Demo.schema) []
              ("getPing",
               JObj [("id", JStr "getPing"); ("method", JStr "GET");
                     ("url", JStr "/ccstoreui/v1/ping")])
              Demo.schemaPaths Demo.blank)
       = Ok paths'
    /\ lookup (pathKey "/ccstoreui/v1/ping") paths'
       = Some
           (JObj
              [("get",
                JObj
                  (field "summary"
                     (lookup "id" [("id", JStr "getPing"); ("method", JStr "GET");
                                   ("url", JStr "/ccstoreui/v1/ping")])
                   ++ field "operationId"
                        (lookup "id" [("id", JStr "getPing"); ("method", JStr "GET");
                                      ("url", JStr "/ccstoreui/v1/ping")])
                   ++ [("produces", JArr [JStr "application/json"]);
                       ("responses",
                        JObj [("200",
                               JObj [("examples",
                                      JObj [("application/json",
                                             sampleResponse)])])])])%list)]).
Proof.
  refine (enrichment_success (Demo.world Demo.schema) [] "getPing" "GET"
            "/ccstoreui/v1/ping" (Demo.text Demo.pong) 200
            [("id", JStr "getPing"); ("method", JStr "GET");
             ("url", JStr "/ccstoreui/v1/ping")]
            Demo.schemaPaths Demo.blank
            eq_refl eq_refl eq_refl eq_refl eq_refl _ eq_refl).
  discriminate.
Defined.

(** The sample of the witness, in the document. *)
Example getPing_enriched :
  fst (mergeEntry (Demo.world Demo.schema) []
         (Demo.endpoint "getPing" "GET" "/ccstoreui/v1/ping") [] Demo.blank)
  = Ok [("/ping",
         JObj [("get",
                JObj [("summary", JStr "getPing");
                      ("operationId", JStr "getPing");
                      ("produces", JArr [JStr "application/json"]);
                      ("responses",
                       JObj [("200",
                              JObj [("examples",
                                     JObj [("application/json", Demo.pong)])])])])])].
Proof. reflexivity. Qed.

(** X7. When every key of the registry is among the operation ids of the
    schema, the merge is a no-op: it returns the paths it was given, makes no
    request and leaves the state as it was. *)
Theorem merge_nothing_missing (env : Env) (operationsIds : list value)
  (endpointMap schemaPaths : list (string * json)) (st : state) :
  (forall entry, In entry endpointMap -> includes operationsIds (fst entry) = true) ->
  merge env operationsIds endpointMap schemaPaths st = (Ok schemaPaths, st).
Proof.
  unfold merge. induction endpointMap as [|entry rest IH]; intros H; [reflexivity|].
  simpl. unfold bind.
  rewrite mergeEntry_present by (apply H; now left).
  apply IH. intros entry' I. apply H. now right.
Qed.

Lemma merge_nothing_missing_witness :
  merge (Demo.world Demo.schema) [Some (JStr "listItems"); Some (JStr "getItem")]
    [Demo.endpoint "listItems" "GET" "/ccstoreui/v1/items";
     Demo.endpoint "getItem" "GET" "/ccstoreui/v1/items/{}"]
    Demo.schemaPaths Demo.blank
  = (Ok Demo.schemaPaths, Demo.blank).
Proof.
  refine (merge_nothing_missing (Demo.world Demo.schema)
            [Some (JStr "listItems"); Some (JStr "getItem")]
            [Demo.endpoint "listItems" "GET" "/ccstoreui/v1/items";
             Demo.endpoint "getItem" "GET" "/ccstoreui/v1/items/{}"]
            Demo.schemaPaths Demo.blank _).
  intros entry [<-|[<-|[]]]; reflexivity.
Defined.

(** The rounds of the merge leave alone the path keys they do not write
    to. *)
Lemma merge_other_keys (env : Env) (operationsIds : list value)
  (endpointMap : list (string * json)) :
  forall (schemaPaths paths' : list (string * json)) (st st' : state),
    merge env operationsIds endpointMap schemaPaths st = (Ok paths', st') ->
    forall requestPathKey,
      ~ In requestPathKey (writtenKeys operationsIds endpointMap) ->
      lookup requestPathKey paths' = lookup requestPathKey schemaPaths.
Proof.
  unfold merge. induction endpointMap as [|entry rest IH];
    intros schemaPaths paths' st st' H k N.
  - simpl in H. unfold ret in H. now injection H as <- _.
  - simpl in H. returned H as paths1 s1 H1.
    apply mergeEntry_ok in H1. unfold writtenKeys in N. simpl in N.
    destruct H1 as [[I ->]|(I & url & method & id & sample & U & ->)];
      rewrite I in N.
    + now apply (IH _ _ _ _ H).
    + rewrite U in N. simpl in N.
      rewrite (IH _ _ _ _ H k) by tauto.
      apply lookup_assign_other. intros ->. tauto.
Qed.

(** X8. The merge changes the document only at the path keys its rounds write
    to: when it returns, every other path key holds what it held before, or
    is still absent. *)
Theorem merge_frame (env : Env) (operationsIds : list value)
  (endpointMap : list (string * json)) :
  forall (schemaPaths paths' : list (string * json)) (st st' : state),
    merge env operationsIds endpointMap schemaPaths st = (Ok paths', st') ->
    forall requestPathKey,
      ~ In requestPathKey (writtenKeys operationsIds endpointMap) ->
      lookup requestPathKey paths' = lookup requestPathKey schemaPaths.
Proof. exact (merge_other_keys env operationsIds endpointMap). Qed.

Lemma merge_frame_witness :
  lookup "/items"
    [("/items", JObj [("get", Demo.listItems)]);
     ("/orders/{}", synthesized "put" (Some (JStr "updateOrder")) (JObj []))]
  = lookup "/items" [("/items", JObj [("get", Demo.listItems)])].
Proof.
  refine (merge_frame (Demo.world Demo.schema) [Some (JStr "listItems")]
            [Demo.endpoint "getOrder" "GET" "/ccstoreui/v1/orders/{}";
             Demo.endpoint "updateOrder" "PUT" "/ccstoreui/v1/orders/{}"]
            [("/items", JObj [("get", Demo.listItems)])]
            [("/items", JObj [("get", Demo.listItems)]);
             ("/orders/{}", synthesized "put" (Some (JStr "updateOrder")) (JObj []))]
            Demo.blank Demo.blank eq_refl "/items" _).
  simpl. intros [H|[H|[]]]; discriminate.
Defined.

(* ------------------------------------------------------------------------- *)
(** ** Further properties: what the materializer does to the document *)

(** The shape of the document after the materializer has returned: the
    paths are the same keys in the same order, each of them an object with
    the same methods in the same order, and every attribute of every
    operation other than [responses] reads as it did before. *)
Lemma materialize_structure (env : Env) (registryJSON : json)
  (schemaPaths paths' : list (string * json)) (st st' : state) :
  materialize env registryJSON schemaPaths st = (Ok paths', st') ->
  Forall2
    (fun requestPath requestPath' =>
       fst requestPath' = fst requestPath
       /\ exists methods methods',
            snd requestPath = JObj methods
            /\ snd requestPath' = JObj methods'
            /\ Forall2
                 (fun operation operation' =>
                    fst operation' = fst operation
                    /\ forall k, k <> "responses" ->
                                 get (snd operation') k = get (snd operation) k)
                 methods methods')
    schemaPaths paths'.
Proof.
  intros H. apply for_each_in_place_ok in H.
  refine (Forall2_impl _ _ H). intros [key requestPath] requestPath' (s & s' & P).
  apply materializePath_ok in P. destruct P as (methods & methods' & -> & -> & F).
  split; [reflexivity|]. exists methods, methods'. repeat split.
  refine (Forall2_impl _ _ F). intros [method requestData] operation' (t & t' & O).
  apply materializeOperation_ok in O. destruct O as (props & -> & ->).
  split; [reflexivity|]. intros k N. simpl. now rewrite lookup_assign_other.
Qed.

(** X9. The materializer keeps the shape of the document: when it returns,
    the paths are the same keys in the same order, a path that was an object
    of methods is one with the same methods in the same order, and every
    attribute of every operation other than [responses] reads as it did
    before. *)
Theorem materialize_keeps_structure (env : Env) (registryJSON : json)
  (schemaPaths paths' : list (string * json)) (st st' : state) :
  materialize env registryJSON schemaPaths st = (Ok paths', st') ->
  Forall2
    (fun requestPath requestPath' =>
       fst requestPath' = fst requestPath
       /\ forall methods,
            snd requestPath = JObj methods ->
            exists methods',
              snd requestPath' = JObj methods'
              /\ Forall2
                   (fun operation operation' =>
                      fst operation' = fst operation
                      /\ forall k, k <> "responses" ->
                                   get (snd operation') k = get (snd operation) k)
                   methods methods')
    schemaPaths paths'.
Proof.
  intros H.
  refine (Forall2_impl _ _ (materialize_structure _ _ _ _ _ _ H)).
  intros requestPath requestPath' (K & methods & methods' & E & E' & F).
  split; [exact K|]. intros methods0 E0. rewrite E in E0. injection E0 as <-.
  now exists methods'.
Qed.

Lemma materialize_keeps_structure_witness :
  Forall2
    (fun requestPath requestPath' =>
       fst requestPath' = fst requestPath
       /\ forall methods,
            snd requestPath = JObj methods ->
            exists methods',
              snd requestPath' = JObj methods'
              /\ Forall2
                   (fun operation operation' =>
                      fst operation' = fst operation
                      /\ forall k, k <> "responses" ->
                                   get (snd operation') k = get (snd operation) k)
                   methods methods')
    [("/items/{id}", JObj [("get", Demo.getItem)])]
    [("/items/{id}",
      JObj [("get",
             JObj [("operationId", JStr "getItem");
                   ("parameters", JArr [JObj [("name", JStr "id"); ("in", JStr "path")]]);
                   ("responses", JStr "responses/getItem")])])].
Proof.
  exact (materialize_keeps_structure (Demo.world Demo.schema) Demo.registry
           [("/items/{id}", JObj [("get", Demo.getItem)])]
           [("/items/{id}",
             JObj [("get",
                    JObj [("operationId", JStr "getItem");
                          ("parameters",
                           JArr [JObj [("name", JStr "id"); ("in", JStr "path")]]);
                          ("responses", JStr "responses/getItem")])])]
           Demo.blank _ eq_refl).
Defined.

Section StatusLoop.

Variable env : Env.
Variable registryJSON : json.

Lemma within_refl (p : path) : Posix.within p p = true.
Proof. induction p; simpl; [reflexivity|]. now rewrite String.eqb_refl. Qed.

(** A loop over status codes that are all [default] does nothing. *)
Lemma default_statuses_skip (method : string) (requestData : json)
  (requestId : value) (responseMethodPath : path) (statuses : list (string * json)) :
  Forall (fun status => fst status = "default") statuses ->
  forall st,
    for_each (materializeStatus env registryJSON method requestData requestId
                responseMethodPath) statuses tt st
    = (Ok tt, st).
Proof.
  induction 1 as [|[code response] statuses D _ IH]; intros st; [reflexivity|].
  simpl in D. subst code. simpl for_each. unfold bind.
  unfold materializeStatus at 1. cbn [fst]. simpl String.eqb. cbv iota.
  unfold ret at 1. apply IH.
Qed.

(** A loop that returned, cut in two. *)
Lemma for_each_split {X S : Type} (body : X -> S -> M S) (xs ys : list X) :
  forall (acc r : S) (st st' : state),
    for_each body (xs ++ ys)%list acc st = (Ok r, st') ->
    exists acc1 s1,
      for_each body xs acc st = (Ok acc1, s1)
      /\ for_each body ys acc1 s1 = (Ok r, st').
Proof.
  induction xs as [|y xs IH]; intros acc r st st' H; simpl in H.
  - exists acc, st. split; [reflexivity | exact H].
  - returned H as acc' s1 Hb. destruct (IH _ _ _ _ H) as (acc1 & s2 & L & B).
    exists acc1, s2. split; [|exact B]. simpl. now rewrite (bind_run _ _ _ _ _ Hb).
Qed.

End StatusLoop.

(** X10. An operation that documents no status code but [default] gets its
    directory and nothing else: no descriptor, no data file and no [default]
    directory are written, and its [responses] attribute is replaced all the
    same. *)
Theorem default_only_operation (env : Env) (registryJSON : json) (method : string)
  (props statuses : list (string * json)) (st : state) :
  lookup "responses" props = Some (JObj statuses) ->
  Forall (fun status => fst status = "default") statuses ->
  writable env (Posix.join (responsesPath env)
                  (to_string_of (lookup "operationId" props))) = true ->
  exists st',
    materializeOperation env registryJSON (method, JObj props) st
    = (Ok (method,
           JObj (assign "responses"
                   (JStr (Posix.relative (apiPath env)
                            (Posix.join (responsesPath env)
                               (to_string_of (lookup "operationId" props)))))
                   props)),
       st')
    /\ files (disk st') = files (disk st)
    /\ dirs (disk st')
         (Posix.join (responsesPath env) (to_string_of (lookup "operationId" props)))
       = true
    /\ dirs (disk st')
         (Posix.join (Posix.join (responsesPath env)
                        (to_string_of (lookup "operationId" props))) "default")
       = dirs (disk st)
           (Posix.join (Posix.join (responsesPath env)
                          (to_string_of (lookup "operationId" props))) "default").
Proof.
  intros R D W. unfold materializeOperation. cbn [fst snd].
  unfold bind at 1. unfold lift at 1. simpl get. rewrite R.
  unfold bind at 1. unfold lift at 1.
  unfold bind at 1. unfold ensureDir at 1. rewrite W.
  unfold bind at 1. unfold lift at 1. simpl entries.
  unfold bind at 1. rewrite (default_statuses_skip env registryJSON _ _ _ _ _ D).
  eexists. split; [reflexivity|]. simpl.
  split; [reflexivity|]. split.
  - now rewrite within_refl.
  - set (p := Posix.join (responsesPath env) _). destruct (join_file p) as (-> & _).
    assert (N : Posix.within (p ++ ["default"])%list p = false).
    { clear. induction p as [|a p IH]; simpl; [reflexivity|].
      now rewrite String.eqb_refl. }
    now rewrite N.
Qed.

Lemma default_only_operation_witness :
  exists st',
    materializeOperation (Demo.world Demo.schema) Demo.registry
      ("get", JObj [("operationId", JStr "getThing");
                    ("responses", JObj [("default", JObj [])])])
      Demo.blank
    = (Ok ("get",
           JObj (assign "responses"
                   (JStr (Posix.relative (apiPath (Demo.world Demo.schema))
                            (Posix.join (responsesPath (Demo.world Demo.schema))
                               (to_string_of
                                  (lookup "operationId"
                                     [("operationId", JStr "getThing");
                                      ("responses", JObj [("default", JObj [])])])))))
                   [("operationId", JStr "getThing");
                    ("responses", JObj [("default", JObj [])])])),
       st')
    /\ files (disk st') = files (disk Demo.blank)
    /\ dirs (disk st')
         (Posix.join (responsesPath (Demo.world Demo.schema))
            (to_string_of
               (lookup "operationId"
                  [("operationId", JStr "getThing");
                   ("responses", JObj [("default", JObj [])])])))
       = true
    /\ dirs (disk st')
         (Posix.join (Posix.join (responsesPath (Demo.world Demo.schema))
                        (to_string_of
                           (lookup "operationId"
                              [("operationId", JStr "getThing");
                               ("responses", JObj [("default", JObj [])])])))
            "default")
       = dirs (disk Demo.blank)
           (Posix.join (Posix.join (responsesPath (Demo.world Demo.schema))
                          (to_string_of
                             (lookup "operationId"
                                [("operationId", JStr "getThing");
                                 ("responses", JObj [("default", JObj [])])])))
              "default").
Proof.
  refine (default_only_operation (Demo.world Demo.schema) Demo.registry "get"
            [("operationId", JStr "getThing");
             ("responses", JObj [("default", JObj [])])]
            [("default", JObj [])] Demo.blank eq_refl _ eq_refl).
  repeat constructor.
Defined.

(** X11. The descriptor that an operation is left with is the one of its
    last documented status code other than [default]: it records that status
    code, the parameters and the method of the operation, and the content
    type selected among the examples of that response when the response has
    data. *)
Theorem last_status_code_wins (env : Env) (registryJSON : json) (method code : string)
  (props earlier later examples : list (string * json)) (response : json)
  (entry' : string * json) (st st' : state) :
  lookup "responses" props
  = Some (JObj (earlier ++ (code, response) :: later)%list) ->
  String.eqb code "default" = false ->
  Forall (fun status => fst status = "default") later ->
  examplesOf response = Ok examples ->
  materializeOperation env registryJSON (method, JObj props) st = (Ok entry', st') ->
  files (disk st')
    (Posix.join
       (Posix.join
          (Posix.join (responsesPath env)
             (to_string_of (lookup "operationId" props))) "default")
       "descriptor.json")
  = Some (descriptorOf (lookup "parameters" props) method code "data.json"
            (if truthy (lookup (selectContentType (webMIMETypes env) examples)
                          examples)
             then [("content-type",
                    JStr (selectContentType (webMIMETypes env) examples))]
             else [])).
Proof.
  intros R D L X H. unfold materializeOperation in H. cbn [fst snd] in H.
  computed H as responses Hr. simpl in Hr. rewrite R in Hr. injection Hr as <-.
  computed H as requestId Hi. simpl in Hi. injection Hi as <-.
  returned H as u s1 Hdir. computed H as statuses Hs. simpl in Hs. injection Hs as <-.
  returned H as u' s2 Hloop. unfold ret in H. injection H as _ <-.
  apply for_each_split in Hloop. destruct Hloop as ([] & s3 & _ & Hrest).
  simpl for_each in Hrest. returned Hrest as u'' s4 Hlast. destruct u''.
  rewrite (default_statuses_skip env registryJSON _ _ _ _ _ L) in Hrest.
  injection Hrest as _ <-.
  destruct (materializeStatus_ok env registryJSON _ _ _ _ _ _ _ _ D Hlast)
    as (examples' & responseData & allowedParameters & E & -> & P & F & _).
  simpl in P. injection P as <-.
  rewrite X in E. injection E as <-.
  destruct (relative_data (Posix.join (Posix.join (responsesPath env)
                                         (to_string_of (lookup "operationId" props)))
                             "default")) as [Rel _].
  now rewrite Rel in F.
Qed.

Lemma last_status_code_wins_witness :
  files (disk (snd (materializeOperation (Demo.world Demo.schema) Demo.registry
                           ("get",
                            JObj [("operationId", JStr "listItems");
                                  ("responses",
                                   JObj [("200", JObj [("examples",
                                                        JObj [("application/json",
                                                               JArr [Demo.item])])]);
                                         ("404", JObj [("examples", JObj [])]);
                                         ("default", JObj [])])])
                           Demo.blank)))
         (Posix.join
            (Posix.join
               (Posix.join (responsesPath (Demo.world Demo.schema))
                  (to_string_of
                     (lookup "operationId"
                        [("operationId", JStr "listItems");
                         ("responses",
                          JObj [("200", JObj [("examples",
                                               JObj [("application/json",
                                                      JArr [Demo.item])])]);
                                ("404", JObj [("examples", JObj [])]);
                                ("default", JObj [])])])))
               "default")
            "descriptor.json")
       = Some (descriptorOf
                 (lookup "parameters"
                    [("operationId", JStr "listItems");
                     ("responses",
                      JObj [("200", JObj [("examples",
                                           JObj [("application/json",
                                                  JArr [Demo.item])])]);
                            ("404", JObj [("examples", JObj [])]);
                            ("default", JObj [])])])
                 "get" "404" "data.json"
                 (if truthy (lookup (selectContentType
                                       (webMIMETypes (Demo.world Demo.schema)) [])
                               [])
                  then [("content-type",
                         JStr (selectContentType
                                 (webMIMETypes (Demo.world Demo.schema)) []))]
                  else [])).
Proof.
  refine (last_status_code_wins (Demo.world Demo.schema) Demo.registry "get" "404"
            [("operationId", JStr "listItems");
             ("responses",
              JObj [("200", JObj [("examples",
                                   JObj [("application/json", JArr [Demo.item])])]);
                    ("404", JObj [("examples", JObj [])]);
                    ("default", JObj [])])]
            [("200", JObj [("examples", JObj [("application/json", JArr [Demo.item])])])]
            [("default", JObj [])] []
            (JObj [("examples", JObj [])])
            _ Demo.blank _ eq_refl eq_refl _ eq_refl eq_refl).
  repeat constructor.
Defined.

(* ------------------------------------------------------------------------- *)
(** ** Further properties: the definition extractor (lines 188-195) *)

Section Deletion.

Variable k : string.

Lemma lookup_delete (props : list (string * json)) :
  lookup k (delete k props) = None.
Proof.
  induction props as [|[k' v] props IH]; simpl; [reflexivity|].
  destruct (String.eqb k k') eqn:E; simpl; [exact IH|]. now rewrite E.
Qed.

Lemma lookup_delete_other (k' : string) (props : list (string * json)) :
  k' <> k -> lookup k' (delete k props) = lookup k' props.
Proof.
  intros N. induction props as [|[k0 v] props IH]; simpl; [reflexivity|].
  destruct (String.eqb_spec k k0) as [<-|]; simpl.
  - rewrite IH. now destruct (String.eqb_spec k' k).
  - now rewrite IH.
Qed.

End Deletion.

Section Names.

Lemma list_of_append (a b : string) :
  list_ascii_of_string (a ++ b)
  = (list_ascii_of_string a ++ list_ascii_of_string b)%list.
Proof. induction a as [|c a IH]; simpl; [reflexivity|]. now rewrite IH. Qed.

(** Two names with the same extension are the same name. *)
Lemma extension_cancels (a b extension : string) :
  a ++ extension = b ++ extension -> a = b.
Proof.
  intros H. apply (f_equal list_ascii_of_string) in H.
  rewrite !list_of_append in H. apply app_inv_tail in H.
  apply (f_equal string_of_list_ascii) in H.
  now rewrite !string_of_list_ascii_of_string in H.
Qed.

Lemma separator_in_append (a b : string) :
  Str.contains "/" (a ++ b) = Str.contains "/" a || Str.contains "/" b.
Proof.
  induction a as [|c a IH].
  - simpl. destruct b; reflexivity.
  - cbn [append Str.contains Str.startsWith]. rewrite andb_true_r.
    destruct (Ascii.eqb "/" c); [reflexivity | exact IH].
Qed.

(** The file name of a definition whose name has no separator is one
    ordinary component. *)
Lemma definition_file_plain (name : string) :
  Str.contains "/" name = false -> Posix.plain (name ++ ".json") = true.
Proof.
  intros S. unfold Posix.plain. rewrite separator_in_append, S.
  assert (L : forall s, String.length s <= 2 -> (name ++ ".json" =? s) = false).
  { intros s Hs. apply String.eqb_neq. intros E.
    apply (f_equal list_ascii_of_string) in E. rewrite list_of_append in E.
    apply (f_equal (@List.length ascii)) in E. rewrite length_app in E.
    assert (String.length s = List.length (list_ascii_of_string s))
      by (clear; induction s; simpl; congruence).
    simpl in E. lia. }
  rewrite !L by (simpl; lia). reflexivity.
Qed.

End Names.

Section Extractor.

Variable env : Env.

(** The loop over the definitions, when it returns: every file that existed
    still exists, every definition has a file, and the files that are not
    the file of a definition are as they were. *)
Lemma writeDefinitions_ok (definitions : list (string * json)) :
  forall (st st' : state) (u : unit),
    for_each (writeDefinition env) definitions tt st = (Ok u, st') ->
    (forall q c, files (disk st) q = Some c -> exists c', files (disk st') q = Some c')
    /\ (forall name definition,
           In (name, definition) definitions ->
           exists content,
             files (disk st') (Posix.join (definitionsPath env) (name ++ ".json"))
             = Some content)
    /\ (forall q,
           (forall name definition,
               In (name, definition) definitions ->
               Posix.join (definitionsPath env) (name ++ ".json") <> q) ->
           files (disk st') q = files (disk st) q).
Proof.
  induction definitions as [|[name definition] rest IH]; intros st st' u H.
  - simpl in H. unfold ret in H. injection H as _ <-.
    split; [eauto|]. split; [intros ? ? []|reflexivity].
  - simpl in H. returned H as u1 s1 Hw. destruct u1.
    unfold writeDefinition in Hw. cbn [fst snd] in Hw.
    apply outputJSON_ok in Hw. destruct Hw as [W _].
    destruct (IH _ _ _ H) as (Keep & Have & Frame).
    split; [|split].
    + intros q c Q. assert (exists c1, files (disk s1) q = Some c1) as [c1 Q1].
      { rewrite W. destruct (Posix.eqb q _); eauto. }
      eauto.
    + intros name' definition' [E|I].
      * injection E as <- <-. apply (Keep _ definition). rewrite W.
        now rewrite path_eqb_refl.
      * eauto.
    + intros q N. rewrite Frame by (intros n d In'; apply (N n d); now right).
      rewrite W. destruct (Posix.eqb q _) eqn:E; [|reflexivity].
      apply path_eqb_eq in E. exfalso. apply (N name definition); [now left | auto].
Qed.

(** The extractor, when it returns. *)
Lemma extractDefinitions_ok (schemaJSON : json) (st st' : state) (u : unit) :
  extractDefinitions env schemaJSON st = (Ok u, st') ->
  exists props definitions s1,
    schemaJSON = JObj props
    /\ lookup "definitions" props = Some (JObj definitions)
    /\ for_each (writeDefinition env) definitions tt st = (Ok tt, s1)
    /\ forall q, files (disk st') q
                 = if Posix.eqb q (schemaPath env)
                   then Some (JObj (delete "definitions" props))
                   else files (disk s1) q.
Proof.
  unfold extractDefinitions. intros H.
  computed H as declared Hd. computed H as definitions He.
  returned H as u1 s1 Hloop. destruct u1.
  destruct schemaJSON as [| | | | |props]; try (unfold lift in H; discriminate).
  simpl in Hd. injection Hd as <-.
  destruct (lookup "definitions" props) as [[| | | | |l]|] eqn:L; try discriminate.
  simpl in He. injection He as <-.
  apply outputJSON_ok in H. destruct H as [W _].
  exists props, l, s1. auto.
Qed.

End Extractor.

(** X12. What the extractor persists, for a document whose [definitions]
    is an object: when it returns, the schema file holds the document without
    its [definitions] attribute and with every other attribute as it was, and
    every definition of the document has a file [<name>.json] in the
    definitions directory. *)
Theorem definitions_leave_the_document (env : Env)
  (props definitions : list (string * json)) (st st' : state) (u : unit) :
  lookup "definitions" props = Some (JObj definitions) ->
  extractDefinitions env (JObj props) st = (Ok u, st') ->
  files (disk st') (schemaPath env) = Some (JObj (delete "definitions" props))
  /\ lookup "definitions" (delete "definitions" props) = None
  /\ (forall k, k <> "definitions" ->
                lookup k (delete "definitions" props) = lookup k props)
  /\ (forall name definition,
         In (name, definition) definitions ->
         exists content,
           files (disk st') (Posix.join (definitionsPath env) (name ++ ".json"))
           = Some content).
Proof.
  intros D H. apply extractDefinitions_ok in H.
  destruct H as (props' & definitions' & s1 & E & L & Loop & W).
  injection E as <-. rewrite D in L. injection L as <-.
  split; [now rewrite W, path_eqb_refl|].
  split; [apply lookup_delete|].
  split; [intros k N; now apply lookup_delete_other|].
  intros name definition I.
  destruct (writeDefinitions_ok env _ _ _ _ Loop) as (_ & Have & _).
  destruct (Have _ _ I) as [content Q].
  rewrite W. destruct (Posix.eqb _ (schemaPath env)); eauto.
Qed.

Lemma definitions_leave_the_document_witness :
  files (disk (snd (extractDefinitions (Demo.world Demo.schema)
                      (JObj [("basePath", JStr "/ccstoreui/v1");
                             ("definitions", JObj [("Item", Demo.item)])])
                      Demo.blank)))
    (schemaPath (Demo.world Demo.schema))
  = Some (JObj (delete "definitions"
                  [("basePath", JStr "/ccstoreui/v1");
                   ("definitions", JObj [("Item", Demo.item)])]))
  /\ lookup "definitions"
       (delete "definitions"
          [("basePath", JStr "/ccstoreui/v1");
           ("definitions", JObj [("Item", Demo.item)])])
     = None
  /\ (forall k, k <> "definitions" ->
                lookup k (delete "definitions"
                            [("basePath", JStr "/ccstoreui/v1");
                             ("definitions", JObj [("Item", Demo.item)])])
                = lookup k [("basePath", JStr "/ccstoreui/v1");
                            ("definitions", JObj [("Item", Demo.item)])])
  /\ (forall name definition,
         In (name, definition) [("Item", Demo.item)] ->
         exists content,
           files (disk (snd (extractDefinitions (Demo.world Demo.schema)
                               (JObj [("basePath", JStr "/ccstoreui/v1");
                                      ("definitions", JObj [("Item", Demo.item)])])
                               Demo.blank)))
             (Posix.join (definitionsPath (Demo.world Demo.schema)) (name ++ ".json"))
           = Some content).
Proof.
  exact (definitions_leave_the_document (Demo.world Demo.schema)
           [("basePath", JStr "/ccstoreui/v1");
            ("definitions", JObj [("Item", Demo.item)])]
           [("Item", Demo.item)] Demo.blank _ tt eq_refl eq_refl).
Defined.

(** X13. When the names of the definitions have no separator and are
    pairwise distinct, each definition is in a file of its own: after the
    extractor has returned, [<definitionsRoot>/<name>.json] holds the value
    of the definition [name], and the final write of the schema file has not
    touched it. *)
Theorem definition_files (env : Env) (props definitions : list (string * json))
  (st st' : state) (u : unit) :
  extractDefinitions env (JObj props) st = (Ok u, st') ->
  lookup "definitions" props = Some (JObj definitions) ->
  NoDup (map fst definitions) ->
  Forall (fun definition => Str.contains "/" (fst definition) = false) definitions ->
  forall name definition,
    In (name, definition) definitions ->
    files (disk st') (apiPath env ++ ["definitions"; (name ++ ".json")%string])%list
    = Some definition.
Proof.
  intros H L N P name definition I.
  apply extractDefinitions_ok in H.
  destruct H as (props' & definitions' & s1 & E & L' & Loop & W).
  injection E as <-. rewrite L in L'. injection L' as <-.
  assert (J : forall n, Str.contains "/" n = false ->
                        Posix.join (definitionsPath env) (n ++ ".json")
                        = (apiPath env ++ ["definitions"; (n ++ ".json")%string])%list).
  { intros n Hn. unfold definitionsPath.
    rewrite (join_plain _ _ (definition_file_plain _ Hn)).
    change (Posix.join (apiPath env) "definitions")
      with (apiPath env ++ ["definitions"])%list.
    now rewrite <- app_assoc. }
  rewrite W.
  assert (S : Posix.eqb (apiPath env ++ ["definitions"; (name ++ ".json")%string])%list
                (schemaPath env) = false).
  { destruct (Posix.eqb _ _) eqn:Q; [|reflexivity].
    apply path_eqb_eq in Q. unfold schemaPath in Q.
    change (Posix.join (apiPath env) "schema.json")
      with (apiPath env ++ ["schema.json"])%list in Q.
    apply app_inv_head in Q. discriminate. }
  rewrite S. clear W S L st'.
  revert st s1 Loop.
  induction definitions as [|[name0 definition0] rest IH]; intros st s1 Loop;
    [contradiction|].
  inversion N as [|? ? Fresh N']; subst. inversion P as [|? ? P0 P']; subst.
  cbn [fst] in *. simpl for_each in Loop. returned Loop as u1 s2 Hw. destruct u1.
  unfold writeDefinition in Hw. cbn [fst snd] in Hw.
  apply outputJSON_ok in Hw. destruct Hw as [W _].
  destruct I as [E|I].
  - injection E as -> ->.
    destruct (writeDefinitions_ok env _ _ _ _ Loop) as (_ & _ & Frame).
    rewrite Frame.
    + rewrite W, (J _ P0). now rewrite path_eqb_refl.
    + intros n d In' Q.
      assert (Pn : Str.contains "/" n = false).
      { rewrite Forall_forall in P'. exact (P' _ In'). }
      rewrite (J _ Pn) in Q. apply app_inv_head in Q. injection Q as Q.
      apply extension_cancels in Q. subst n.
      apply Fresh. now apply (in_map fst _ _ In').
  - now apply (IH N' P' I _ _ Loop).
Qed.

Lemma definition_files_witness :
  files (disk (snd (extractDefinitions (Demo.world Demo.schema) Demo.schema Demo.blank)))
    (apiPath (Demo.world Demo.schema) ++ ["definitions"; ("Item" ++ ".json")%string])%list
  = Some (JObj [("type", JStr "object")]).
Proof.
  refine (definition_files (Demo.world Demo.schema)
            [("basePath", JStr "/ccstore/v1");
             ("paths", JObj Demo.schemaPaths);
             ("definitions", JObj [("Item", JObj [("type", JStr "object")])])]
            [("Item", JObj [("type", JStr "object")])]
            Demo.blank _ tt eq_refl eq_refl _ _ "Item" (JObj [("type", JStr "object")])
            (or_introl eq_refl)).
  - repeat constructor. intros [].
  - repeat constructor.
Defined.

(* ------------------------------------------------------------------------- *)
(** ** Further properties: the requests of a run *)

Section Requests.

Variable env : Env.
Variable operationsIds : list value.

(** A round that returned, with what it read of its entry. *)
Lemma mergeEntry_read (entry : string * json) (paths paths' : list (string * json))
  (st st' : state) :
  mergeEntry env operationsIds entry paths st = (Ok paths', st') ->
  includes operationsIds (fst entry) = false ->
  exists props method url,
    snd entry = JObj props
    /\ lookup "method" props = Some (JStr method)
    /\ lookup "url" props = Some (JStr url).
Proof.
  unfold mergeEntry. intros H I. rewrite I in H.
  destruct entry as [key data]. cbn [fst snd] in *.
  computed H as declared Hd. computed H as upper Hu.
  returned H as sampleResponse s1 Hs.
  computed H as url Hurl. computed H as target Ht.
  destruct data as [| | | | |props]; simpl in Hd, Hurl; try discriminate;
    injection Hd as <-; try discriminate.
  injection Hurl as <-.
  destruct (lookup "method" props) as [[| | |m| |]|] eqn:Lm; try discriminate.
  destruct (lookup "url" props) as [[| | |w| |]|] eqn:Lu; try discriminate.
  exists props, m, w. auto.
Qed.

End Requests.

Lemma merge_requests_exact (env : Env) (operationsIds : list value)
  (endpointMap : list (string * json)) :
  forall (schemaPaths paths' : list (string * json)) (st st' : state),
    merge env operationsIds endpointMap schemaPaths st = (Ok paths', st') ->
    requested st' = (requested st ++ sampleURLs env operationsIds endpointMap)%list.
Proof.
  unfold merge. induction endpointMap as [|[key data] rest IH];
    intros schemaPaths paths' st st' H.
  - simpl in H. unfold ret in H. injection H as _ <-. simpl. now rewrite app_nil_r.
  - simpl for_each in H. returned H as paths1 s1 H1.
    unfold sampleURLs. simpl flat_map. fold (sampleURLs env operationsIds rest).
    destruct (includes operationsIds key) eqn:I.
    + rewrite mergeEntry_present in H1 by exact I. injection H1 as _ <-.
      now apply (IH _ _ _ _ H).
    + destruct (mergeEntry_read env _ _ _ _ _ _ H1 I)
        as (props & method & url & D & Lm & Lu).
      simpl in D. subst data. simpl get. rewrite Lm, Lu.
      rewrite (mergeEntry_missing env _ _ _ _ _ _ _ I Lm Lu) in H1.
      injection H1 as _ <-.
      rewrite (IH _ _ _ _ H).
      destruct (fetchSample_state env (Str.toLowerCase method) url props st Lu) as [R _].
      rewrite R. destruct (andb _ _); [|reflexivity].
      now rewrite <- app_assoc.
Qed.

(** X14. The requests of a merge that returns are the sample requests and
    nothing else: one request, to the absolute URL, for every entry that the
    schema lacks, whose method is GET in any letter case and whose URL is
    free of [{}], in the order of the registry. *)
Theorem merge_requests (env : Env) (operationsIds : list value)
  (endpointMap schemaPaths paths' : list (string * json)) (st st' : state) :
  merge env operationsIds endpointMap schemaPaths st = (Ok paths', st') ->
  requested st' = (requested st ++ sampleURLs env operationsIds endpointMap)%list.
Proof. apply merge_requests_exact. Qed.

Lemma merge_requests_witness :
  requested
    {| disk := disk Demo.blank;
       requested := [Demo.host ++ "/ccstoreui/v1/ping"; Demo.host ++ "/ccstoreui/v1/status"] |}
  = (requested Demo.blank
     ++ sampleURLs (Demo.world Demo.schema)
          [Some (JStr "listItems"); Some (JStr "getItem")] Demo.endpointMap)%list.
Proof.
  exact (merge_requests (Demo.world Demo.schema)
           [Some (JStr "listItems"); Some (JStr "getItem")] Demo.endpointMap
           Demo.schemaPaths
           [("/items", JObj [("get", Demo.listItems)]);
            ("/items/{id}", JObj [("get", Demo.getItem)]);
            ("/ping", synthesized "get" (Some (JStr "getPing")) Demo.pong);
            ("/orders/{}", synthesized "put" (Some (JStr "updateOrder")) (JObj []));
            ("/status", synthesized "get" (Some (JStr "getStatus")) (JObj []))]
           Demo.blank
           {| disk := disk Demo.blank;
              requested := [Demo.host ++ "/ccstoreui/v1/ping";
                            Demo.host ++ "/ccstoreui/v1/status"] |}
           eq_refl).
Defined.

Section WholeRun.

Variable env : Env.

(** The run up to line 186, when it returns: two requests, a merge and the
    materializer, whose paths are the [paths] of the document. *)
Lemma synthesize_ok (st st' : state) (document : json) :
  synthesize env st = (Ok document, st') ->
  exists props registryJSON operationsIds endpoints paths0 merged paths s2 s3,
    requested s2 = (requested st ++ [schemaURL env; registryEndpoint env])%list
    /\ disk s2 = disk st
    /\ merge env operationsIds endpoints paths0 s2 = (Ok merged, s3)
    /\ materialize env registryJSON merged s3 = (Ok paths, st')
    /\ document = JObj (assign "paths" (JObj paths) props).
Proof.
  intros H. unfold synthesize in H.
  returned H as schemaRequestResponse s1 H1.
  returned H as registryRequestResponse s2 H2.
  computed H as schemaJSON0 Hs. computed H as registryJSON Hr.
  computed H as endpointMap He. computed H as schemaPaths Hp.
  computed H as schemaJSON1 Hn. computed H as paths0 Hk.
  computed H as operationsIds Ho. computed H as endpoints Hm.
  returned H as merged s3 H3. returned H as paths s4 H4.
  destruct schemaJSON1 as [| | | | |props]; try (unfold lift in H; discriminate).
  unfold ret in H. injection H as <- <-.
  exists props, registryJSON, operationsIds, endpoints, paths0, merged, paths, s2, s3.
  assert (E1 : s1 = snd (makeRequest env (schemaURL env) st)) by now rewrite H1.
  assert (E2 : s2 = snd (makeRequest env (registryEndpoint env) s1)) by now rewrite H2.
  rewrite makeRequest_leaves in E1, E2. subst s1 s2. simpl.
  split; [now rewrite <- app_assoc|]. auto.
Qed.

End WholeRun.

(** The requests and the schema file of a run that has resolved. *)
Lemma resolved_run_document (env : Env) (st st' : state) (u : unit) :
  grab env st = (Ok u, st') ->
  (exists samples,
      requested st'
      = (requested st ++ schemaURL env :: registryEndpoint env :: samples)%list)
  /\ exists props paths,
       files (disk st') (schemaPath env) = Some (JObj props)
       /\ lookup "definitions" props = None
       /\ lookup "paths" props = Some (JObj paths)
       /\ forall requestPathKey requestPath,
            In (requestPathKey, requestPath) paths ->
            exists methods,
              requestPath = JObj methods
              /\ forall method operation,
                   In (method, operation) methods ->
                   exists pointer,
                     get operation "responses" = Ok (Some (JStr pointer)).
Proof.
  intros H. unfold grab in H. returned H as document s5 Hs.
  apply synthesize_ok in Hs.
  destruct Hs as (props & registryJSON & operationsIds & endpoints & paths0 & merged
                  & paths & s2 & s3 & R2 & _ & Hm & Hmat & ->).
  split.
  - exists (sampleURLs env operationsIds endpoints).
    destruct (materializer_quiet env registryJSON
                (JObj (assign "paths" (JObj paths) props)) merged) as [Q1 Q2].
    specialize (Q1 s3). rewrite Hmat in Q1. simpl in Q1.
    specialize (Q2 s5). rewrite H in Q2. simpl in Q2.
    rewrite Q2, Q1, (merge_requests_exact env _ _ _ _ _ _ Hm), R2.
    now rewrite <- app_assoc.
  - apply extractDefinitions_ok in H.
    destruct H as (props' & definitions & s6 & E & _ & _ & W). injection E as <-.
    exists (delete "definitions" (assign "paths" (JObj paths) props)), paths.
    split; [now rewrite W, path_eqb_refl|].
    split; [apply lookup_delete|].
    split; [rewrite lookup_delete_other by discriminate; now apply lookup_assign|].
    intros key requestPath I. apply for_each_in_place_ok in Hmat.
    destruct (returned_from _ _ _ _ Hmat I) as ([key0 requestPath0] & _ & s & s' & P).
    apply materializePath_ok in P. destruct P as (methods & methods' & _ & E & F).
    injection E as _ ->. exists methods'. split; [reflexivity|].
    intros method operation I'.
    destruct (returned_from _ _ _ _ F I') as ([method0 requestData0] & _ & t & t' & O).
    apply materializeOperation_ok in O. destruct O as (props0 & _ & E).
    injection E as _ ->. eexists. simpl. now rewrite lookup_assign by discriminate.
Qed.

(** X15. What a resolved run leaves behind. Its first two requests are the
    schema and the registry, in that order. The schema file holds a document
    without [definitions], in which every operation of every path has a
    string for its [responses]. *)
Theorem resolved_run (env : Env) (st st' : state) (u : unit) :
  grab env st = (Ok u, st') ->
  (exists samples,
      requested st'
      = (requested st ++ schemaURL env :: registryEndpoint env :: samples)%list)
  /\ exists props,
       files (disk st') (schemaPath env) = Some (JObj props)
       /\ lookup "definitions" props = None
       /\ forall paths requestPathKey methods method operation,
            lookup "paths" props = Some (JObj paths) ->
            In (requestPathKey, JObj methods) paths ->
            In (method, operation) methods ->
            exists pointer,
              get operation "responses" = Ok (Some (JStr pointer)).
Proof.
  intros H. destruct (resolved_run_document env st st' u H)
    as (Q & props & paths & F & D & P & A).
  split; [exact Q|]. exists props. split; [exact F|]. split; [exact D|].
  intros paths0 key methods method operation P0 I I'.
  rewrite P in P0. injection P0 as <-.
  destruct (A _ _ I) as (methods0 & E & O). injection E as <-.
  exact (O _ _ I').
Qed.

Lemma resolved_run_witness :
  (exists samples,
      requested (snd (grab (Demo.world Demo.schema) Demo.blank))
      = (requested Demo.blank
         ++ schemaURL (Demo.world Demo.schema)
            :: registryEndpoint (Demo.world Demo.schema) :: samples)%list)
  /\ exists props,
       files (disk (snd (grab (Demo.world Demo.schema) Demo.blank)))
         (schemaPath (Demo.world Demo.schema))
       = Some (JObj props)
       /\ lookup "definitions" props = None
       /\ forall paths requestPathKey methods method operation,
            lookup "paths" props = Some (JObj paths) ->
            In (requestPathKey, JObj methods) paths ->
            In (method, operation) methods ->
            exists pointer,
              get operation "responses" = Ok (Some (JStr pointer)).
Proof.
  refine (resolved_run (Demo.world Demo.schema) Demo.blank _ tt _).
  vm_compute. reflexivity.
Defined.

(* ------------------------------------------------------------------------- *)
(** ** The token storage *)

Section TokenStorage.

Variable io : Tokens.Io.
Variable tokenDir : option (list (string * path)).

(** X16. A token that was saved without error is the token read back: after
    [save] has called back with no error, [get] for the same type calls back
    with the token that was saved, as long as the file can be read. *)
Theorem saved_token_is_read_back (type token : string) (p : path) (d : Tokens.store) :
  Tokens.tokenFile tokenDir type = Some p ->
  Tokens.can_write io p = true ->
  Tokens.can_read io p = true ->
  fst (Tokens.save io tokenDir type token d) = Tokens.Called None
  /\ fst (Tokens.get io tokenDir type (snd (Tokens.save io tokenDir type token d)))
     = Tokens.Called token.
Proof.
  intros F W R. unfold Tokens.save, Tokens.get. rewrite F, W. cbn [fst snd].
  unfold Tokens.put. now rewrite path_eqb_refl, R.
Qed.

(** X17. [get] reports no error: a token that was never saved reads as the
    empty string and so does a token that cannot be read, the files staying
    as they are; and once [remove] has removed a token, it reads as the empty
    string. *)
Theorem missing_token_reads_empty (type : string) (p : path) (d : Tokens.store) :
  Tokens.tokenFile tokenDir type = Some p ->
  (d p = None -> Tokens.get io tokenDir type d = (Tokens.Called EmptyString, d))
  /\ (Tokens.can_read io p = false ->
      Tokens.get io tokenDir type d = (Tokens.Called EmptyString, d))
  /\ (Tokens.can_remove io p = true ->
      fst (Tokens.remove io tokenDir type d) = Tokens.Called None
      /\ fst (Tokens.get io tokenDir type (snd (Tokens.remove io tokenDir type d)))
         = Tokens.Called EmptyString).
Proof.
  intros F. unfold Tokens.get, Tokens.remove. rewrite F.
  split; [|split].
  - now intros ->.
  - intros ->. now destruct (d p).
  - intros ->. cbn [fst snd]. split; [reflexivity|].
    unfold Tokens.erase. now rewrite within_refl.
Qed.

(** X18. Saving or removing a token of one type leaves the tokens of the
    other types as they read before, when neither of the two files is at or
    below the other. *)
Theorem other_tokens_untouched (type other token : string) (p q : path)
  (d : Tokens.store) :
  Tokens.tokenFile tokenDir type = Some p ->
  Tokens.tokenFile tokenDir other = Some q ->
  Posix.within p q = false ->
  Posix.within q p = false ->
  fst (Tokens.get io tokenDir other (snd (Tokens.save io tokenDir type token d)))
  = fst (Tokens.get io tokenDir other d)
  /\ fst (Tokens.get io tokenDir other (snd (Tokens.remove io tokenDir type d)))
     = fst (Tokens.get io tokenDir other d).
Proof.
  intros F G N _. unfold Tokens.save, Tokens.remove, Tokens.get. rewrite F, G.
  split.
  - destruct (Tokens.can_write io p); [|reflexivity].
    cbn [snd]. unfold Tokens.put.
    destruct (Posix.eqb q p) eqn:E.
    + apply path_eqb_eq in E. subst q. rewrite within_refl in N. discriminate.
    + destruct (d q); [destruct (Tokens.can_read io q)|]; reflexivity.
  - destruct (Tokens.can_remove io p); [|reflexivity].
    cbn [snd]. unfold Tokens.erase. rewrite N.
    destruct (d q); [destruct (Tokens.can_read io q)|]; reflexivity.
Qed.

End TokenStorage.

Lemma saved_token_is_read_back_witness :
  fst (Tokens.save Tokens.permissive
         (Tokens.TokenStorage Tokens.configured "production") "access" "eyJhbGciOi"
         Tokens.nothing)
  = Tokens.Called None
  /\ fst (Tokens.get Tokens.permissive
            (Tokens.TokenStorage Tokens.configured "production") "access"
            (snd (Tokens.save Tokens.permissive
                    (Tokens.TokenStorage Tokens.configured "production")
                    "access" "eyJhbGciOi" Tokens.nothing)))
     = Tokens.Called "eyJhbGciOi".
Proof.
  exact (saved_token_is_read_back Tokens.permissive
           (Tokens.TokenStorage Tokens.configured "production")
           "access" "eyJhbGciOi" ["home"; "tokens"; "production"; "access"]
           Tokens.nothing eq_refl eq_refl eq_refl).
Defined.

Lemma missing_token_reads_empty_witness :
  Tokens.get Tokens.permissive (Tokens.TokenStorage Tokens.configured "production")
    "file" Tokens.nothing
  = (Tokens.Called EmptyString, Tokens.nothing).
Proof.
  exact (proj1 (missing_token_reads_empty Tokens.permissive
                  (Tokens.TokenStorage Tokens.configured "production")
                  "file" ["home"; "tokens"; "production"; "file"]
                  Tokens.nothing eq_refl) eq_refl).
Defined.

Lemma other_tokens_untouched_witness :
  fst (Tokens.get Tokens.permissive
         (Tokens.TokenStorage Tokens.configured "production") "file"
         (snd (Tokens.save Tokens.permissive
                 (Tokens.TokenStorage Tokens.configured "production")
                 "access" "eyJhbGciOi" (Tokens.put ["home"; "tokens"; "production"; "file"] "c2Vzc2lvbg" Tokens.nothing))))
  = fst (Tokens.get Tokens.permissive
           (Tokens.TokenStorage Tokens.configured "production") "file"
           (Tokens.put ["home"; "tokens"; "production"; "file"] "c2Vzc2lvbg" Tokens.nothing))
  /\ fst (Tokens.get Tokens.permissive
            (Tokens.TokenStorage Tokens.configured "production") "file"
            (snd (Tokens.remove Tokens.permissive
                    (Tokens.TokenStorage Tokens.configured "production")
                    "access" (Tokens.put ["home"; "tokens"; "production"; "file"] "c2Vzc2lvbg" Tokens.nothing))))
     = fst (Tokens.get Tokens.permissive
              (Tokens.TokenStorage Tokens.configured "production") "file"
              (Tokens.put ["home"; "tokens"; "production"; "file"] "c2Vzc2lvbg" Tokens.nothing)).
Proof.
  exact (other_tokens_untouched Tokens.permissive
           (Tokens.TokenStorage Tokens.configured "production")
           "access" "file" "eyJhbGciOi"
           ["home"; "tokens"; "production"; "access"]
           ["home"; "tokens"; "production"; "file"]
           (Tokens.put ["home"; "tokens"; "production"; "file"] "c2Vzc2lvbg" Tokens.nothing) eq_refl eq_refl eq_refl eq_refl).
Defined.

(** A type of token, or an environment, that the configuration does not
    have: the method throws and the callback is never called. *)
Example token_type_unknown :
  fst (Tokens.get Tokens.permissive
         (Tokens.TokenStorage Tokens.configured "production") "refresh"
         Tokens.nothing) = Tokens.Threw
  /\ fst (Tokens.save Tokens.permissive
            (Tokens.TokenStorage Tokens.configured "staging") "access" "t"
            Tokens.nothing) = Tokens.Threw.
Proof. split; reflexivity. Qed.

(* ------------------------------------------------------------------------- *)
(** ** The index file of a bundle *)

Section Characters.

Variable c : ascii.

Lemma occurs_append (a b : string) :
  Bundle.occurs c (a ++ b) = orb (Bundle.occurs c a) (Bundle.occurs c b).
Proof.
  induction a as [|d a IH]; [reflexivity|].
  cbn [String.append Bundle.occurs]. now rewrite IH, orb_assoc.
Qed.

Lemma occurs_join (sep : string) (xs : list string) :
  Bundle.occurs c sep = false ->
  (forall x, In x xs -> Bundle.occurs c x = false) ->
  Bundle.occurs c (Str.join sep xs) = false.
Proof.
  intros S. induction xs as [|x rest IH]; intros A; [reflexivity|].
  destruct rest as [|y rest'].
  - apply A. now left.
  - change (Str.join sep (x :: y :: rest'))
      with (x ++ sep ++ Str.join sep (y :: rest')).
    rewrite !occurs_append, S, (A x (or_introl eq_refl)), IH; [reflexivity|].
    intros z Z. apply A. now right.
Qed.

End Characters.

Section Scanner.

Variable pattern' : string.
Variable replacement : string.

Let pattern : string := String "#"%char pattern'.

(** A text without the first character of the pattern passes as it is. *)
Lemma scan_text (t : string) :
  Bundle.occurs "#"%char t = false ->
  forall before, Bundle.scan pattern replacement before 0 t = t.
Proof.
  induction t as [|d t IH]; intros H before; [reflexivity|].
  cbn [Bundle.occurs] in H. apply orb_false_iff in H as [D H].
  cbn [Bundle.scan]. unfold pattern at 1. cbn [Str.startsWith].
  rewrite Ascii.eqb_sym, D. cbn [andb]. now rewrite IH.
Qed.

Hypothesis plain : Bundle.occurs "$"%char replacement = false.

Lemma expand_plain (matched before after : string) :
  Bundle.expand matched before after replacement = replacement.
Proof.
  clear pattern. induction replacement as [|d r IH]; [reflexivity|].
  cbn [Bundle.occurs] in plain. apply orb_false_iff in plain as [D H].
  cbn [Bundle.expand]. rewrite D. now rewrite (IH H).
Qed.

(** What was read before a match only shows through a dollar. *)
Lemma scan_before (s : string) :
  forall skip before before',
    Bundle.scan pattern replacement before skip s
    = Bundle.scan pattern replacement before' skip s.
Proof.
  induction s as [|d s IH]; intros skip before before'; [reflexivity|].
  cbn [Bundle.scan]. destruct skip as [|n].
  - rewrite !expand_plain.
    now rewrite (IH _ (before ++ String d EmptyString)%string
                      (before' ++ String d EmptyString)%string),
                (IH 0 (before ++ String d EmptyString)%string
                      (before' ++ String d EmptyString)%string).
  - apply IH.
Qed.

Lemma scan_text_then (t rest : string) :
  Bundle.occurs "#"%char t = false ->
  forall before,
    Bundle.scan pattern replacement before 0 (t ++ rest)
    = t ++ Bundle.replaceAll pattern replacement rest.
Proof.
  induction t as [|d t IH]; intros H before.
  - apply scan_before.
  - cbn [Bundle.occurs] in H. apply orb_false_iff in H as [D H].
    cbn [String.append Bundle.scan]. unfold pattern at 1. cbn [Str.startsWith].
    rewrite Ascii.eqb_sym, D. cbn [andb]. now rewrite IH.
Qed.

End Scanner.

Section Markers.

Variable r : string.
Hypothesis plain : Bundle.occurs "$"%char r = false.

(** One pass of the scanner over a template gives one marker its text
    wherever it is written, and changes nothing else. *)
Lemma replace_marker (m : Bundle.marker) (pieces : list Bundle.piece) :
  (forall t, In (Bundle.Text t) pieces -> Bundle.occurs "#"%char t = false) ->
  forall before,
    Bundle.scan (Bundle.written m) r before 0 (Bundle.render Bundle.written pieces)
    = Bundle.render Bundle.written (map (Bundle.resolve m r) pieces).
Proof.
  induction pieces as [|p ps IH]; intros T before; [reflexivity|].
  assert (IH' : forall before,
             Bundle.scan (Bundle.written m) r before 0
               (Bundle.render Bundle.written ps)
             = Bundle.render Bundle.written (map (Bundle.resolve m r) ps)).
  { apply IH. intros t H. apply T. now right. }
  clear IH. destruct p as [t|n].
  - cbn [Bundle.render fold_right map Bundle.resolve].
    fold (Bundle.render Bundle.written ps).
    fold (Bundle.render Bundle.written (map (Bundle.resolve m r) ps)).
    assert (H : Bundle.occurs "#"%char t = false) by (apply T; now left).
    destruct m; cbn [Bundle.written];
      (rewrite scan_text_then by assumption); unfold Bundle.replaceAll;
      now rewrite IH'.
  - cbn [Bundle.render fold_right map Bundle.resolve].
    fold (Bundle.render Bundle.written ps).
    fold (Bundle.render Bundle.written (map (Bundle.resolve m r) ps)).
    destruct m, n; cbn [Bundle.marker_eqb Bundle.written] in *; simpl;
      try (rewrite (expand_plain r plain), IH'; reflexivity);
      now rewrite IH'.
Qed.

Lemma resolve_texts (m : Bundle.marker) (pieces : list Bundle.piece) :
  Bundle.occurs "#"%char r = false ->
  (forall t, In (Bundle.Text t) pieces -> Bundle.occurs "#"%char t = false) ->
  forall t, In (Bundle.Text t) (map (Bundle.resolve m r) pieces) ->
            Bundle.occurs "#"%char t = false.
Proof.
  intros R T t H. apply in_map_iff in H as [p [E H]].
  destruct p as [t'|n]; cbn [Bundle.resolve] in E.
  - inversion E. subst t'. now apply T.
  - destruct (Bundle.marker_eqb n m); [|discriminate].
    inversion E. now subst t.
Qed.

End Markers.

Ltac free_of_character A :=
  let x := fresh "x" in
  let H := fresh "H" in
  let f := fresh "f" in
  let F := fresh "F" in
  apply occurs_join; [reflexivity|];
  intros x H; apply in_map_iff in H as [f [<- F]];
  unfold Bundle.importLine, Bundle.appLine;
  rewrite ?occurs_append;
  let E := fresh "E" in
  let E' := fresh "E" in
  destruct (A f F) as (E & E' & _); rewrite ?E, ?E'; reflexivity.

Lemma meant_without_hash (filesList : list Bundle.fileObject) (m : Bundle.marker) :
  (forall f, In f filesList ->
             Bundle.occurs "#"%char (Bundle.fileName f) = false
             /\ Bundle.occurs "#"%char (Bundle.path f) = false /\ True) ->
  Bundle.occurs "#"%char (Bundle.meant filesList m) = false.
Proof. intros A. destruct m; cbn [Bundle.meant]; free_of_character A. Qed.

Lemma meant_without_dollar (filesList : list Bundle.fileObject) (m : Bundle.marker) :
  (forall f, In f filesList ->
             Bundle.occurs "$"%char (Bundle.fileName f) = false
             /\ Bundle.occurs "$"%char (Bundle.path f) = false /\ True) ->
  Bundle.occurs "$"%char (Bundle.meant filesList m) = false.
Proof. intros A. destruct m; cbn [Bundle.meant]; free_of_character A. Qed.

Lemma resolved_all (show : Bundle.marker -> string) (pieces : list Bundle.piece) :
  Bundle.render Bundle.written
    (map (Bundle.resolve Bundle.Apps (show Bundle.Apps))
       (map (Bundle.resolve Bundle.Names (show Bundle.Names))
          (map (Bundle.resolve Bundle.Imports (show Bundle.Imports)) pieces)))
  = Bundle.render show pieces.
Proof.
  induction pieces as [|p ps IH]; [reflexivity|].
  cbn [map Bundle.render fold_right].
  fold (Bundle.render show ps). rewrite <- IH.
  now destruct p as [t|[]].
Qed.

(** X19. The index file of a bundle is its template with each marker given
    its text: wherever [#dependenciesImports] is written, the import lines;
    wherever [#allDependencies] is written, the names between commas;
    wherever [#dependenciesApp] is written, the assignments to [app]; the
    text between the markers as it is.  This holds for a template whose only
    [#] are those of the markers, and names and paths that hold neither [#]
    nor [$]. *)
Theorem index_file_fills_template (pieces : list Bundle.piece)
  (filesList : list Bundle.fileObject) :
  (forall t, In (Bundle.Text t) pieces -> Bundle.occurs "#"%char t = false) ->
  (forall f, In f filesList ->
             Bundle.occurs "#"%char (Bundle.fileName f) = false
             /\ Bundle.occurs "#"%char (Bundle.path f) = false
             /\ Bundle.occurs "$"%char (Bundle.fileName f) = false
             /\ Bundle.occurs "$"%char (Bundle.path f) = false) ->
  Bundle.createJsBundleIndexFile (Bundle.render Bundle.written pieces) filesList
  = Bundle.render (Bundle.meant filesList) pieces.
Proof.
  intros T A.
  assert (Hash : forall m, Bundle.occurs "#"%char (Bundle.meant filesList m) = false).
  { intros m. apply meant_without_hash. intros f F.
    destruct (A f F) as (? & ? & _). auto. }
  assert (Dollar : forall m, Bundle.occurs "$"%char (Bundle.meant filesList m) = false).
  { intros m. apply meant_without_dollar. intros f F.
    destruct (A f F) as (_ & _ & ? & ?). auto. }
  unfold Bundle.createJsBundleIndexFile, Bundle.replaceAll.
  change (Str.join Bundle.newline (map Bundle.importLine filesList))
    with (Bundle.meant filesList Bundle.Imports).
  change (Str.join "," (map Bundle.fileName filesList))
    with (Bundle.meant filesList Bundle.Names).
  change (Str.join Bundle.newline (map Bundle.appLine filesList))
    with (Bundle.meant filesList Bundle.Apps).
  cbv zeta.
  rewrite (replace_marker _ (Dollar Bundle.Imports) Bundle.Imports pieces T).
  rewrite (replace_marker _ (Dollar Bundle.Names) Bundle.Names _
             (resolve_texts _ Bundle.Imports pieces (Hash Bundle.Imports) T)).
  rewrite (replace_marker _ (Dollar Bundle.Apps) Bundle.Apps _
             (resolve_texts _ Bundle.Names _ (Hash Bundle.Names)
                (resolve_texts _ Bundle.Imports pieces (Hash Bundle.Imports) T))).
  apply resolved_all.
Qed.

Lemma index_file_fills_template_witness :
  Bundle.createJsBundleIndexFile
    (Bundle.render Bundle.written Bundle.template) Bundle.dependencies
  = Bundle.render (Bundle.meant Bundle.dependencies) Bundle.template.
Proof.
  apply (index_file_fills_template Bundle.template Bundle.dependencies).
  - intros t H. cbn in H.
    repeat (destruct H as [H|H]; [try discriminate H; inversion H; reflexivity|]).
    destruct H.
  - intros f H. cbn in H.
    repeat (destruct H as [H|H]; [subst f; repeat split|]).
    destruct H.
Defined.

(** X20. A template in which no [#] is written is the index file, whatever
    the files are. *)
Theorem template_without_markers (appLevelIndexTemplate : string)
  (filesList : list Bundle.fileObject) :
  Bundle.occurs "#"%char appLevelIndexTemplate = false ->
  Bundle.createJsBundleIndexFile appLevelIndexTemplate filesList
  = appLevelIndexTemplate.
Proof.
  intros H. unfold Bundle.createJsBundleIndexFile, Bundle.replaceAll. cbv zeta.
  now rewrite !(scan_text _ _ appLevelIndexTemplate H).
Qed.

Lemma template_without_markers_witness :
  Bundle.createJsBundleIndexFile "export default {};" Bundle.dependencies
  = "export default {};".
Proof.
  exact (template_without_markers "export default {};" Bundle.dependencies eq_refl).
Defined.

(** The instance, in full. *)
Example index_file_of_two_dependencies :
  Bundle.createJsBundleIndexFile
    (Bundle.render Bundle.written Bundle.template) Bundle.dependencies
  = ("import cart from '/project/app-level/shop/cart.js';" ++ Bundle.newline
     ++ "import price from '/project/app-level/shop/price.js';" ++ Bundle.newline
     ++ "var app = {};" ++ Bundle.newline
     ++ "app['cart'] = cart;" ++ Bundle.newline
     ++ "app['price'] = price;" ++ Bundle.newline
     ++ "export { cart,price };")%string.
Proof. vm_compute. reflexivity. Qed.

(** A dollar in a path is read as part of a replacement pattern: of two
    dollars one is left. *)
Example dollar_in_a_path :
  Bundle.createJsBundleIndexFile "#dependenciesImports"
    [{| Bundle.fileName := "price"; Bundle.path := "/shop/$$price.js" |}]
  = "import price from '/shop/$price.js';".
Proof. vm_compute. reflexivity. Qed.

(* ------------------------------------------------------------------------- *)
(** ** Removing the files of a bundle *)

Section Clearing.

Variable refused : string -> bool.
Variables outputFilePath entryFilePath : string.
Variable fs : Bundle.present.

(** X21. Both generated files are removed and nothing else is: when the two
    paths differ, both files exist and neither removal is refused, and the
    bundle is not an [oeLibs] one, [done] is called with ['success'], the
    two files are gone and every other file is where it was. *)
Theorem clear_removes_both :
  outputFilePath <> entryFilePath ->
  fs outputFilePath = true -> fs entryFilePath = true ->
  refused outputFilePath = false -> refused entryFilePath = false ->
  Str.contains "oeLibs" entryFilePath = false ->
  exists fs',
    Bundle.clearJsBundleFiles refused outputFilePath entryFilePath fs
    = (Bundle.Done None (Some "success"), fs')
    /\ fs' outputFilePath = false
    /\ fs' entryFilePath = false
    /\ forall other,
         other <> outputFilePath -> other <> entryFilePath ->
         fs' other = fs other.
Proof.
  intros N O E RO RE L. unfold Bundle.clearJsBundleFiles, Bundle.unlinkSync.
  rewrite O, RO. cbn [andb negb].
  destruct (String.eqb_spec entryFilePath outputFilePath) as [Q|_]; [congruence|].
  rewrite E, RE, L. cbn [andb negb]. eexists. split; [reflexivity|].
  cbv beta. rewrite !String.eqb_refl.
  split; [now destruct (String.eqb outputFilePath entryFilePath)|].
  split; [reflexivity|]. intros other NO NE.
  destruct (String.eqb_spec other entryFilePath); [congruence|].
  destruct (String.eqb_spec other outputFilePath); [congruence|reflexivity].
Qed.

(** X22. The removal stops at the first file that cannot be removed. When
    the output file cannot be removed, [done] gets the error and no file is
    removed, the entry file neither. When the output file is removed and the
    entry file cannot be, [done] gets the error and the output file stays
    removed, every other file being where it was. *)
Theorem clear_stops_at_failure :
  (andb (fs outputFilePath) (negb (refused outputFilePath)) = false ->
   Bundle.clearJsBundleFiles refused outputFilePath entryFilePath fs
   = (Bundle.Done (Some outputFilePath) None, fs))
  /\ (fs outputFilePath = true -> refused outputFilePath = false ->
      outputFilePath <> entryFilePath ->
      andb (fs entryFilePath) (negb (refused entryFilePath)) = false ->
      exists fs',
        Bundle.clearJsBundleFiles refused outputFilePath entryFilePath fs
        = (Bundle.Done (Some entryFilePath) None, fs')
        /\ fs' outputFilePath = false
        /\ forall other, other <> outputFilePath -> fs' other = fs other).
Proof.
  unfold Bundle.clearJsBundleFiles, Bundle.unlinkSync. split.
  - now intros ->.
  - intros O RO N E. rewrite O, RO. cbn [andb negb].
    destruct (String.eqb_spec entryFilePath outputFilePath) as [Q|_]; [congruence|].
    rewrite E. eexists. split; [reflexivity|]. cbv beta.
    rewrite String.eqb_refl. split; [reflexivity|]. intros other NO.
    destruct (String.eqb_spec other outputFilePath); [congruence|reflexivity].
Qed.

End Clearing.

Lemma clear_removes_both_witness :
  exists fs',
    Bundle.clearJsBundleFiles (fun _ => false)
      "/project/app-level/shop/shop.js" "/project/app-level/shop/index.js"
      Bundle.generated
    = (Bundle.Done None (Some "success"), fs')
    /\ fs' "/project/app-level/shop/shop.js" = false
    /\ fs' "/project/app-level/shop/index.js" = false
    /\ forall other,
         other <> "/project/app-level/shop/shop.js" ->
         other <> "/project/app-level/shop/index.js" ->
         fs' other = Bundle.generated other.
Proof.
  refine (clear_removes_both (fun _ => false)
            "/project/app-level/shop/shop.js" "/project/app-level/shop/index.js"
            Bundle.generated _ eq_refl eq_refl eq_refl eq_refl eq_refl).
  discriminate.
Defined.

Lemma clear_stops_at_failure_witness :
  Bundle.clearJsBundleFiles (fun _ => false)
    "/project/app-level/shop/missing.js" "/project/app-level/shop/index.js"
    Bundle.generated
  = (Bundle.Done (Some "/project/app-level/shop/missing.js") None, Bundle.generated).
Proof.
  exact (proj1 (clear_stops_at_failure (fun _ => false)
                  "/project/app-level/shop/missing.js"
                  "/project/app-level/shop/index.js" Bundle.generated) eq_refl).
Defined.

(** The same path for the two files: the second removal finds no file, and
    [done] gets its error although the file has been removed. *)
Example clear_same_file_twice :
  fst (Bundle.clearJsBundleFiles (fun _ => false)
         "/project/app-level/shop/index.js" "/project/app-level/shop/index.js"
         Bundle.generated)
  = Bundle.Done (Some "/project/app-level/shop/index.js") None.
Proof. reflexivity. Qed.

(* ------------------------------------------------------------------------- *)
(** ** An enrichment that fails *)

Section Recovery.

Variable env : Env.
Variable operationsIds : list value.

(** Whether the sample fetch returns or throws, and what, does not depend on
    the state it starts from. *)
Lemma fetchSample_settles_alike (method : string) (endpointMapData : json)
  (st st' : state) :
  fst (fetchSample env method endpointMapData st)
  = fst (fetchSample env method endpointMapData st').
Proof.
  unfold fetchSample, bind, lift, ret.
  destruct (get endpointMapData "url") as [url|e]; [|reflexivity].
  destruct (andb _ _); [|reflexivity].
  pose proof (makeRequest_settles_alike env (dns env ++ to_string_of url) st st') as A.
  destruct (makeRequest env (dns env ++ to_string_of url) st) as [[r|e] s];
    destruct (makeRequest env (dns env ++ to_string_of url) st') as [[r'|e'] s'];
    simpl in A; try discriminate; now inversion A.
Qed.

End Recovery.

(** X23. An enrichment that fails is recovered, and the run goes on with the
    entry in the document. Take a registry whose entries have strings for
    method and URL, and in it an entry that the schema lacks, whose sample
    fetch throws (the request, or the parsing of its body). Then the merge
    returns; and if the path key of the entry is not [__proto__] and no later
    round writes to it, the merged paths hold at that key one method, the
    entry's own in lower case, whose operation has the id of the entry for
    its summary and its operation id, [application/json] for what it
    produces, and one response, [200], with the empty object for its
    [application/json] example. *)
Theorem failed_enrichment_is_recovered (env : Env) (operationsIds : list value)
  (before after : list (string * json)) (key method url : string)
  (props paths : list (string * json)) (st : state) (e : error) :
  Forall (fun entry =>
            exists props method url,
              snd entry = JObj props
              /\ lookup "method" props = Some (JStr method)
              /\ lookup "url" props = Some (JStr url)) (before ++ after)%list ->
  includes operationsIds key = false ->
  lookup "method" props = Some (JStr method) ->
  lookup "url" props = Some (JStr url) ->
  fst (fetchSample env (Str.toLowerCase method) (JObj props) st) = Throw e ->
  pathKey url <> "__proto__" ->
  ~ In (pathKey url) (writtenKeys operationsIds after) ->
  exists paths' : list (string * json),
    fst (merge env operationsIds (before ++ (key, JObj props) :: after)%list paths st)
    = Ok paths'
    /\ lookup (pathKey url) paths'
       = Some
           (JObj
              [(Str.toLowerCase method,
                JObj
                  (field "summary" (lookup "id" props)
                   ++ field "operationId" (lookup "id" props)
                   ++ [("produces", JArr [JStr "application/json"]);
                       ("responses",
                        JObj [("200",
                               JObj [("examples",
                                      JObj [("application/json", JObj [])])])])])%list)]).
Proof.
  intros W I Hm Hu F Hk N.
  apply Forall_app in W. destruct W as [Wb Wa].
  assert (W : Forall (fun entry =>
                        exists props method url,
                          snd entry = JObj props
                          /\ lookup "method" props = Some (JStr method)
                          /\ lookup "url" props = Some (JStr url))
                (before ++ (key, JObj props) :: after)%list).
  { apply Forall_app. split; [exact Wb|]. constructor; [|exact Wa].
    exists props, method, url. auto. }
  destruct (merge_returns env operationsIds _ W paths st) as [paths' R].
  exists paths'. split; [exact R|].
  destruct (merge env operationsIds (before ++ (key, JObj props) :: after)%list paths st)
    as [o st'] eqn:M.
  simpl in R. subst o. unfold merge in M.
  apply for_each_split in M. destruct M as (acc1 & s1 & _ & M).
  simpl for_each in M. returned M as paths1 s2 H1.
  rewrite (fetchSample_settles_alike env _ _ st s1) in F.
  rewrite (mergeEntry_failed_sample env _ _ _ _ _ _ _ _ I Hm Hu F) in H1.
  injection H1 as <- _.
  rewrite (merge_other_keys env operationsIds after _ _ _ _ M _ N).
  now apply lookup_assign.
Qed.

Lemma failed_enrichment_is_recovered_witness :
  exists paths' : list (string * json),
    fst (merge (Demo.world Demo.schema) [Some (JStr "listItems"); Some (JStr "getItem")]
           ([Demo.endpoint "listItems" "GET" "/ccstoreui/v1/items";
             Demo.endpoint "getPing" "GET" "/ccstoreui/v1/ping"]
            ++ ("getStatus",
                JObj [("id", JStr "getStatus"); ("method", JStr "GET");
                      ("url", JStr "/ccstoreui/v1/status")])
               :: [Demo.endpoint "updateOrder" "PUT" "/ccstoreui/v1/orders/{}"])%list
           Demo.schemaPaths Demo.blank)
    = Ok paths'
    /\ lookup (pathKey "/ccstoreui/v1/status") paths'
       = Some
           (JObj
              [(Str.toLowerCase "GET",
                JObj
                  (field "summary"
                     (lookup "id" [("id", JStr "getStatus"); ("method", JStr "GET");
                                   ("url", JStr "/ccstoreui/v1/status")])
                   ++ field "operationId"
                        (lookup "id" [("id", JStr "getStatus"); ("method", JStr "GET");
                                      ("url", JStr "/ccstoreui/v1/status")])
                   ++ [("produces", JArr [JStr "application/json"]);
                       ("responses",
                        JObj [("200",
                               JObj [("examples",
                                      JObj [("application/json", JObj [])])])])])%list)]).
Proof.
  refine (failed_enrichment_is_recovered (Demo.world Demo.schema)
            [Some (JStr "listItems"); Some (JStr "getItem")]
            [Demo.endpoint "listItems" "GET" "/ccstoreui/v1/items";
             Demo.endpoint "getPing" "GET" "/ccstoreui/v1/ping"]
            [Demo.endpoint "updateOrder" "PUT" "/ccstoreui/v1/orders/{}"]
            "getStatus" "GET" "/ccstoreui/v1/status"
            [("id", JStr "getStatus"); ("method", JStr "GET");
             ("url", JStr "/ccstoreui/v1/status")]
            Demo.schemaPaths Demo.blank (TransportError "ECONNRESET")
            _ eq_refl eq_refl eq_refl eq_refl _ _).
  - repeat constructor; eexists; eexists; eexists; repeat split.
  - discriminate.
  - simpl. intuition discriminate.
Defined.
